(** * LLMEvaluator: judgment extraction and verdict scoring

    A shallow embedding of
      - [schemas/evaluation.py]      (class [EvaluationResponse]),
      - [utils/llm_output_parser.py] (the module-level extraction pipeline),
      - [schemas/scoring_rvc.py]     (class [ScoreSchemaRVC]),
    together with the properties of the specification that concern them.

    Conventions of the embedding.
      - Python text is a [string] over the code points 0..255; on that
        alphabet [lower], [strip], the whitespace class and the digit class
        below agree with [str.lower], [str.strip], the regex class \s and
        the regex class \d.  One step of the program behaves on a text
        outside the alphabet as on no text inside it, the serialization of
        a record whose reasoning holds a lone surrogate; [Unicode] gives
        the texts by code points that this step needs.
      - A Python call that may raise is a value of [result]; [try]/[except]
        is [try_except].
      - The functions of the Python standard library that parse text
        ([json.loads], [ast.literal_eval]) are parameters of the pipelines,
        so that every general theorem holds whatever these functions
        return; [JsonLib] and [AstLib] give executable models of them on a
        fragment of their input language, used to run the pipelines on
        concrete texts.  The serializer of the data model
        ([model_dump_json]) is a parameter in the same way, with
        [PydanticLib] as its executable model.
      - The embedding comes first; [Props] and [Examples] then fix the
        vocabulary and the texts of the statements, and the modules after
        them hold the proofs. *)

From Stdlib Require Import String Ascii List ZArith Bool Lia Floats DecimalString.
Import ListNotations.
Set Warnings "-inexact-float,-register-all".
Open Scope string_scope.

(* ================================================================== *)
(** ** Text *)

Module Text.

Definition code (c : ascii) : nat := nat_of_ascii c.

Definition in_range (lo hi : nat) (c : ascii) : bool :=
  (lo <=? code c)%nat && (code c <=? hi)%nat.

Definition dquote : ascii := "034"%char.
Definition squote : ascii := "039"%char.
Definition backslash : ascii := "092"%char.
Definition newline : ascii := "010"%char.

(** [str.isspace] on one character: TAB LF VT FF CR, FS GS RS US, space,
    NEL and NBSP. *)
Definition isspace (c : ascii) : bool :=
  in_range 9 13 c || in_range 28 32 c
  || Nat.eqb (code c) 133 || Nat.eqb (code c) 160.

Definition isdigit (c : ascii) : bool := in_range 48 57 c.

(** Cased letters: A-Z and the upper-case letters of the Latin-1 block. *)
Definition isupper (c : ascii) : bool :=
  in_range 65 90 c || in_range 192 214 c || in_range 216 222 c.

Definition islower_with_upper (c : ascii) : bool :=
  in_range 97 122 c || in_range 224 246 c || in_range 248 254 c.

Definition lower_char (c : ascii) : ascii :=
  if isupper c then ascii_of_nat (code c + 32) else c.

(** Upper-casing; the three lower-case letters whose capital lies outside
    the alphabet (181, 223, 255) never occur where the program capitalizes. *)
Definition upper_char (c : ascii) : ascii :=
  if islower_with_upper c then ascii_of_nat (code c - 32) else c.

(** [s.lower()] *)
Fixpoint lower (s : string) : string :=
  match s with
  | EmptyString => EmptyString
  | String c t => String (lower_char c) (lower t)
  end.

(** [s.capitalize()] *)
Definition capitalize (s : string) : string :=
  match s with
  | EmptyString => EmptyString
  | String c t => String (upper_char c) (lower t)
  end.

(** [s.lstrip()], [s.rstrip()], [s.strip()] *)
Fixpoint lstrip (s : string) : string :=
  match s with
  | EmptyString => EmptyString
  | String c t => if isspace c then lstrip t else s
  end.

Fixpoint rstrip (s : string) : string :=
  match s with
  | EmptyString => EmptyString
  | String c t =>
      match rstrip t with
      | EmptyString => if isspace c then EmptyString else String c EmptyString
      | r => String c r
      end
  end.

Definition strip (s : string) : string := rstrip (lstrip s).

(** [s.startswith(p)] *)
Fixpoint startswith (p s : string) : bool :=
  match p, s with
  | EmptyString, _ => true
  | String a p', String b s' => Ascii.eqb a b && startswith p' s'
  | String _ _, EmptyString => false
  end.

(** [needle in hay] *)
Fixpoint str_in (needle hay : string) : bool :=
  startswith needle hay ||
  match hay with
  | EmptyString => false
  | String _ t => str_in needle t
  end.

Fixpoint drop (n : nat) (s : string) : string :=
  match n, s with
  | O, _ => s
  | S _, EmptyString => EmptyString
  | S m, String _ t => drop m t
  end.

(** The text before and the text after the leftmost occurrence of
    [needle] in [hay]. *)
Fixpoint split_at (needle hay : string) : option (string * string) :=
  if startswith needle hay then
    Some (EmptyString, drop (String.length needle) hay)
  else
    match hay with
    | EmptyString => None
    | String c t =>
        match split_at needle t with
        | Some (before, after) => Some (String c before, after)
        | None => None
        end
    end.

(** [s.replace(c, '')] for a one-character [c]. *)
Fixpoint remove_char (c : ascii) (s : string) : string :=
  match s with
  | EmptyString => EmptyString
  | String a t => if Ascii.eqb a c then remove_char c t
                  else String a (remove_char c t)
  end.

Fixpoint rev_onto (s acc : string) : string :=
  match s with
  | EmptyString => acc
  | String c t => rev_onto t (String c acc)
  end.

Definition rev (s : string) : string := rev_onto s EmptyString.

Fixpoint join (sep : string) (l : list string) : string :=
  match l with
  | [] => EmptyString
  | [x] => x
  | x :: r => x ++ sep ++ join sep r
  end.

Definition is_empty (s : string) : bool :=
  match s with EmptyString => true | _ => false end.

(** A text between double quotes, for writing JSON texts. *)
Definition q (s : string) : string :=
  String dquote s ++ String dquote EmptyString.

(** Declarative counterpart of [str_in]. *)
Definition occurs_in (needle hay : string) : Prop :=
  exists before after, hay = before ++ needle ++ after.

End Text.

(* ================================================================== *)
(** ** Texts by code points *)

(** A Python text as the list of its code points, for the texts that lie
    outside the alphabet of [string]. *)
Module Unicode.

Definition text : Type := list N.

Definition of_string (s : string) : text :=
  map N_of_ascii (list_ascii_of_string s).

(** The text as a [string], when all its code points are below 256. *)
Fixpoint to_string (t : text) : option string :=
  match t with
  | [] => Some EmptyString
  | c :: r =>
      if (c <? 256)%N then option_map (String (ascii_of_N c)) (to_string r)
      else None
  end.

(** The code points U+D800..U+DFFF, which no encoding of a text has. *)
Definition is_surrogate (c : N) : bool :=
  (55296 <=? c)%N && (c <=? 57343)%N.

(** [str.isspace] on one character. *)
Definition isspace (c : N) : bool :=
  if (c <? 256)%N then Text.isspace (ascii_of_N c)
  else (N.eqb c 5760) || ((8192 <=? c)%N && (c <=? 8202)%N)
       || (N.eqb c 8232) || (N.eqb c 8233) || (N.eqb c 8239)
       || (N.eqb c 8287) || (N.eqb c 12288).

(** [s.lstrip()], [s.rstrip()], [s.strip()] *)
Fixpoint lstrip (t : text) : text :=
  match t with
  | [] => []
  | c :: r => if isspace c then lstrip r else t
  end.

Fixpoint rstrip (t : text) : text :=
  match t with
  | [] => []
  | c :: r =>
      match rstrip r with
      | [] => if isspace c then [] else [c]
      | r' => c :: r'
      end
  end.

Definition strip (t : text) : text := rstrip (lstrip t).

Definition is_empty (t : text) : bool :=
  match t with [] => true | _ => false end.

End Unicode.
Import Text.

(* ================================================================== *)
(** ** Exceptions and results *)

(** The exceptions (all below [Exception]) that cross a function boundary
    in the modelled code.  [ValidationError] carries pydantic's error list
    as pairs (location, error type); [PydanticSerializationError] is what
    pydantic's serializer raises.  [NotModelled] is not a Python
    exception: the executable library models return it on a text outside
    the fragment they cover. *)
Inductive exn : Type :=
| JSONDecodeError
| ValueError
| SyntaxError
| TypeError
| AttributeError
| KeyError
| ValidationError (errors : list (string * string))
| PydanticSerializationError
| OtherException (name : string)
| NotModelled.

(** The classes named in the [except] clauses of the program. *)
Inductive exn_class : Type :=
| CException | CValueError | CJSONDecodeError | CSyntaxError | CTypeError.

(** [isinstance(e, cls)], with [JSONDecodeError] and pydantic's
    [ValidationError] and [PydanticSerializationError] below
    [ValueError]. *)
Definition isinstance (e : exn) (cls : exn_class) : bool :=
  match cls, e with
  | CException, _ => true
  | CValueError, (ValueError | JSONDecodeError | ValidationError _
                 | PydanticSerializationError) => true
  | CJSONDecodeError, JSONDecodeError => true
  | CSyntaxError, SyntaxError => true
  | CTypeError, TypeError => true
  | _, _ => false
  end.

Inductive result (A : Type) : Type :=
| Ok (a : A)
| Raise (e : exn).
Arguments Ok {A} a.
Arguments Raise {A} e.

Definition bind {A B} (r : result A) (k : A -> result B) : result B :=
  match r with
  | Ok a => k a
  | Raise e => Raise e
  end.

Declare Scope py_scope.
Delimit Scope py_scope with py.
Notation "x <- e ;; k" := (bind e (fun x => k))
  (at level 61, e at next level, right associativity) : py_scope.
Notation "' p <- e ;; k" := (bind e (fun x => let p := x in k))
  (at level 61, p pattern, e at next level, right associativity) : py_scope.
Open Scope py_scope.

(** [try: body  except classes: handler] *)
Definition try_except {A} (body : result A) (classes : list exn_class)
    (handler : result A) : result A :=
  match body with
  | Ok a => Ok a
  | Raise e => if existsb (isinstance e) classes then handler else Raise e
  end.

Definition raises {A} (r : result A) : Prop := exists e, r = Raise e.

(* ================================================================== *)
(** ** Python values *)

(** The values that [json.loads] produces, and those of
    [ast.literal_eval] but for byte strings, complex numbers and
    [Ellipsis].  A float is identified by its [repr]; a dictionary is its
    items in insertion order, keys pairwise distinct; a set is its
    elements in iteration order. *)
Inductive pyval : Type :=
| PyNone
| PyBool (b : bool)
| PyInt (z : Z)
| PyFloat (repr : string)
| PyStr (s : string)
| PyList (l : list pyval)
| PyTuple (l : list pyval)
| PyDict (items : list (pyval * pyval))
| PySet (l : list pyval).

Module Py.

(** [bool(v)] *)
Definition truthy (v : pyval) : bool :=
  match v with
  | PyNone => false
  | PyBool b => b
  | PyInt z => negb (Z.eqb z 0)
  | PyFloat r => negb (String.eqb r "0.0" || String.eqb r "-0.0")
  | PyStr s => negb (is_empty s)
  | PyList l | PyTuple l | PySet l =>
      match l with [] => false | _ => true end
  | PyDict d => match d with [] => false | _ => true end
  end.

(** [key == k] for a text [k]: only an equal text compares equal. *)
Definition key_is (k : string) (key : pyval) : bool :=
  match key with
  | PyStr s => String.eqb s k
  | _ => false
  end.

(** [d.get(k)] on the items of a dictionary, [None] of [option] when [k]
    is not a key. *)
Fixpoint lookup (d : list (pyval * pyval)) (k : string) : option pyval :=
  match d with
  | [] => None
  | (key, v) :: r => if key_is k key then Some v else lookup r k
  end.

(** [d.get(k)] and [d.get(k, default)] *)
Definition get (d : list (pyval * pyval)) (k : string) : pyval :=
  match lookup d k with Some v => v | None => PyNone end.

Definition get_default (d : list (pyval * pyval)) (k : string)
    (default : pyval) : pyval :=
  match lookup d k with Some v => v | None => default end.

(** [d[k] = v]: an existing key keeps its position. *)
Fixpoint set (d : list (pyval * pyval)) (k : string) (v : pyval)
    : list (pyval * pyval) :=
  match d with
  | [] => [(PyStr k, v)]
  | (key, w) :: r =>
      if key_is k key then (key, v) :: r else (key, w) :: set r k v
  end.

(** [v.keys()] *)
Definition keys (v : pyval) : result (list pyval) :=
  match v with
  | PyDict d => Ok (map fst d)
  | _ => Raise AttributeError
  end.

(** [v.items()] *)
Definition items (v : pyval) : result (list (pyval * pyval)) :=
  match v with
  | PyDict d => Ok d
  | _ => Raise AttributeError
  end.

(** [v.lower()]: among the values of [pyval] only a text has the method.
    (A byte string has it too; byte strings are not values of [pyval],
    and the statements that depend on the keys of a parsed dictionary ask
    for text keys.) *)
Definition method_lower (v : pyval) : result string :=
  match v with
  | PyStr s => Ok (lower s)
  | _ => Raise AttributeError
  end.

(** [set(required).issubset(ks)] *)
Definition issubset (required : list string) (ks : list pyval) : bool :=
  forallb (fun k => existsb (key_is k) ks) required.

(** [v[k]] for a text [k]. *)
Definition getitem (v : pyval) (k : string) : result pyval :=
  match v with
  | PyDict d =>
      match lookup d k with Some x => Ok x | None => Raise KeyError end
  | _ => Raise TypeError
  end.

(** *** [repr] and [str] *)

Definition hex_digit (n : nat) : ascii :=
  if (n <? 10)%nat then ascii_of_nat (48 + n) else ascii_of_nat (87 + n).

Definition isprintable (c : ascii) : bool :=
  in_range 32 126 c || in_range 161 172 c || in_range 174 255 c.

Definition repr_char (quote : ascii) (c : ascii) : string :=
  if Ascii.eqb c backslash then String backslash (String backslash EmptyString)
  else if Ascii.eqb c quote then String backslash (String quote EmptyString)
  else if Nat.eqb (code c) 9 then String backslash "t"
  else if Nat.eqb (code c) 10 then String backslash "n"
  else if Nat.eqb (code c) 13 then String backslash "r"
  else if isprintable c then String c EmptyString
  else String backslash
         (String "x" (String (hex_digit (code c / 16))
                        (String (hex_digit (code c mod 16)) EmptyString))).

Fixpoint repr_body (quote : ascii) (s : string) : string :=
  match s with
  | EmptyString => EmptyString
  | String c t => repr_char quote c ++ repr_body quote t
  end.

Definition repr_str (s : string) : string :=
  let quote :=
    if str_in (String squote EmptyString) s
       && negb (str_in (String dquote EmptyString) s)
    then dquote else squote in
  String quote (repr_body quote s) ++ String quote EmptyString.

Definition repr_int (z : Z) : string := NilZero.string_of_int (Z.to_int z).

Fixpoint repr (v : pyval) : string :=
  match v with
  | PyNone => "None"
  | PyBool true => "True"
  | PyBool false => "False"
  | PyInt z => repr_int z
  | PyFloat r => r
  | PyStr s => repr_str s
  | PyList l => "[" ++ join ", " (map repr l) ++ "]"
  | PyTuple [x] => "(" ++ repr x ++ ",)"
  | PyTuple l => "(" ++ join ", " (map repr l) ++ ")"
  | PyDict d =>
      "{" ++ join ", "
               ((fix items (d : list (pyval * pyval)) : list string :=
                   match d with
                   | [] => []
                   | (k, x) :: r => (repr k ++ ": " ++ repr x) :: items r
                   end) d) ++ "}"
  | PySet [] => "set()"
  | PySet l => "{" ++ join ", " (map repr l) ++ "}"
  end.

(** [str(v)] *)
Definition str (v : pyval) : string :=
  match v with
  | PyStr s => s
  | _ => repr v
  end.

End Py.

(* ================================================================== *)
(** ** The regular expressions of the program *)

Module Re.

Definition lbrace : ascii := "{"%char.
Definition rbrace : ascii := "}"%char.

(** [re.search(r'\{[^{}]*\}', s)]: the leftmost match is the first closing
    brace whose nearest brace to the left is an opening one, together with
    the text from that opening brace on.  [pending] is that text so far,
    reversed. *)
Fixpoint search_blob_from (s : string) (pending : option string)
    : option string :=
  match s with
  | EmptyString => None
  | String c t =>
      if Ascii.eqb c lbrace then
        search_blob_from t (Some (String c EmptyString))
      else if Ascii.eqb c rbrace then
        match pending with
        | Some acc => Some (rev (String c acc))
        | None => search_blob_from t None
        end
      else search_blob_from t (option_map (String c) pending)
  end.

Definition search_blob (s : string) : option string :=
  search_blob_from s None.

(** Case-insensitive literal matching ([re.IGNORECASE]) on the alphabet.
    (On a text outside it the flag matches more: the letters s and i of a
    pattern also match U+017F and U+0131.) *)
Fixpoint iprefix (p s : string) : bool :=
  match p, s with
  | EmptyString, _ => true
  | String a p', String b s' =>
      Ascii.eqb (lower_char a) (lower_char b) && iprefix p' s'
  | String _ _, EmptyString => false
  end.

Fixpoint isplit_at (needle hay : string) : option (string * string) :=
  if iprefix needle hay then
    Some (EmptyString, drop (String.length needle) hay)
  else
    match hay with
    | EmptyString => None
    | String c t =>
        match isplit_at needle t with
        | Some (before, after) => Some (String c before, after)
        | None => None
        end
    end.

(** The three patterns given to [extract_section], all searched with
    [re.DOTALL | re.IGNORECASE]: a label, a lazy group and the next label
    ([Between]), or a label and a greedy group up to the end ([After]). *)
Inductive section_pattern : Type :=
| Between (label next : string)
| After (label : string).

(** [re.search(pattern, text, ...)] reduced to its group 1. *)
Definition search_group1 (p : section_pattern) (text : string)
    : option string :=
  match p with
  | Between label next =>
      match isplit_at label text with
      | Some (_, rest) =>
          match isplit_at next rest with
          | Some (inside, _) => Some inside
          | None => None
          end
      | None => None
      end
  | After label =>
      match isplit_at label text with
      | Some (_, rest) => Some rest
      | None => None
      end
  end.

(** [re.sub(r'^[markers]+\s*', '', text, flags=re.MULTILINE)] as a scan of
    the text.  A match starts at a line start on a marker, takes the run of
    markers and then the run of whitespace; the next match may start right
    where it ends when the last character it took is a newline. *)
Inductive sub_state : Type :=
| AtLineStart
| InMarkers
| InSpaces (after_newline : bool)
| Midline.

Definition after_char (c : ascii) : sub_state :=
  if Ascii.eqb c newline then AtLineStart else Midline.

Fixpoint sub_markers (ismarker : ascii -> bool) (st : sub_state)
    (s : string) : string :=
  match s with
  | EmptyString => EmptyString
  | String c t =>
      match st with
      | AtLineStart =>
          if ismarker c then sub_markers ismarker InMarkers t
          else String c (sub_markers ismarker (after_char c) t)
      | InMarkers =>
          if ismarker c then sub_markers ismarker InMarkers t
          else if isspace c then
            sub_markers ismarker (InSpaces (Ascii.eqb c newline)) t
          else String c (sub_markers ismarker Midline t)
      | InSpaces nl =>
          if isspace c then
            sub_markers ismarker (InSpaces (Ascii.eqb c newline)) t
          else if nl && ismarker c then sub_markers ismarker InMarkers t
          else String c (sub_markers ismarker Midline t)
      | Midline => String c (sub_markers ismarker (after_char c) t)
      end
  end.

End Re.

(* ================================================================== *)
(** ** An executable model of [json.loads] *)

(** The model covers JSON texts made of objects, arrays, strings, integers
    and the literals true, false and null.  Outside that fragment it
    answers [NotModelled]: numbers with a fraction or an exponent, NaN and
    Infinity, an escape \uXXXX above \u00ff, an integer of more than 4300
    digits.  The interpreter's recursion limit is not modelled.  Inside
    the fragment a text is either decoded or rejected with
    [JSONDecodeError], as [json.loads] does. *)
Module JsonLib.

Inductive token : Type :=
| TLBrace | TRBrace | TLBrack | TRBrack | TColon | TComma
| TString (s : string)
| TInt (z : Z)
| TTrue | TFalse | TNull.

(** The accumulators hold the characters read so far, last one first. *)
Inductive lex_state : Type :=
| Idle
| InString (acc : string)
| InEscape (acc : string)
| InUnicode (acc : string) (digits : list nat)
| InNumber (acc : string)
| InWord (acc : string).

Definition isalpha (c : ascii) : bool := in_range 65 90 c || in_range 97 122 c.

Definition hex_value (c : ascii) : option nat :=
  if isdigit c then Some (code c - 48)
  else if in_range 97 102 c then Some (code c - 87)
  else if in_range 65 70 c then Some (code c - 55)
  else None.

Definition is_json_space (c : ascii) : bool :=
  Nat.eqb (code c) 32 || Nat.eqb (code c) 9
  || Nat.eqb (code c) 10 || Nat.eqb (code c) 13.

Fixpoint digits_value (ds : string) (acc : Z) : Z :=
  match ds with
  | EmptyString => acc
  | String c t => digits_value t (10 * acc + Z.of_nat (code c - 48))
  end.

(** The integer written by a lexeme: an optional minus sign, then either
    a single 0 or digits that do not start with 0. *)
Definition number_of_lexeme (lexeme : string) : result Z :=
  let '(negative, ds) :=
    match lexeme with
    | String "-" t => (true, t)
    | _ => (false, lexeme)
    end in
  match ds with
  | EmptyString => Raise JSONDecodeError
  | String "0" (String _ _) => Raise JSONDecodeError
  | _ =>
      if (4300 <? String.length ds)%nat then Raise NotModelled
      else Ok (if negative then (- digits_value ds 0)%Z
               else digits_value ds 0)
  end.

Definition word_token (w : string) : result token :=
  if String.eqb w "true" then Ok TTrue
  else if String.eqb w "false" then Ok TFalse
  else if String.eqb w "null" then Ok TNull
  else if String.eqb w "NaN" || String.eqb w "Infinity" then Raise NotModelled
  else Raise JSONDecodeError.

(** The character that an escape letter stands for. *)
Definition escape_char (c : ascii) : option ascii :=
  if Ascii.eqb c dquote then Some dquote
  else if Ascii.eqb c backslash then Some backslash
  else if Ascii.eqb c "/" then Some "/"%char
  else if Ascii.eqb c "b" then Some "008"%char
  else if Ascii.eqb c "f" then Some "012"%char
  else if Ascii.eqb c "n" then Some "010"%char
  else if Ascii.eqb c "r" then Some "013"%char
  else if Ascii.eqb c "t" then Some "009"%char
  else None.

(** One character read between two tokens. *)
Definition start (c : ascii) (out : list token)
    : result (lex_state * list token) :=
  if is_json_space c then Ok (Idle, out)
  else if Ascii.eqb c "{" then Ok (Idle, TLBrace :: out)
  else if Ascii.eqb c "}" then Ok (Idle, TRBrace :: out)
  else if Ascii.eqb c "[" then Ok (Idle, TLBrack :: out)
  else if Ascii.eqb c "]" then Ok (Idle, TRBrack :: out)
  else if Ascii.eqb c ":" then Ok (Idle, TColon :: out)
  else if Ascii.eqb c "," then Ok (Idle, TComma :: out)
  else if Ascii.eqb c dquote then Ok (InString EmptyString, out)
  else if Ascii.eqb c "-" || isdigit c then
    Ok (InNumber (String c EmptyString), out)
  else if isalpha c then Ok (InWord (String c EmptyString), out)
  else Raise JSONDecodeError.

(** The token under construction is complete. *)
Definition finish (st : lex_state) (out : list token)
    : result (list token) :=
  match st with
  | Idle => Ok out
  | InNumber acc => z <- number_of_lexeme (rev acc) ;; Ok (TInt z :: out)
  | InWord acc => t <- word_token (rev acc) ;; Ok (t :: out)
  | InString _ | InEscape _ | InUnicode _ _ => Raise JSONDecodeError
  end.

Definition step (st : lex_state) (c : ascii) (out : list token)
    : result (lex_state * list token) :=
  match st with
  | Idle => start c out
  | InString acc =>
      if Ascii.eqb c dquote then Ok (Idle, TString (rev acc) :: out)
      else if Ascii.eqb c backslash then Ok (InEscape acc, out)
      else if (code c <? 32)%nat then Raise JSONDecodeError
      else Ok (InString (String c acc), out)
  | InEscape acc =>
      if Ascii.eqb c "u" then Ok (InUnicode acc [], out)
      else
        match escape_char c with
        | Some d => Ok (InString (String d acc), out)
        | None => Raise JSONDecodeError
        end
  | InUnicode acc ds =>
      match hex_value c, ds with
      | None, _ => Raise JSONDecodeError
      | Some d, [d1; d2; d3] =>
          if Nat.eqb d1 0 && Nat.eqb d2 0 then
            Ok (InString (String (ascii_of_nat (16 * d3 + d)) acc), out)
          else Raise NotModelled
      | Some d, _ => Ok (InUnicode acc (ds ++ [d])%list, out)
      end
  | InNumber acc =>
      if isdigit c then Ok (InNumber (String c acc), out)
      else if Ascii.eqb c "." || Ascii.eqb c "e" || Ascii.eqb c "E" then
        Raise NotModelled
      else if String.eqb acc "-" && isalpha c then Raise NotModelled
      else out' <- finish st out ;; start c out'
  | InWord acc =>
      if isalpha c then Ok (InWord (String c acc), out)
      else out' <- finish st out ;; start c out'
  end.

Fixpoint lex (s : string) (st : lex_state) (out : list token)
    : result (list token) :=
  match s with
  | EmptyString => out' <- finish st out ;; Ok (List.rev out')
  | String c t => '(st', out') <- step st c out ;; lex t st' out'
  end.

(** Recursive descent over the tokens.  Every call consumes one unit of
    fuel; [loads] gives two units per token. *)
Fixpoint value (fuel : nat) (ts : list token)
    : result (pyval * list token) :=
  match fuel with
  | O => Raise NotModelled
  | S fuel' =>
      match ts with
      | TString s :: r => Ok (PyStr s, r)
      | TInt z :: r => Ok (PyInt z, r)
      | TTrue :: r => Ok (PyBool true, r)
      | TFalse :: r => Ok (PyBool false, r)
      | TNull :: r => Ok (PyNone, r)
      | TLBrack :: TRBrack :: r => Ok (PyList [], r)
      | TLBrack :: r => elements fuel' r []
      | TLBrace :: TRBrace :: r => Ok (PyDict [], r)
      | TLBrace :: r => members fuel' r []
      | _ => Raise JSONDecodeError
      end
  end
with elements (fuel : nat) (ts : list token) (acc : list pyval)
    : result (pyval * list token) :=
  match fuel with
  | O => Raise NotModelled
  | S fuel' =>
      '(v, r) <- value fuel' ts ;;
      match r with
      | TComma :: r' => elements fuel' r' (v :: acc)
      | TRBrack :: r' => Ok (PyList (List.rev (v :: acc)), r')
      | _ => Raise JSONDecodeError
      end
  end
with members (fuel : nat) (ts : list token) (acc : list (pyval * pyval))
    : result (pyval * list token) :=
  match fuel with
  | O => Raise NotModelled
  | S fuel' =>
      match ts with
      | TString k :: TColon :: r =>
          '(v, r1) <- value fuel' r ;;
          match r1 with
          | TComma :: r' => members fuel' r' (Py.set acc k v)
          | TRBrace :: r' => Ok (PyDict (Py.set acc k v), r')
          | _ => Raise JSONDecodeError
          end
      | _ => Raise JSONDecodeError
      end
  end.

(** [json.loads(s)] *)
Definition loads (s : string) : result pyval :=
  ts <- lex s Idle [] ;;
  '(v, r) <- value (2 * List.length ts + 2) ts ;;
  match r with
  | [] => Ok v
  | _ => Raise JSONDecodeError
  end.

(** The JSON form of a text as pydantic's serializer writes it: quotes,
    backslashes and control characters escaped, everything else as is. *)
Definition dump_char (c : ascii) : string :=
  if Ascii.eqb c dquote then String backslash (String dquote EmptyString)
  else if Ascii.eqb c backslash then
    String backslash (String backslash EmptyString)
  else if Nat.eqb (code c) 8 then String backslash "b"
  else if Nat.eqb (code c) 9 then String backslash "t"
  else if Nat.eqb (code c) 10 then String backslash "n"
  else if Nat.eqb (code c) 12 then String backslash "f"
  else if Nat.eqb (code c) 13 then String backslash "r"
  else if (code c <? 32)%nat then
    String backslash
      (String "u" (String "0" (String "0"
         (String (Py.hex_digit (code c / 16))
            (String (Py.hex_digit (code c mod 16)) EmptyString)))))
  else String c EmptyString.

Fixpoint dump_body (s : string) : string :=
  match s with
  | EmptyString => EmptyString
  | String c t => dump_char c ++ dump_body t
  end.

Definition dump_str (s : string) : string :=
  String dquote (dump_body s) ++ String dquote EmptyString.

End JsonLib.

(* ================================================================== *)
(** ** An executable model of [ast.literal_eval] *)

(** The model covers the texts that the program hands to
    [ast.literal_eval]: a display in braces.  Inside it: texts in single or
    double quotes with the common backslash escapes, adjacent texts
    (concatenated), unsigned decimal integers, None, True and False, other
    names, lists, and nested displays.  As the interpreter does, it first
    parses the whole text ([SyntaxError], which stands for its subclasses
    too) and then converts the tree ([ValueError] on a name, [TypeError]
    on an unhashable key).  Outside
    the fragment (operators, parentheses, floats, prefixed or triple-quoted
    texts, keywords, comments, subscripts, ...) it answers [NotModelled]. *)
Module AstLib.

Inductive token : Type :=
| TLBrace | TRBrace | TLBrack | TRBrack | TColon | TComma
| TString (s : string)
| TInt (z : Z)
| TName (n : string).

Inductive lex_state : Type :=
| Idle
| InString (quote : ascii) (acc : string)
| InEscape (quote : ascii) (acc : string)
| AfterEmpty (quote : ascii)
| InNumber (acc : string)
| InName (acc : string).

Definition isquote (c : ascii) : bool :=
  Ascii.eqb c squote || Ascii.eqb c dquote.

Definition isalpha (c : ascii) : bool :=
  in_range 65 90 c || in_range 97 122 c || Ascii.eqb c "_".

Definition is_py_space (c : ascii) : bool :=
  Nat.eqb (code c) 32 || Nat.eqb (code c) 9 || Nat.eqb (code c) 10
  || Nat.eqb (code c) 12 || Nat.eqb (code c) 13.

Definition keywords : list string :=
  ["and"; "as"; "assert"; "async"; "await"; "break"; "class"; "continue";
   "def"; "del"; "elif"; "else"; "except"; "finally"; "for"; "from";
   "global"; "if"; "import"; "in"; "is"; "lambda"; "nonlocal"; "not";
   "or"; "pass"; "raise"; "return"; "try"; "while"; "with"; "yield"].

Fixpoint all_zero (ds : string) : bool :=
  match ds with
  | EmptyString => true
  | String c t => Ascii.eqb c "0" && all_zero t
  end.

(** A decimal integer literal; a nonzero one may not start with 0. *)
Definition number_of_lexeme (ds : string) : result Z :=
  if (4300 <? String.length ds)%nat then Raise NotModelled
  else
    match ds with
    | String "0" (String _ _) =>
        if all_zero ds then Ok 0%Z else Raise SyntaxError
    | _ => Ok (JsonLib.digits_value ds 0)
    end.

Definition escape_char (c : ascii) : option ascii :=
  if Ascii.eqb c backslash then Some backslash
  else if Ascii.eqb c squote then Some squote
  else if Ascii.eqb c dquote then Some dquote
  else if Ascii.eqb c "a" then Some "007"%char
  else if Ascii.eqb c "b" then Some "008"%char
  else if Ascii.eqb c "f" then Some "012"%char
  else if Ascii.eqb c "n" then Some "010"%char
  else if Ascii.eqb c "r" then Some "013"%char
  else if Ascii.eqb c "t" then Some "009"%char
  else if Ascii.eqb c "v" then Some "011"%char
  else None.

Definition start (c : ascii) (out : list token)
    : result (lex_state * list token) :=
  if is_py_space c then Ok (Idle, out)
  else if Ascii.eqb c "{" then Ok (Idle, TLBrace :: out)
  else if Ascii.eqb c "}" then Ok (Idle, TRBrace :: out)
  else if Ascii.eqb c "[" then Ok (Idle, TLBrack :: out)
  else if Ascii.eqb c "]" then Ok (Idle, TRBrack :: out)
  else if Ascii.eqb c ":" then Ok (Idle, TColon :: out)
  else if Ascii.eqb c "," then Ok (Idle, TComma :: out)
  else if isquote c then Ok (InString c EmptyString, out)
  else if isdigit c then Ok (InNumber (String c EmptyString), out)
  else if isalpha c then Ok (InName (String c EmptyString), out)
  else Raise NotModelled.

Definition finish (st : lex_state) (out : list token)
    : result (list token) :=
  match st with
  | Idle | AfterEmpty _ => Ok out
  | InNumber acc => z <- number_of_lexeme (rev acc) ;; Ok (TInt z :: out)
  | InName acc =>
      if existsb (String.eqb (rev acc)) keywords then Raise NotModelled
      else Ok (TName (rev acc) :: out)
  | InString _ _ | InEscape _ _ => Raise SyntaxError
  end.

Definition step (st : lex_state) (c : ascii) (out : list token)
    : result (lex_state * list token) :=
  match st with
  | Idle => start c out
  | InString quote acc =>
      if Ascii.eqb c quote then
        Ok (if is_empty acc then AfterEmpty quote else Idle,
            TString (rev acc) :: out)
      else if Ascii.eqb c backslash then Ok (InEscape quote acc, out)
      else if Nat.eqb (code c) 10 || Nat.eqb (code c) 13 then
        Raise SyntaxError
      else if Nat.eqb (code c) 0 then Raise NotModelled
      else Ok (InString quote (String c acc), out)
  | InEscape quote acc =>
      match escape_char c with
      | Some d => Ok (InString quote (String d acc), out)
      | None => Raise NotModelled
      end
  | AfterEmpty quote =>
      if Ascii.eqb c quote then Raise NotModelled else start c out
  | InNumber acc =>
      if isdigit c then Ok (InNumber (String c acc), out)
      else if isalpha c || Ascii.eqb c "." then Raise NotModelled
      else out' <- finish st out ;; start c out'
  | InName acc =>
      if isalpha c || isdigit c then Ok (InName (String c acc), out)
      else if isquote c then Raise NotModelled
      else out' <- finish st out ;; start c out'
  end.

Fixpoint lex (s : string) (st : lex_state) (out : list token)
    : result (list token) :=
  match s with
  | EmptyString => out' <- finish st out ;; Ok (List.rev out')
  | String c t => '(st', out') <- step st c out ;; lex t st' out'
  end.

(** The syntax tree of the fragment. *)
Inductive expr : Type :=
| EConst (v : pyval)
| EName (n : string)
| EList (es : list expr)
| EDict (kvs : list (expr * expr))
| ESet (es : list expr).

Definition name_expr (n : string) : expr :=
  if String.eqb n "None" then EConst PyNone
  else if String.eqb n "True" then EConst (PyBool true)
  else if String.eqb n "False" then EConst (PyBool false)
  else EName n.

(** Adjacent text literals are one text. *)
Fixpoint concat_strings (s : string) (ts : list token)
    : string * list token :=
  match ts with
  | TString s' :: r => concat_strings (s ++ s') r
  | _ => (s, ts)
  end.

Definition is_token (a b : token) : bool :=
  match a, b with
  | TRBrace, TRBrace | TRBrack, TRBrack => true
  | _, _ => false
  end.

(** Recursive descent.  Every call consumes one unit of fuel;
    [literal_eval] gives two units per token.  [items] reads what follows
    an element of a list or set display up to [close]; [pairs] what
    follows an entry of a dictionary display. *)
Fixpoint expression (fuel : nat) (ts : list token)
    : result (expr * list token) :=
  match fuel with
  | O => Raise NotModelled
  | S fuel' =>
      '(e, r) <-
        match ts with
        | TString s :: r =>
            let '(s', r') := concat_strings s r in Ok (EConst (PyStr s'), r')
        | TInt z :: r => Ok (EConst (PyInt z), r)
        | TName n :: r => Ok (name_expr n, r)
        | TLBrack :: TRBrack :: r => Ok (EList [], r)
        | TLBrack :: r =>
            '(e, r1) <- expression fuel' r ;;
            '(es, r2) <- items fuel' r1 TRBrack [e] ;;
            Ok (EList es, r2)
        | TLBrace :: TRBrace :: r => Ok (EDict [], r)
        | TLBrace :: r =>
            '(k, r1) <- expression fuel' r ;;
            match r1 with
            | TColon :: r2 =>
                '(v, r3) <- expression fuel' r2 ;;
                '(kvs, r4) <- pairs fuel' r3 [(k, v)] ;;
                Ok (EDict kvs, r4)
            | _ =>
                '(es, r2) <- items fuel' r1 TRBrace [k] ;;
                Ok (ESet es, r2)
            end
        | _ => Raise SyntaxError
        end ;;
      match r with
      | TLBrack :: _ => Raise NotModelled
      | _ => Ok (e, r)
      end
  end
with items (fuel : nat) (ts : list token) (close : token)
    (acc : list expr) : result (list expr * list token) :=
  match fuel with
  | O => Raise NotModelled
  | S fuel' =>
      match ts with
      | TComma :: t :: r =>
          if is_token t close then Ok (List.rev acc, r)
          else
            '(e, r') <- expression fuel' (t :: r) ;;
            items fuel' r' close (e :: acc)
      | t :: r =>
          if is_token t close then Ok (List.rev acc, r)
          else Raise SyntaxError
      | [] => Raise SyntaxError
      end
  end
with pairs (fuel : nat) (ts : list token) (acc : list (expr * expr))
    : result (list (expr * expr) * list token) :=
  match fuel with
  | O => Raise NotModelled
  | S fuel' =>
      match ts with
      | TRBrace :: r => Ok (List.rev acc, r)
      | TComma :: TRBrace :: r => Ok (List.rev acc, r)
      | TComma :: r =>
          '(k, r1) <- expression fuel' r ;;
          match r1 with
          | TColon :: r2 =>
              '(v, r3) <- expression fuel' r2 ;;
              pairs fuel' r3 ((k, v) :: acc)
          | _ => Raise SyntaxError
          end
      | _ => Raise SyntaxError
      end
  end.

(** Hashable values, and [==] between the hashable values of the
    fragment: None, booleans and integers (compared as numbers), texts. *)
Fixpoint hashable (v : pyval) : bool :=
  match v with
  | PyNone | PyBool _ | PyInt _ | PyFloat _ | PyStr _ => true
  | PyTuple l => forallb hashable l
  | PyList _ | PyDict _ | PySet _ => false
  end.

Definition as_int (v : pyval) : option Z :=
  match v with
  | PyBool b => Some (if b then 1 else 0)%Z
  | PyInt z => Some z
  | _ => None
  end.

Definition atom_eq (a b : pyval) : bool :=
  match a, b with
  | PyNone, PyNone => true
  | PyStr s, PyStr t => String.eqb s t
  | _, _ =>
      match as_int a, as_int b with
      | Some x, Some y => Z.eqb x y
      | _, _ => false
      end
  end.

(** [d[k] = v] while a dictionary is built. *)
Fixpoint dict_insert (d : list (pyval * pyval)) (k v : pyval)
    : list (pyval * pyval) :=
  match d with
  | [] => [(k, v)]
  | (key, w) :: r =>
      if atom_eq key k then (key, v) :: r else (key, w) :: dict_insert r k v
  end.

Definition set_add (l : list pyval) (v : pyval) : list pyval :=
  if existsb (fun x => atom_eq x v) l then l else (l ++ [v])%list.

(** The conversion of [ast.literal_eval]: entries and elements are
    converted from left to right, each one inserted before the next one is
    converted. *)
Fixpoint convert (e : expr) : result pyval :=
  match e with
  | EConst v => Ok v
  | EName _ => Raise ValueError
  | EList es =>
      l <- (fix go (es : list expr) : result (list pyval) :=
              match es with
              | [] => Ok []
              | e :: r => v <- convert e ;; vs <- go r ;; Ok (v :: vs)
              end) es ;;
      Ok (PyList l)
  | EDict kvs =>
      (fix go (kvs : list (expr * expr)) (acc : list (pyval * pyval))
         : result pyval :=
         match kvs with
         | [] => Ok (PyDict acc)
         | (k, v) :: r =>
             k' <- convert k ;;
             v' <- convert v ;;
             if hashable k' then go r (dict_insert acc k' v')
             else Raise TypeError
         end) kvs []
  | ESet es =>
      (fix go (es : list expr) (acc : list pyval) : result pyval :=
         match es with
         | [] => Ok (PySet acc)
         | e :: r =>
             v <- convert e ;;
             if hashable v then go r (set_add acc v) else Raise TypeError
         end) es []
  end.

(** [ast.literal_eval(s)] *)
Definition literal_eval (s : string) : result pyval :=
  if negb (startswith "{" s) then Raise NotModelled
  else
    ts <- lex s Idle [] ;;
    '(e, r) <- expression (2 * List.length ts + 2) ts ;;
    match r with
    | [] => convert e
    | TComma :: _ => Raise NotModelled
    | _ => Raise SyntaxError
    end.

End AstLib.

(* ================================================================== *)
(** ** Iteration order of the set literals *)

(** The labeled-section strategy iterates over the set literals
    [{'pass', 'fail'}] and [{'low', 'medium', 'high'}].  The order in which
    a set of texts is iterated is fixed within one run of the interpreter
    and unspecified across runs; it is a parameter of the strategy. *)
Inductive verdict_order : Type := PassFail | FailPass.

Inductive confidence_order : Type := LMH | LHM | MLH | MHL | HLM | HML.

Definition valid_verdicts (o : verdict_order) : list string :=
  match o with
  | PassFail => ["pass"; "fail"]
  | FailPass => ["fail"; "pass"]
  end.

Definition valid_confidence_levels (o : confidence_order) : list string :=
  match o with
  | LMH => ["low"; "medium"; "high"]
  | LHM => ["low"; "high"; "medium"]
  | MLH => ["medium"; "low"; "high"]
  | MHL => ["medium"; "high"; "low"]
  | HLM => ["high"; "low"; "medium"]
  | HML => ["high"; "medium"; "low"]
  end.

(** A strategy: a callable from the raw text to a Python value. *)
Definition method : Type := string -> result pyval.

(** What one [try] block of a pipeline does with the flow of control:
    [Some v] is [return v], [None] falls through to the next block. *)
Definition flow : Type := result (option pyval).

Definition default_required_keys : list string :=
  ["reasoning"; "verdict"; "confidence"].

(* ================================================================== *)
(** ** [schemas/evaluation.py] *)

Module Evaluation.

Inductive verdict_literal : Type := Pass | Fail.
Inductive confidence_literal : Type := High | Medium | Low.

Definition verdict_text (v : verdict_literal) : string :=
  match v with Pass => "Pass" | Fail => "Fail" end.

Definition confidence_text (c : confidence_literal) : string :=
  match c with High => "High" | Medium => "Medium" | Low => "Low" end.

(** The three fields of the model. *)
Record EvaluationResponse : Type := {
  reasoning : string;
  verdict : verdict_literal;
  confidence : confidence_literal
}.

(** [validate_reasoning] *)
Definition validate_reasoning (value : string) : result string :=
  if is_empty value || is_empty (strip value) then Raise ValueError
  else Ok value.

(** An instance of the class.  The records that are constructed from
    values of [pyval] have a reasoning over the alphabet; in general the
    reasoning of an instance is any Python text. *)
Record instance : Type := {
  instance_reasoning : Unicode.text;
  instance_verdict : verdict_literal;
  instance_confidence : confidence_literal
}.

Definition instance_of (self : EvaluationResponse) : instance :=
  {| instance_reasoning := Unicode.of_string (reasoning self);
     instance_verdict := verdict self;
     instance_confidence := confidence self |}.

(** [validate_reasoning] on a text given by its code points. *)
Definition validate_reasoning_text (value : Unicode.text)
    : result Unicode.text :=
  if Unicode.is_empty value || Unicode.is_empty (Unicode.strip value) then
    Raise ValueError
  else Ok value.

(** *** Construction of a record from keyword arguments

    pydantic validates the fields in the order of their declaration and
    then, the configuration being [extra = 'forbid'], reports every key
    that is not a field.  The errors are pairs (location, error type).
    (For a text field pydantic also takes a byte string, which is not a
    value of [pyval].) *)

Definition reasoning_field (data : list (pyval * pyval))
    : string + (string * string) :=
  match Py.lookup data "reasoning" with
  | None => inr ("reasoning", "missing")
  | Some (PyStr s) =>
      match validate_reasoning s with
      | Ok v => inl v
      | Raise _ => inr ("reasoning", "value_error")
      end
  | Some _ => inr ("reasoning", "string_type")
  end.

Definition verdict_field (data : list (pyval * pyval))
    : verdict_literal + (string * string) :=
  match Py.lookup data "verdict" with
  | None => inr ("verdict", "missing")
  | Some (PyStr s) =>
      if String.eqb s "Pass" then inl Pass
      else if String.eqb s "Fail" then inl Fail
      else inr ("verdict", "literal_error")
  | Some _ => inr ("verdict", "literal_error")
  end.

Definition confidence_field (data : list (pyval * pyval))
    : confidence_literal + (string * string) :=
  match Py.lookup data "confidence" with
  | None => inr ("confidence", "missing")
  | Some (PyStr s) =>
      if String.eqb s "High" then inl High
      else if String.eqb s "Medium" then inl Medium
      else if String.eqb s "Low" then inl Low
      else inr ("confidence", "literal_error")
  | Some _ => inr ("confidence", "literal_error")
  end.

Definition is_field (k : string) : bool :=
  existsb (String.eqb k) ["reasoning"; "verdict"; "confidence"].

(** Keyword arguments are texts. *)
Fixpoint keyword_names (data : list (pyval * pyval)) : result (list string) :=
  match data with
  | [] => Ok []
  | (PyStr k, _) :: r => ks <- keyword_names r ;; Ok (k :: ks)
  | _ :: _ => Raise TypeError
  end.

Definition extra_errors (names : list string) : list (string * string) :=
  map (fun k => (k, "extra_forbidden"))
      (filter (fun k => negb (is_field k)) names).

Definition error_of {A} (f : A + (string * string))
    : list (string * string) :=
  match f with inl _ => [] | inr e => [e] end.

Definition new (data : list (pyval * pyval)) : result EvaluationResponse :=
  names <- keyword_names data ;;
  match reasoning_field data, verdict_field data, confidence_field data,
        extra_errors names with
  | inl r, inl v, inl c, [] =>
      Ok {| reasoning := r; verdict := v; confidence := c |}
  | fr, fv, fc, extras =>
      Raise (ValidationError
               (error_of fr ++ error_of fv ++ error_of fc ++ extras)%list)
  end.

(** [self.model_dump()] *)
Definition model_dump (self : EvaluationResponse) : list (pyval * pyval) :=
  [(PyStr "reasoning", PyStr (reasoning self));
   (PyStr "verdict", PyStr (verdict_text (verdict self)));
   (PyStr "confidence", PyStr (confidence_text (confidence self)))].

Section Extraction.

(** [json.loads] and [ast.literal_eval] *)
Variable json_loads : string -> result pyval.
Variable literal_eval : string -> result pyval.

(** The iteration orders of the two set literals. *)
Variable verdicts : verdict_order.
Variable confidence_levels : confidence_order.

(** [self.model_dump_json()], the serializer of pydantic, which may
    raise. *)
Variable model_dump_json : instance -> result string.

(** [to_json] *)
Definition to_json (self : instance) : result pyval :=
  try_except (text <- model_dump_json self ;; json_loads text)
    [CJSONDecodeError] (Ok (PyDict [])).

(** [_parse_json] *)
Definition _parse_json (raw_result : string) : result pyval :=
  try_except (json_loads raw_result) [CJSONDecodeError; CTypeError]
    (Ok PyNone).

(** [{key.lower(): value for key, value in result_dict.items()}] *)
Fixpoint normalize_keys (items : list (pyval * pyval))
    (acc : list (pyval * pyval)) : result (list (pyval * pyval)) :=
  match items with
  | [] => Ok acc
  | (key, value) :: r =>
      k <- Py.method_lower key ;;
      normalize_keys r (Py.set acc k value)
  end.

(** [for v in tokens: if v.lower() in text: extracted[key] = v; break] *)
Fixpoint assign_first (tokens : list string) (text : string) (key : string)
    (extracted : list (pyval * pyval)) : list (pyval * pyval) :=
  match tokens with
  | [] => extracted
  | v :: rest =>
      if str_in (lower v) text then Py.set extracted key (PyStr v)
      else assign_first rest text key extracted
  end.

(** [_extract_from_json_blob] *)
Definition _extract_from_json_blob (input_string : string) : result pyval :=
  match Re.search_blob input_string with
  | Some dict_str =>
      try_except
        (result_dict <- literal_eval dict_str ;;
         items <- Py.items result_dict ;;
         normalized_dict <- normalize_keys items [] ;;
         let extracted :=
           [(PyStr "reasoning", Py.get normalized_dict "reasoning");
            (PyStr "verdict", PyNone);
            (PyStr "confidence", PyNone)] in
         let extracted :=
           assign_first ["Pass"; "Fail"]
             (lower (Py.str (Py.get_default normalized_dict "verdict"
                               (PyStr EmptyString))))
             "verdict" extracted in
         let extracted :=
           assign_first ["Low"; "Medium"; "High"]
             (lower (Py.str (Py.get_default normalized_dict "confidence"
                               (PyStr EmptyString))))
             "confidence" extracted in
         Ok (PyDict extracted))
        [CSyntaxError; CValueError] (Ok PyNone)
  | None => Ok PyNone
  end.

(** The class of list markers of [clean_text] in this file: digits, dot,
    dash, asterisk and the characters 226 and 162 (the third character
    written in the class lies outside the alphabet). *)
Definition ismarker (c : ascii) : bool :=
  isdigit c || Ascii.eqb c "." || Ascii.eqb c "-" || Ascii.eqb c "*"
  || Nat.eqb (code c) 226 || Nat.eqb (code c) 162.

Definition clean_text (text : string) : string :=
  remove_char dquote (strip (Re.sub_markers ismarker Re.AtLineStart text)).

Definition extract_section (pattern : Re.section_pattern)
    (input_text : string) : option string :=
  option_map strip (Re.search_group1 pattern input_text).

(** [for v in valid: if v in text: result[key] = v.capitalize(); break] *)
Fixpoint assign_first_capitalized (valid : list string) (text : string)
    (key : string) (result : list (pyval * pyval)) : list (pyval * pyval) :=
  match valid with
  | [] => result
  | v :: rest =>
      if str_in v text then Py.set result key (PyStr (capitalize v))
      else assign_first_capitalized rest text key result
  end.

(** [_extract_from_unstructured_text] *)
Definition _extract_from_unstructured_text (input_string : string)
    : result pyval :=
  if is_empty input_string then Ok PyNone
  else
    let input_string_lower := lower input_string in
    let result := [] in
    let result :=
      match extract_section (Re.Between "reasoning:" "verdict:")
              input_string_lower with
      | Some (String _ _ as reasoning) =>
          let reasoning := clean_text reasoning in
          let reasoning :=
            if startswith ":" reasoning then strip (drop 1 reasoning)
            else reasoning in
          Py.set result "reasoning" (PyStr reasoning)
      | _ => result
      end in
    let result :=
      match extract_section (Re.Between "verdict:" "confidence:")
              input_string_lower with
      | Some (String _ _ as verdict) =>
          assign_first_capitalized (valid_verdicts verdicts)
            (clean_text verdict) "verdict" result
      | _ => result
      end in
    let result :=
      match extract_section (Re.After "confidence:") input_string_lower with
      | Some (String _ _ as confidence) =>
          assign_first_capitalized (valid_confidence_levels confidence_levels)
            (clean_text confidence) "confidence" result
      | _ => result
      end in
    if Nat.eqb (List.length result) 3 then Ok (PyDict result)
    else Ok PyNone.

(** One turn of the loop of [parse_raw_evaluation]:
    [try: parsed_result = method(raw_result); if parsed_result and
     required_keys_set.issubset(parsed_result.keys()): return parsed_result
     except Exception: continue]. *)
Definition attempt (m : method) (raw_result : string)
    (required_keys : list string) : flow :=
  try_except
    (parsed_result <- m raw_result ;;
     if Py.truthy parsed_result then
       ks <- Py.keys parsed_result ;;
       if Py.issubset required_keys ks then Ok (Some parsed_result)
       else Ok None
     else Ok None)
    [CException] (Ok None).

Fixpoint try_each (parsing_methods : list method) (raw_result : string)
    (required_keys : list string) : result pyval :=
  match parsing_methods with
  | [] => Ok PyNone
  | m :: rest =>
      r <- attempt m raw_result required_keys ;;
      match r with
      | Some parsed_result => Ok parsed_result
      | None => try_each rest raw_result required_keys
      end
  end.

(** The methods tried, in order, given the registry [_parsing_methods]. *)
Definition parsing_methods (_parsing_methods : list method) : list method :=
  ([_parse_json; _extract_from_json_blob; _extract_from_unstructured_text]
   ++ _parsing_methods)%list.

(** [register_parsing_method]: the registry after the call. *)
Definition register_parsing_method (_parsing_methods : list method)
    (m : method) : list method :=
  (_parsing_methods ++ [m])%list.

(** [parse_raw_evaluation]; [_parsing_methods] is the class-level registry
    at the time of the call. *)
Definition parse_raw_evaluation (_parsing_methods : list method)
    (raw_result : string) (required_keys : option (list string))
    : result pyval :=
  let required_keys :=
    match required_keys with
    | None => default_required_keys
    | Some l => l
    end in
  try_each (parsing_methods _parsing_methods) raw_result required_keys.

End Extraction.

End Evaluation.

(* ================================================================== *)
(** ** An executable model of pydantic's serializer *)

(** [model_dump_json] writes the fields in the order of their declaration,
    without spaces, and refuses a text that has no UTF-8 form: it raises
    [PydanticSerializationError] on a reasoning that holds a lone
    surrogate.  The model answers [NotModelled] when the JSON text would
    lie outside the alphabet. *)
Module PydanticLib.

(** The JSON text of a record whose reasoning is over the alphabet. *)
Definition json_of (self : Evaluation.EvaluationResponse) : string :=
  "{" ++ q "reasoning" ++ ":" ++ JsonLib.dump_str (Evaluation.reasoning self)
  ++ "," ++ q "verdict" ++ ":"
  ++ q (Evaluation.verdict_text (Evaluation.verdict self))
  ++ "," ++ q "confidence" ++ ":"
  ++ q (Evaluation.confidence_text (Evaluation.confidence self))
  ++ "}".

Definition model_dump_json (self : Evaluation.instance) : result string :=
  let reasoning := Evaluation.instance_reasoning self in
  if existsb Unicode.is_surrogate reasoning then
    Raise PydanticSerializationError
  else
    match Unicode.to_string reasoning with
    | Some s =>
        Ok (json_of
              {| Evaluation.reasoning := s;
                 Evaluation.verdict := Evaluation.instance_verdict self;
                 Evaluation.confidence :=
                   Evaluation.instance_confidence self |})
    | None => Raise NotModelled
    end.

End PydanticLib.

(* ================================================================== *)
(** ** [utils/llm_output_parser.py] *)

Module LlmOutputParser.

Section Extraction.

Variable json_loads : string -> result pyval.
Variable literal_eval : string -> result pyval.
Variable verdicts : verdict_order.
Variable confidence_levels : confidence_order.

(** [{key.lower(): value for key, value in result_dict.items()}] *)
Fixpoint normalize_keys (items : list (pyval * pyval))
    (acc : list (pyval * pyval)) : result (list (pyval * pyval)) :=
  match items with
  | [] => Ok acc
  | (key, value) :: r =>
      k <- Py.method_lower key ;;
      normalize_keys r (Py.set acc k value)
  end.

(** [for v in tokens: if v.lower() in extracted[key].lower():
       extracted[key] = v.capitalize(); success = True; break]
    The result is the dictionary and the flag [success]. *)
Fixpoint search_tokens (tokens : list string) (key : string)
    (extracted : list (pyval * pyval))
    : result (list (pyval * pyval) * bool) :=
  match tokens with
  | [] => Ok (extracted, false)
  | v :: rest =>
      current <- Py.getitem (PyDict extracted) key ;;
      text <- Py.method_lower current ;;
      if str_in (lower v) text then
        Ok (Py.set extracted key (PyStr (capitalize v)), true)
      else search_tokens rest key extracted
  end.

(** The loop followed by [if not success: extracted[key] = None]. *)
Definition resolve (tokens : list string) (key : string)
    (extracted : list (pyval * pyval)) : result (list (pyval * pyval)) :=
  '(extracted, success) <- search_tokens tokens key extracted ;;
  Ok (if success : bool then extracted else Py.set extracted key PyNone).

(** [extract_evaluation_from_json_blob] *)
Definition extract_evaluation_from_json_blob (input_string : string)
    : result pyval :=
  match Re.search_blob input_string with
  | Some dict_str =>
      try_except
        (result_dict <- literal_eval dict_str ;;
         items <- Py.items result_dict ;;
         normalized_dict <- normalize_keys items [] ;;
         let extracted :=
           [(PyStr "reasoning", Py.get normalized_dict "reasoning");
            (PyStr "verdict", Py.get normalized_dict "verdict");
            (PyStr "confidence", Py.get normalized_dict "confidence")] in
         extracted <- resolve ["Pass"; "Fail"] "verdict" extracted ;;
         extracted <- resolve ["Low"; "Medium"; "High"] "confidence"
                        extracted ;;
         Ok (PyDict extracted))
        [CSyntaxError; CValueError] (Ok (PyDict []))
  | None => Ok (PyDict [])
  end.

(** The class of list markers of [clean_text] in this file: digits, dot,
    dash and asterisk (the bullet written in the class lies outside the
    alphabet). *)
Definition ismarker (c : ascii) : bool :=
  isdigit c || Ascii.eqb c "." || Ascii.eqb c "-" || Ascii.eqb c "*".

Definition clean_text (text : string) : string :=
  remove_char dquote (strip (Re.sub_markers ismarker Re.AtLineStart text)).

Definition extract_section (pattern : Re.section_pattern)
    (input_text : string) : option string :=
  option_map strip (Re.search_group1 pattern input_text).

Fixpoint assign_first_capitalized (valid : list string) (text : string)
    (key : string) (result : list (pyval * pyval)) : list (pyval * pyval) :=
  match valid with
  | [] => result
  | v :: rest =>
      if str_in v text then Py.set result key (PyStr (capitalize v))
      else assign_first_capitalized rest text key result
  end.

(** [extract_evaluation_from_unstructured_text] *)
Definition extract_evaluation_from_unstructured_text (input_string : string)
    : result pyval :=
  if is_empty input_string then Raise ValueError
  else
    let input_string_lower := lower input_string in
    let result := [] in
    let result :=
      match extract_section (Re.Between "reasoning:" "verdict:")
              input_string_lower with
      | Some (String _ _ as reasoning) =>
          let reasoning := clean_text reasoning in
          let reasoning :=
            if startswith ":" reasoning then strip (drop 1 reasoning)
            else reasoning in
          Py.set result "reasoning" (PyStr reasoning)
      | _ => result
      end in
    let result :=
      match extract_section (Re.Between "verdict:" "confidence:")
              input_string_lower with
      | Some (String _ _ as verdict) =>
          assign_first_capitalized (valid_verdicts verdicts)
            (clean_text verdict) "verdict" result
      | _ => result
      end in
    let result :=
      match extract_section (Re.After "confidence:") input_string_lower with
      | Some (String _ _ as confidence) =>
          assign_first_capitalized (valid_confidence_levels confidence_levels)
            (clean_text confidence) "confidence" result
      | _ => result
      end in
    Ok (PyDict result).

(** The body of each [try] block of [parse_raw_evaluation]:
    [parsed_result = ...;
     if required_keys_set.issubset(parsed_result.keys()):
       return parsed_result]. *)
Definition attempt (parsed : result pyval) (required_keys : list string)
    : flow :=
  parsed_result <- parsed ;;
  ks <- Py.keys parsed_result ;;
  if Py.issubset required_keys ks then Ok (Some parsed_result) else Ok None.

(** [parse_raw_evaluation] *)
Definition parse_raw_evaluation (raw_result : string)
    (required_keys : option (list string)) : result pyval :=
  let required_keys :=
    match required_keys with
    | None => default_required_keys
    | Some l => l
    end in
  r <- try_except (attempt (json_loads raw_result) required_keys)
         [CJSONDecodeError; CTypeError] (Ok None) ;;
  match r with
  | Some parsed_result => Ok parsed_result
  | None =>
      r <- try_except
             (attempt (extract_evaluation_from_json_blob raw_result)
                required_keys)
             [CException] (Ok None) ;;
      match r with
      | Some parsed_result => Ok parsed_result
      | None =>
          r <- try_except
                 (attempt
                    (extract_evaluation_from_unstructured_text raw_result)
                    required_keys)
                 [CException] (Ok None) ;;
          match r with
          | Some parsed_result => Ok parsed_result
          | None => Ok PyNone
          end
      end
  end.

End Extraction.

End LlmOutputParser.

(* ================================================================== *)
(** ** [schemas/scoring_rvc.py] *)

Module ScoringRVC.

Inductive Verdict : Type := PASS | FAIL.

Definition Verdict_value (v : Verdict) : string :=
  match v with PASS => "pass" | FAIL => "fail" end.

(** [Verdict(value)]: the member whose value is [value]. *)
Definition Verdict_of_value (value : string) : result Verdict :=
  if String.eqb value "pass" then Ok PASS
  else if String.eqb value "fail" then Ok FAIL
  else Raise ValueError.

(** [Verdict.from_string] *)
Definition Verdict_from_string (value : pyval) : result Verdict :=
  s <- Py.method_lower value ;; Verdict_of_value s.

Inductive ConfidenceLevel : Type := HIGH | MEDIUM | LOW.

Definition ConfidenceLevel_value (c : ConfidenceLevel) : string :=
  match c with HIGH => "high" | MEDIUM => "medium" | LOW => "low" end.

Definition ConfidenceLevel_of_value (value : string)
    : result ConfidenceLevel :=
  if String.eqb value "high" then Ok HIGH
  else if String.eqb value "medium" then Ok MEDIUM
  else if String.eqb value "low" then Ok LOW
  else Raise ValueError.

(** [ConfidenceLevel.from_string] *)
Definition ConfidenceLevel_from_string (value : pyval)
    : result ConfidenceLevel :=
  s <- Py.method_lower value ;; ConfidenceLevel_of_value s.

Record ScoreSchemaRVC : Type := {
  pass_high : float;
  pass_medium : float;
  pass_low : float;
  fail_high : float;
  fail_medium : float;
  fail_low : float
}.

(** [ScoreSchemaRVC()]: every field at its default. *)
Definition default : ScoreSchemaRVC := {|
  pass_high := 1.0;
  pass_medium := 0.85;
  pass_low := 0.6;
  fail_high := 0.0;
  fail_medium := 0.15;
  fail_low := 0.4
|}.

(** [getattr(self, name)] on the six fields. *)
Definition getattr (self : ScoreSchemaRVC) (name : string) : result float :=
  if String.eqb name "pass_high" then Ok (pass_high self)
  else if String.eqb name "pass_medium" then Ok (pass_medium self)
  else if String.eqb name "pass_low" then Ok (pass_low self)
  else if String.eqb name "fail_high" then Ok (fail_high self)
  else if String.eqb name "fail_medium" then Ok (fail_medium self)
  else if String.eqb name "fail_low" then Ok (fail_low self)
  else Raise AttributeError.

(** [get_score] *)
Definition get_score (self : ScoreSchemaRVC) (model_output : pyval)
    : result float :=
  v <- Py.getitem model_output "verdict" ;;
  verdict <- Verdict_from_string v ;;
  c <- Py.getitem model_output "confidence" ;;
  confidence <- ConfidenceLevel_from_string c ;;
  let score_key :=
    Verdict_value verdict ++ "_" ++ ConfidenceLevel_value confidence in
  getattr self score_key.

(** The table of the specification, keyed by the lower-case tokens. *)
Definition table (verdict confidence : string) : option float :=
  match verdict, confidence with
  | "pass", "high" => Some 1.0%float
  | "pass", "medium" => Some 0.85%float
  | "pass", "low" => Some 0.6%float
  | "fail", "high" => Some 0.0%float
  | "fail", "medium" => Some 0.15%float
  | "fail", "low" => Some 0.4%float
  | _, _ => None
  end.

Definition table_values : list float :=
  [1.0; 0.85; 0.6; 0.0; 0.15; 0.4]%float.

End ScoringRVC.

(* ================================================================== *)
(** ** [schemas/config.py] *)

Module Config.

(** [s.rstrip(c)] for a one-character [c]. *)
Fixpoint rstrip_char (c : ascii) (s : string) : string :=
  match s with
  | EmptyString => EmptyString
  | String a t =>
      match rstrip_char c t with
      | EmptyString => if Ascii.eqb a c then EmptyString
                       else String a EmptyString
      | r => String a r
      end
  end.

Inductive platform_literal : Type := Openai | Ollama.

Definition platform_text (p : platform_literal) : string :=
  match p with Openai => "openai" | Ollama => "ollama" end.

(** The fields of the model, with the types of their declaration. *)
Record LLMConfig : Type := {
  name : string;
  base_url : string;
  platform : platform_literal;
  api_key : string;
  max_tokens : option Z;
  temperature : float;
  timeout : Z;
  retries : Z
}.

(** [validate_name] *)
Definition validate_name (v : string) : result string :=
  if is_empty (strip v) then Raise ValueError else Ok (strip v).

(** [validate_base_url] *)
Definition validate_base_url (v : string) : result string :=
  if negb (startswith "http://" v || startswith "https://" v) then
    Raise ValueError
  else Ok (rstrip_char "/" v).

End Config.

(* ================================================================== *)
(** ** [llm/agent.py] *)

Module Agent.

(** [s.endswith(suffix)] *)
Fixpoint endswith (suffix s : string) : bool :=
  String.eqb suffix s ||
  match s with
  | EmptyString => false
  | String _ t => endswith suffix t
  end.

(** [s[:-1]] and [s[2:-1]] *)
Fixpoint drop_last (s : string) : string :=
  match s with
  | EmptyString => EmptyString
  | String c EmptyString => EmptyString
  | String c t => String c (drop_last t)
  end.

Definition slice_2_minus_1 (s : string) : string := drop 2 (drop_last s).

Section Factory.

(** [os.getenv] *)
Variable getenv : string -> option string.

(** The two constructors of the library, which may raise:
    [OllamaModel(model_name=..., base_url=...)] and
    [OpenAIModel(model_name=..., openai_client=OpenAIModel.create_client(
     base_url=..., api_key=...))]. *)
Variable model : Type.
Variable OllamaModel : string -> string -> result model.
Variable OpenAIModel : string -> string -> string -> result model.

(** The key that is used: a key of the form of a placeholder is replaced
    by the value of the environment variable it names. *)
Definition resolve_api_key (api_key : string) : result string :=
  if negb (is_empty api_key) && startswith "${" api_key
     && endswith "}" api_key then
    let env_var := slice_2_minus_1 api_key in
    match getenv env_var with
    | Some value => if is_empty value then Raise ValueError else Ok value
    | None => Raise ValueError
    end
  else Ok api_key.

(** [LLMAgentFactory.create_model]; the argument is a configuration, so
    the test of its type is passed. *)
Definition create_model (config : Config.LLMConfig) : result model :=
  api_key <- resolve_api_key (Config.api_key config) ;;
  let platform := lower (Config.platform_text (Config.platform config)) in
  if String.eqb platform "ollama" then
    OllamaModel (Config.name config) (Config.base_url config)
  else if String.eqb platform "openai" then
    OpenAIModel (Config.name config) (Config.base_url config) api_key
  else Raise ValueError.

End Factory.

End Agent.

(* ================================================================== *)
(** * Vocabulary of the properties *)

Module Props.

(** Two texts that differ at most in the case of their letters. *)
Definition same_letters (a b : string) : Prop := lower a = lower b.

(** [first_match P methods result]: [result] is what the first method of
    the list that satisfies [P] produces, and the failure value [PyNone]
    when no method of the list satisfies [P].  The result is the value of
    one method, never a combination of several. *)
Definition first_match (P : method -> pyval -> Prop) (methods : list method)
    (result : pyval) : Prop :=
  (exists before m after d,
      methods = (before ++ m :: after)%list
      /\ Forall (fun m' => forall d', ~ P m' d') before
      /\ P m d
      /\ result = d)
  \/ (Forall (fun m' => forall d', ~ P m' d') methods /\ result = PyNone).

(** The output of [m] is a value that contains all required keys. *)
Definition accepted (required : list string) (raw : string) (m : method)
    (d : pyval) : Prop :=
  m raw = Ok d
  /\ exists ks, Py.keys d = Ok ks /\ Py.issubset required ks = true.

(** The output of [m] is non-empty and contains all required keys. *)
Definition succeeds (required : list string) (raw : string) (m : method)
    (d : pyval) : Prop :=
  Py.truthy d = true /\ accepted required raw m d.

(** The text in which the tokens are searched: the value under [key], or
    the empty text when the key is absent, through [str] and [lower]. *)
Definition searched (normalized : list (pyval * pyval)) (key : string)
    : string :=
  lower (Py.str (Py.get_default normalized key (PyStr EmptyString))).

(** The search of the specification, in its words: Pass before Fail, and
    Low before Medium before High; the first token of that order that
    occurs in the text wins, wherever it occurs; none found is [None]. *)
Definition verdict_resolution (text : string) (v : pyval) : Prop :=
  (occurs_in "pass" text -> v = PyStr "Pass")
  /\ (~ occurs_in "pass" text -> occurs_in "fail" text -> v = PyStr "Fail")
  /\ (~ occurs_in "pass" text -> ~ occurs_in "fail" text -> v = PyNone).

Definition confidence_resolution (text : string) (c : pyval) : Prop :=
  (occurs_in "low" text -> c = PyStr "Low")
  /\ (~ occurs_in "low" text -> occurs_in "medium" text ->
      c = PyStr "Medium")
  /\ (~ occurs_in "low" text -> ~ occurs_in "medium" text ->
      occurs_in "high" text -> c = PyStr "High")
  /\ (~ occurs_in "low" text -> ~ occurs_in "medium" text ->
      ~ occurs_in "high" text -> c = PyNone).

(** The same search as two executable functions. *)
Definition found_verdict (text : string) : pyval :=
  if str_in "pass" text then PyStr "Pass"
  else if str_in "fail" text then PyStr "Fail"
  else PyNone.

Definition found_confidence (text : string) : pyval :=
  if str_in "low" text then PyStr "Low"
  else if str_in "medium" text then PyStr "Medium"
  else if str_in "high" text then PyStr "High"
  else PyNone.

(** The direct parse yields an object, or fails with one of the two
    exceptions that the module-level function catches around it. *)
Definition plain_direct_parse (parsed : result pyval) : bool :=
  match parsed with
  | Ok (PyDict _) => true
  | Ok _ => false
  | Raise e => existsb (isinstance e) [CJSONDecodeError; CTypeError]
  end.

Definition is_text (v : pyval) : bool :=
  match v with PyStr _ => true | _ => false end.

(** If the first brace-delimited part of the text parses as a dictionary,
    then all its keys are texts, and its verdict and its confidence (the
    keys taken without regard to letter case) are texts. *)
Definition textual_embedded_object (literal_eval : string -> result pyval)
    (raw : string) : bool :=
  match Re.search_blob raw with
  | None => true
  | Some dict_str =>
      match literal_eval dict_str with
      | Ok (PyDict items) =>
          forallb (fun item => is_text (fst item)) items
          && match Evaluation.normalize_keys items [] with
             | Ok normalized =>
                 is_text (Py.get normalized "verdict")
                 && is_text (Py.get normalized "confidence")
             | Raise _ => false
             end
      | _ => true
      end
  end.

Fixpoint str_forall (P : ascii -> bool) (s : string) : bool :=
  match s with
  | EmptyString => true
  | String c t => P c && str_forall P t
  end.

(** A character on which the marker classes of the two [clean_text]
    agree. *)
Definition common_marker (c : ascii) : bool :=
  Bool.eqb (Evaluation.ismarker c) (LlmOutputParser.ismarker c).

(** The lower-cased text has only such characters. *)
Definition common_markers_only (raw : string) : bool :=
  str_forall common_marker (lower raw).

End Props.

(* ================================================================== *)
(** * The texts and values of the examples *)

Module Examples.

(** The dictionary with the three keys and no value. *)
Definition none_valued : pyval :=
  PyDict [(PyStr "reasoning", PyNone);
          (PyStr "verdict", PyNone);
          (PyStr "confidence", PyNone)].

(** The text of the specification with an object embedded in prose, and
    what the pipelines return on it. *)
Definition embedded_example : string :=
  "Here is my answer: {reasoning: 'good job', verdict: 'FAIL', confidence: 'medium'} thanks".

Definition embedded_result : pyval :=
  PyDict [(PyStr "reasoning", PyStr "'good job',");
          (PyStr "verdict", PyStr "Fail");
          (PyStr "confidence", PyStr "Medium")].

(** The JSON object of the specification with an empty reasoning. *)
Definition blank_reasoning_example : string :=
  "{" ++ q "reasoning" ++ ": " ++ q EmptyString ++ ", "
  ++ q "verdict" ++ ": " ++ q "Pass" ++ ", "
  ++ q "confidence" ++ ": " ++ q "High" ++ "}".

Definition blank_reasoning_candidate : list (pyval * pyval) :=
  [(PyStr "reasoning", PyStr EmptyString);
   (PyStr "verdict", PyStr "Pass");
   (PyStr "confidence", PyStr "High")].

(** A JSON object with the three fields and one more key. *)
Definition extra_key_example : string :=
  "{" ++ q "reasoning" ++ ": " ++ q "ok" ++ ", "
  ++ q "verdict" ++ ": " ++ q "Pass" ++ ", "
  ++ q "confidence" ++ ": " ++ q "High" ++ ", "
  ++ q "note" ++ ": 1}".

Definition extra_key_candidate : list (pyval * pyval) :=
  [(PyStr "reasoning", PyStr "ok");
   (PyStr "verdict", PyStr "Pass");
   (PyStr "confidence", PyStr "High");
   (PyStr "note", PyInt 1)].

(** An embedded dictionary whose values name two tokens each, the one
    that loses first. *)
Definition both_tokens_example : string :=
  "Verdict below. {'Verdict': 'not a fail: PASS', 'confidence': 'High, not low'}".

(** A record whose reasoning has a quote, a newline and a backslash. *)
Definition round_trip_data : list (pyval * pyval) :=
  [(PyStr "reasoning",
    PyStr ("The answer " ++ q "42" ++ String newline "is right\."));
   (PyStr "verdict", PyStr "Pass");
   (PyStr "confidence", PyStr "Low")].

Definition round_trip_record : Evaluation.EvaluationResponse :=
  {| Evaluation.reasoning :=
       "The answer " ++ q "42" ++ String newline "is right\.";
     Evaluation.verdict := Evaluation.Pass;
     Evaluation.confidence := Evaluation.Low |}.

(** An instance whose reasoning ends with the lone surrogate U+D800. *)
Definition surrogate_record : Evaluation.instance :=
  {| Evaluation.instance_reasoning := [111; 107; 55296]%N;
     Evaluation.instance_verdict := Evaluation.Pass;
     Evaluation.instance_confidence := Evaluation.High |}.

(** Labeled sections whose reasoning starts with the character 162. *)
Definition cent_marker_example : string :=
  "Reasoning: " ++ String "162"%char " fine. Verdict: pass Confidence: high".

End Examples.

(* ================================================================== *)
(** * Vocabulary of the further properties *)

Module MoreProps.
Import Props.

(** The field of a schema for a verdict and a confidence level. *)
Definition field_of (self : ScoringRVC.ScoreSchemaRVC)
    (v : ScoringRVC.Verdict) (c : ScoringRVC.ConfidenceLevel) : float :=
  match v, c with
  | ScoringRVC.PASS, ScoringRVC.HIGH => ScoringRVC.pass_high self
  | ScoringRVC.PASS, ScoringRVC.MEDIUM => ScoringRVC.pass_medium self
  | ScoringRVC.PASS, ScoringRVC.LOW => ScoringRVC.pass_low self
  | ScoringRVC.FAIL, ScoringRVC.HIGH => ScoringRVC.fail_high self
  | ScoringRVC.FAIL, ScoringRVC.MEDIUM => ScoringRVC.fail_medium self
  | ScoringRVC.FAIL, ScoringRVC.LOW => ScoringRVC.fail_low self
  end.

(** A judgment that the scorer accepts: a dictionary whose verdict and
    confidence are texts that lower-case to the values of [v] and [c]. *)
Definition judgment_of (out : pyval) (v : ScoringRVC.Verdict)
    (c : ScoringRVC.ConfidenceLevel) : Prop :=
  exists items sv sc,
    out = PyDict items
    /\ Py.lookup items "verdict" = Some (PyStr sv)
    /\ Py.lookup items "confidence" = Some (PyStr sc)
    /\ lower sv = ScoringRVC.Verdict_value v
    /\ lower sc = ScoringRVC.ConfidenceLevel_value c.

(** The value of the last item whose key is a text that lower-cases to
    [k]. *)
Fixpoint last_with_key (items : list (pyval * pyval)) (k : string)
    : option pyval :=
  match items with
  | [] => None
  | (key, v) :: r =>
      match last_with_key r k with
      | Some w => Some w
      | None =>
          match key with
          | PyStr s => if String.eqb (lower s) k then Some v else None
          | _ => None
          end
      end
  end.

(** What the embedded-object strategy may put under verdict and under
    confidence, and the dictionary it builds. *)
Definition resolved_or_none (tokens : list string) (v : pyval) : Prop :=
  v = PyNone \/ exists t, In t tokens /\ v = PyStr t.

Definition three_fields (r v c : pyval) : pyval :=
  PyDict [(PyStr "reasoning", r); (PyStr "verdict", v);
          (PyStr "confidence", c)].

(** Texts without an opening brace, without a closing brace, without
    any brace. *)
Definition no_lbrace (s : string) : bool :=
  str_forall (fun c => negb (Ascii.eqb c Re.lbrace)) s.

Definition no_rbrace (s : string) : bool :=
  str_forall (fun c => negb (Ascii.eqb c Re.rbrace)) s.

Definition no_brace (s : string) : bool :=
  str_forall (fun c => negb (Ascii.eqb c Re.lbrace)
                       && negb (Ascii.eqb c Re.rbrace)) s.

(** The labeled-section strategy, field by field.  A section counts when
    it is found and not empty; the reasoning is the cleaned section less a
    leading colon; a token is picked from the cleaned section, the first
    of the iteration order that occurs in it. *)
Definition nonempty_section (pattern : Re.section_pattern)
    (lowered : string) : option string :=
  match Evaluation.extract_section pattern lowered with
  | Some (String c t) => Some (String c t)
  | _ => None
  end.

Definition reasoning_from (clean : string -> string) (section : string)
    : string :=
  let r := clean section in
  if startswith ":" r then strip (drop 1 r) else r.

Definition pick (valid : list string) (text : string) : option string :=
  find (fun v => str_in v text) valid.

Section Labeled.

(** [clean_text] of the class or of the module. *)
Variable clean : string -> string.

Definition verdict_section (input : string) : option string :=
  option_map clean
    (nonempty_section (Re.Between "verdict:" "confidence:") (lower input)).

Definition confidence_section (input : string) : option string :=
  option_map clean
    (nonempty_section (Re.After "confidence:") (lower input)).

Definition labeled_reasoning (input : string) : option string :=
  option_map (reasoning_from clean)
    (nonempty_section (Re.Between "reasoning:" "verdict:") (lower input)).

Definition labeled_verdict (o : verdict_order) (input : string)
    : option string :=
  match verdict_section input with
  | Some text => pick (valid_verdicts o) text
  | None => None
  end.

Definition labeled_confidence (o : confidence_order) (input : string)
    : option string :=
  match confidence_section input with
  | Some text => pick (valid_confidence_levels o) text
  | None => None
  end.

End Labeled.

(** The items of the fields that were found, in the order in which the
    strategy stores them. *)
Definition found_fields (r v c : option string) : list (pyval * pyval) :=
  (match r with
   | Some x => [(PyStr "reasoning", PyStr x)]
   | None => []
   end
   ++ match v with
      | Some x => [(PyStr "verdict", PyStr (capitalize x))]
      | None => []
      end
   ++ match c with
      | Some x => [(PyStr "confidence", PyStr (capitalize x))]
      | None => []
      end)%list.

(** At most one token of a list occurs in the section, if there is one. *)
Definition single_token (tokens : list string) (section : option string)
    : bool :=
  match section with
  | Some text =>
      (List.length (filter (fun v => str_in v text) tokens) <=? 1)%nat
  | None => true
  end.

(** A text that lower-casing leaves as it is. *)
Definition lowered (s : string) : bool :=
  str_forall (fun c => Ascii.eqb (lower_char c) c) s.

(** Texts with labeled sections: a complete one, and one whose verdict
    section names both tokens. *)
Definition labeled_example : string :=
  "Reasoning: every specification is there. Verdict: Pass Confidence: High".

Definition two_verdicts_example : string :=
  "Reasoning: close. Verdict: pass rather than fail Confidence: low".

(** A character that lower-casing leaves as it is and that is no double
    quote; a text without double quote. *)
Definition plain_char (c : ascii) : bool :=
  Ascii.eqb (lower_char c) c && negb (Ascii.eqb c dquote).

Definition no_dquote (s : string) : bool :=
  str_forall (fun c => negb (Ascii.eqb c dquote)) s.

(** The first and the last character of a text. *)
Definition first_char (s : string) : option ascii :=
  match s with
  | EmptyString => None
  | String c _ => Some c
  end.

Fixpoint last_char (s : string) : option ascii :=
  match s with
  | EmptyString => None
  | String c EmptyString => Some c
  | String _ t => last_char t
  end.

(** Texts of whitespace only, and of slashes only. *)
Definition all_space (s : string) : bool := str_forall isspace s.

Definition all_slash (s : string) : bool :=
  str_forall (fun c => Ascii.eqb c "/") s.

(** The rank of a confidence level. *)
Definition confidence_rank (c : ScoringRVC.ConfidenceLevel) : nat :=
  match c with
  | ScoringRVC.LOW => 0
  | ScoringRVC.MEDIUM => 1
  | ScoringRVC.HIGH => 2
  end.

End MoreProps.

(* ================================================================== *)
(** * Properties *)

(** ** The scorer *)

Module ScoringFacts.
Import Props Examples.
Import ScoringRVC.

Lemma Verdict_from_string_any_case (v : string) :
  same_letters v "Pass" \/ same_letters v "Fail" ->
  exists m, Verdict_from_string (PyStr v) = Ok m
            /\ Verdict_value m = lower v.
Proof.
  unfold same_letters, Verdict_from_string; simpl.
  intros [H | H]; rewrite H; [exists PASS | exists FAIL]; split; reflexivity.
Qed.

Lemma ConfidenceLevel_from_string_any_case (c : string) :
  same_letters c "High" \/ same_letters c "Medium" \/ same_letters c "Low" ->
  exists m, ConfidenceLevel_from_string (PyStr c) = Ok m
            /\ ConfidenceLevel_value m = lower c.
Proof.
  unfold same_letters, ConfidenceLevel_from_string; simpl.
  intros [H | [H | H]]; rewrite H;
    [exists HIGH | exists MEDIUM | exists LOW]; split; reflexivity.
Qed.

(** The scorer returns the field named by the two canonical tokens,
    whatever the values of the schema. *)
Lemma get_score_field (self : ScoreSchemaRVC) (items : list (pyval * pyval))
    (v c : pyval) (vm : Verdict) (cm : ConfidenceLevel) :
  Py.lookup items "verdict" = Some v ->
  Py.lookup items "confidence" = Some c ->
  Verdict_from_string v = Ok vm ->
  ConfidenceLevel_from_string c = Ok cm ->
  get_score self (PyDict items)
  = getattr self (Verdict_value vm ++ "_" ++ ConfidenceLevel_value cm).
Proof.
  intros Hv Hc Hvm Hcm.
  unfold get_score, Py.getitem.
  rewrite Hv, Hc; simpl. rewrite Hvm; simpl. rewrite Hcm; reflexivity.
Qed.

(** C1.  For every judgment whose verdict is Pass or Fail and whose
    confidence is High, Medium or Low, in any letter case, [get_score] of
    the default schema returns the constant of the table for the two
    lower-cased tokens; that constant is one of the six of the table and
    lies between 0.0 and 1.0. *)
Theorem C1_get_score_returns_table_constant
    (items : list (pyval * pyval)) (v c : string) :
  Py.lookup items "verdict" = Some (PyStr v) ->
  Py.lookup items "confidence" = Some (PyStr c) ->
  same_letters v "Pass" \/ same_letters v "Fail" ->
  same_letters c "High" \/ same_letters c "Medium" \/ same_letters c "Low" ->
  exists x : float,
    get_score default (PyDict items) = Ok x
    /\ table (lower v) (lower c) = Some x
    /\ In x table_values
    /\ PrimFloat.leb 0.0 x = true /\ PrimFloat.leb x 1.0 = true.
Proof.
  intros Hv Hc HV HC.
  destruct (Verdict_from_string_any_case v HV) as [vm [Hvm Evm]].
  destruct (ConfidenceLevel_from_string_any_case c HC) as [cm [Hcm Ecm]].
  rewrite (get_score_field default items _ _ vm cm Hv Hc Hvm Hcm).
  rewrite <- Evm, <- Ecm.
  destruct vm, cm; simpl;
    (eexists; split; [reflexivity |]);
    (split; [reflexivity |]);
    (split; [simpl; tauto | split; reflexivity]).
Qed.

Lemma C1_witness :
  exists x : float,
    get_score default
      (PyDict [(PyStr "reasoning", PyStr "ok");
               (PyStr "verdict", PyStr "PASS");
               (PyStr "confidence", PyStr "mEdium")]) = Ok x
    /\ table (lower "PASS") (lower "mEdium") = Some x
    /\ In x table_values
    /\ PrimFloat.leb 0.0 x = true /\ PrimFloat.leb x 1.0 = true.
Proof.
  apply (C1_get_score_returns_table_constant _ "PASS" "mEdium").
  - reflexivity.
  - reflexivity.
  - left; reflexivity.
  - right; left; reflexivity.
Defined.

(** The constants are literals of the table, not values computed from the
    weights: in binary floating point, one minus the weight 0.85 is not
    the constant 0.15. *)
Remark fail_medium_is_a_literal :
  PrimFloat.eqb (PrimFloat.sub 1.0 (pass_medium default)) (fail_medium default)
  = false.
Proof. reflexivity. Qed.

End ScoringFacts.

(* ================================================================== *)
(** ** The order of the strategies *)

Module OrderFacts.
Import Props Examples.

Lemma first_match_cons_hit P m rest d :
  P m d -> first_match P (m :: rest) d.
Proof.
  intros H. left. exists [], m, rest, d. simpl. auto.
Qed.

Lemma first_match_cons_miss P m rest result :
  (forall d, ~ P m d) -> first_match P rest result ->
  first_match P (m :: rest) result.
Proof.
  intros Hm [(before & m' & after & d & -> & Hb & Hd & ->) | [Hall ->]].
  - left. exists (m :: before), m', after, d. simpl. auto.
  - right. auto.
Qed.

Lemma first_match_nil P : first_match P [] PyNone.
Proof. right. auto. Qed.

Section ClassMethod.

Variable json_loads : string -> result pyval.
Variable literal_eval : string -> result pyval.
Variable verdicts : verdict_order.
Variable confidence_levels : confidence_order.

(** One turn of the loop never raises: it returns the output of the
    method when the method succeeds and goes on otherwise. *)
Lemma attempt_cases (m : method) (raw : string) (required : list string) :
  (exists d, succeeds required raw m d
             /\ Evaluation.attempt m raw required = Ok (Some d))
  \/ ((forall d, ~ succeeds required raw m d)
      /\ Evaluation.attempt m raw required = Ok None).
Proof.
  unfold Evaluation.attempt, succeeds, accepted.
  destruct (m raw) as [d | e]; simpl.
  - destruct (Py.truthy d) eqn:Ht.
    + destruct (Py.keys d) as [ks | e] eqn:Hk; simpl.
      * destruct (Py.issubset required ks) eqn:Hs; simpl.
        -- left. exists d. repeat split; eauto.
        -- right. split; [| reflexivity].
           intros d' (_ & E & ks' & Hk' & Hs'). inversion E; subst d'.
           rewrite Hk in Hk'. inversion Hk'; subst. congruence.
      * right. split; [| reflexivity].
        intros d' (_ & E & ks' & Hk' & _). inversion E; subst d'.
        rewrite Hk in Hk'. discriminate.
    + right. split; [| reflexivity].
      intros d' (Ht' & E & _). inversion E; subst d'. congruence.
  - right. split; [| reflexivity].
    intros d' (_ & E & _). discriminate.
Qed.

Lemma try_each_first_match (methods : list method) (raw : string)
    (required : list string) :
  exists result,
    Evaluation.try_each methods raw required = Ok result
    /\ first_match (succeeds required raw) methods result.
Proof.
  induction methods as [| m rest IH]; simpl.
  - exists PyNone. split; [reflexivity | apply first_match_nil].
  - destruct (attempt_cases m raw required) as [(d & Hd & E) | [Hm E]];
      rewrite E; simpl.
    + exists d. split; [reflexivity | now apply first_match_cons_hit].
    + destruct IH as (result & Er & Hr).
      exists result. split; [exact Er | now apply first_match_cons_miss].
Qed.

End ClassMethod.

Section ModuleLevel.

Variable json_loads : string -> result pyval.
Variable literal_eval : string -> result pyval.
Variable verdicts : verdict_order.
Variable confidence_levels : confidence_order.

(** The body of a [try] block of the module-level function returns the
    parsed value when it is accepted, falls through when it is a
    dictionary that lacks a required key, and raises otherwise. *)
Lemma attempt_cases_module (m : method) (raw : string)
    (required : list string) :
  (exists d, accepted required raw m d
             /\ LlmOutputParser.attempt (m raw) required = Ok (Some d))
  \/ ((forall d, ~ accepted required raw m d)
      /\ (LlmOutputParser.attempt (m raw) required = Ok None
          \/ raises (LlmOutputParser.attempt (m raw) required))).
Proof.
  unfold LlmOutputParser.attempt, accepted, raises.
  destruct (m raw) as [d | e]; simpl.
  - destruct (Py.keys d) as [ks | e] eqn:Hk; simpl.
    + destruct (Py.issubset required ks) eqn:Hs; simpl.
      * left. exists d. repeat split; eauto.
      * right. split; [| now left].
        intros d' (E & ks' & Hk' & Hs'). inversion E; subst d'.
        rewrite Hk in Hk'. inversion Hk'; subst. congruence.
    + right. split; [| right; eauto].
      intros d' (E & ks' & Hk' & _). inversion E; subst d'.
      rewrite Hk in Hk'. discriminate.
  - right. split; [| right; eauto].
    intros d' (E & _). discriminate.
Qed.

(** One [try] block of the module-level function. *)
Lemma block_cases (m : method) (raw : string) (required : list string)
    (classes : list exn_class) :
  let block :=
    try_except (LlmOutputParser.attempt (m raw) required) classes (Ok None)
  in
  (exists d, accepted required raw m d /\ block = Ok (Some d))
  \/ ((forall d, ~ accepted required raw m d)
      /\ (block = Ok None \/ raises block)).
Proof.
  intros block. subst block.
  destruct (attempt_cases_module m raw required)
    as [(d & Hd & E) | [Hm [E | [e E]]]]; rewrite E; simpl.
  - left. eauto.
  - right. split; [exact Hm | now left].
  - right. split; [exact Hm |].
    destruct (existsb (isinstance e) classes); [now left | right].
    exists e; reflexivity.
Qed.

Lemma parse_raw_evaluation_module_first_match (raw : string)
    (required_keys : option (list string)) :
  let required :=
    match required_keys with
    | None => default_required_keys
    | Some l => l
    end in
  let run :=
    LlmOutputParser.parse_raw_evaluation json_loads literal_eval
      verdicts confidence_levels raw required_keys in
  raises run
  \/ exists result,
       run = Ok result
       /\ first_match (accepted required raw)
            [json_loads;
             LlmOutputParser.extract_evaluation_from_json_blob literal_eval;
             LlmOutputParser.extract_evaluation_from_unstructured_text
               verdicts confidence_levels]
            result.
Proof.
  intros required run. subst run.
  unfold LlmOutputParser.parse_raw_evaluation. fold required.
  destruct (block_cases json_loads raw required
              [CJSONDecodeError; CTypeError])
    as [(d & Hd & E) | [H1 [E | [e E]]]]; simpl in E; rewrite E; simpl.
  - right. exists d. split; [reflexivity | now apply first_match_cons_hit].
  - destruct (block_cases
                (LlmOutputParser.extract_evaluation_from_json_blob
                   literal_eval) raw required [CException])
      as [(d & Hd & E2) | [H2 [E2 | [e E2]]]]; simpl in E2; rewrite E2; simpl.
    + right. exists d. split; [reflexivity |].
      apply first_match_cons_miss; [exact H1 |].
      now apply first_match_cons_hit.
    + destruct (block_cases
                  (LlmOutputParser.extract_evaluation_from_unstructured_text
                     verdicts confidence_levels) raw required [CException])
        as [(d & Hd & E3) | [H3 [E3 | [e E3]]]];
        simpl in E3; rewrite E3; simpl.
      * right. exists d. split; [reflexivity |].
        do 2 (apply first_match_cons_miss; [assumption |]).
        now apply first_match_cons_hit.
      * right. exists PyNone. split; [reflexivity |].
        do 3 (apply first_match_cons_miss; [assumption |]).
        apply first_match_nil.
      * left. exists e; reflexivity.
    + left. exists e; reflexivity.
  - left. exists e; reflexivity.
Qed.

End ModuleLevel.

(** C2.  The classmethod tries the direct JSON parse, then the
    embedded-object strategy, then the labeled-section strategy, then the
    registered strategies in the order of their registration (a newly
    registered strategy goes last); it returns the output of the first
    strategy whose output is non-empty and contains all required keys, and
    [None] when there is none.  The module-level function, which has no
    registry, tries its three strategies in the same order and, whenever
    it returns, returns the output of the first one that contains all
    required keys, or [None]. *)
Theorem C2_strategies_in_fixed_order_first_match_wins
    (json_loads literal_eval : string -> result pyval)
    (verdicts : verdict_order) (confidence_levels : confidence_order)
    (registry : list method) (raw : string)
    (required_keys : option (list string)) :
  let required :=
    match required_keys with
    | None => default_required_keys
    | Some l => l
    end in
  (exists result,
      Evaluation.parse_raw_evaluation json_loads literal_eval
        verdicts confidence_levels registry raw required_keys = Ok result
      /\ first_match (succeeds required raw)
           ([Evaluation._parse_json json_loads;
             Evaluation._extract_from_json_blob literal_eval;
             Evaluation._extract_from_unstructured_text
               verdicts confidence_levels] ++ registry)%list
           result)
  /\ (forall m,
        Evaluation.parsing_methods json_loads literal_eval
          verdicts confidence_levels
          (Evaluation.register_parsing_method registry m)
        = (Evaluation.parsing_methods json_loads literal_eval
             verdicts confidence_levels registry ++ [m])%list)
  /\ (let run :=
        LlmOutputParser.parse_raw_evaluation json_loads literal_eval
          verdicts confidence_levels raw required_keys in
      raises run
      \/ exists result,
           run = Ok result
           /\ first_match (accepted required raw)
                [json_loads;
                 LlmOutputParser.extract_evaluation_from_json_blob
                   literal_eval;
                 LlmOutputParser.extract_evaluation_from_unstructured_text
                   verdicts confidence_levels]
                result).
Proof.
  intros required. split; [| split].
  - unfold Evaluation.parse_raw_evaluation. fold required.
    apply try_each_first_match.
  - intros m. unfold Evaluation.parsing_methods,
      Evaluation.register_parsing_method.
    now rewrite app_assoc.
  - apply parse_raw_evaluation_module_first_match.
Qed.

End OrderFacts.

(* ================================================================== *)
(** ** Exceptions at the boundary of the extraction functions *)

Module RobustnessFacts.
Import Props Examples.
Import OrderFacts.

Section AnyLibrary.

Variable json_loads : string -> result pyval.
Variable literal_eval : string -> result pyval.
Variable verdicts : verdict_order.
Variable confidence_levels : confidence_order.

Lemma keys_only_of_dict (v : pyval) (ks : list pyval) :
  Py.keys v = Ok ks -> exists items, v = PyDict items.
Proof. destruct v; simpl; try discriminate. eauto. Qed.

(** The classmethod returns a dictionary or [None] on every text, whatever
    the library functions and the registered strategies do. *)
Lemma classmethod_never_raises (registry : list method) (raw : string)
    (required_keys : option (list string)) :
  exists v,
    Evaluation.parse_raw_evaluation json_loads literal_eval verdicts
      confidence_levels registry raw required_keys = Ok v
    /\ (v = PyNone \/ exists items, v = PyDict items).
Proof.
  unfold Evaluation.parse_raw_evaluation.
  match goal with
  | |- context [Evaluation.try_each ?ms ?r ?k] =>
      destruct (try_each_first_match ms r k) as (v & E & Hv)
  end.
  exists v. split; [exact E |].
  destruct Hv as [(b & m & a & d & _ & _ & (_ & _ & ks & Hk & _) & ->)
                 | [_ ->]].
  - right. eapply keys_only_of_dict; eauto.
  - now left.
Qed.

(** The module-level function lets the [AttributeError] of [.keys()]
    through whenever [json.loads] returns a value that is not a
    dictionary. *)
Lemma module_level_raises_on_non_object (raw : string)
    (required_keys : option (list string)) (v : pyval) :
  json_loads raw = Ok v ->
  (forall items, v <> PyDict items) ->
  LlmOutputParser.parse_raw_evaluation json_loads literal_eval verdicts
    confidence_levels raw required_keys = Raise AttributeError.
Proof.
  intros E Hv. unfold LlmOutputParser.parse_raw_evaluation,
    LlmOutputParser.attempt.
  rewrite E; simpl.
  destruct v; simpl; try reflexivity.
  exfalso. eapply Hv; reflexivity.
Qed.

End AnyLibrary.

(** C3 (at the failing inputs).  On the JSON texts 5 and [1,2] the
    module-level [parse_raw_evaluation] raises [AttributeError], where the
    classmethod returns the failure value. *)
Theorem C3_module_level_function_raises_on_json_non_object
    (verdicts : verdict_order) (confidence_levels : confidence_order) :
  LlmOutputParser.parse_raw_evaluation JsonLib.loads AstLib.literal_eval
    verdicts confidence_levels "5" None = Raise AttributeError
  /\ LlmOutputParser.parse_raw_evaluation JsonLib.loads AstLib.literal_eval
       verdicts confidence_levels "[1,2]" None = Raise AttributeError
  /\ Evaluation.parse_raw_evaluation JsonLib.loads AstLib.literal_eval
       verdicts confidence_levels [] "5" None = Ok PyNone
  /\ Evaluation.parse_raw_evaluation JsonLib.loads AstLib.literal_eval
       verdicts confidence_levels [] "[1,2]" None = Ok PyNone.
Proof.
  destruct verdicts, confidence_levels; repeat split;
    vm_compute; reflexivity.
Qed.

(** The texts without structure of the specification are failures, not
    exceptions, in both pipelines. *)
Lemma unstructured_texts_fail
    (verdicts : verdict_order) (confidence_levels : confidence_order) :
  Evaluation.parse_raw_evaluation JsonLib.loads AstLib.literal_eval
    verdicts confidence_levels [] EmptyString None = Ok PyNone
  /\ Evaluation.parse_raw_evaluation JsonLib.loads AstLib.literal_eval
       verdicts confidence_levels [] "I cannot decide." None = Ok PyNone
  /\ LlmOutputParser.parse_raw_evaluation JsonLib.loads AstLib.literal_eval
       verdicts confidence_levels EmptyString None = Ok PyNone
  /\ LlmOutputParser.parse_raw_evaluation JsonLib.loads AstLib.literal_eval
       verdicts confidence_levels "I cannot decide." None = Ok PyNone.
Proof.
  destruct verdicts, confidence_levels; repeat split;
    vm_compute; reflexivity.
Qed.

End RobustnessFacts.

(* ================================================================== *)
(** ** The pipelines on the texts of the specification *)

Module ExampleFacts.
Import Props Examples.

(** C10.  On a text whose first brace-delimited part parses as a
    dictionary with none of the required fields, the classmethod returns,
    not the failure value, but a dictionary with the three keys present
    and every value [None]: the check of the required keys looks at the
    keys only. *)
Theorem C10_none_valued_dictionary_is_a_success
    (verdicts : verdict_order) (confidence_levels : confidence_order)
    (registry : list method) :
  Re.search_blob "{'a': 1}" = Some "{'a': 1}"
  /\ AstLib.literal_eval "{'a': 1}" = Ok (PyDict [(PyStr "a", PyInt 1)])
  /\ Evaluation.parse_raw_evaluation JsonLib.loads AstLib.literal_eval
       verdicts confidence_levels registry "{'a': 1}" None = Ok none_valued
  /\ none_valued <> PyNone
  /\ Py.keys none_valued
     = Ok [PyStr "reasoning"; PyStr "verdict"; PyStr "confidence"]
  /\ (forall k, In k default_required_keys ->
                Py.getitem none_valued k = Ok PyNone).
Proof.
  repeat split; try reflexivity.
  - discriminate.
  - intros k [<- | [<- | [<- | []]]]; reflexivity.
Qed.

(** The embedded object of the example has names for keys: the lenient
    parse rejects it, and the result comes from the labeled sections. *)
Lemma embedded_example_not_a_literal :
  Re.search_blob embedded_example
  = Some "{reasoning: 'good job', verdict: 'FAIL', confidence: 'medium'}"
  /\ AstLib.literal_eval
       "{reasoning: 'good job', verdict: 'FAIL', confidence: 'medium'}"
     = Raise ValueError
  /\ Evaluation._extract_from_json_blob AstLib.literal_eval embedded_example
     = Ok PyNone.
Proof. repeat split; reflexivity. Qed.

(** C6.  Extraction of the example with an object embedded in prose
    succeeds, in both pipelines and for every iteration order of the set
    literals, with verdict Fail and confidence Medium. *)
Theorem C6_embedded_example_yields_fail_medium
    (verdicts : verdict_order) (confidence_levels : confidence_order)
    (registry : list method) :
  Evaluation.parse_raw_evaluation JsonLib.loads AstLib.literal_eval
    verdicts confidence_levels registry embedded_example None
  = Ok embedded_result
  /\ LlmOutputParser.parse_raw_evaluation JsonLib.loads AstLib.literal_eval
       verdicts confidence_levels embedded_example None
     = Ok embedded_result
  /\ Py.getitem embedded_result "verdict" = Ok (PyStr "Fail")
  /\ Py.getitem embedded_result "confidence" = Ok (PyStr "Medium").
Proof.
  destruct verdicts, confidence_levels; repeat split;
    vm_compute; reflexivity.
Qed.

End ExampleFacts.

(* ================================================================== *)
(** ** Validation: extraction against record construction *)

Module ValidationFacts.
Import Props Examples.

Lemma issubset_nonempty (ks : list pyval) :
  Py.issubset default_required_keys ks = true -> ks <> [].
Proof. intros H ->. discriminate. Qed.

Section AnyLibrary.

Variable json_loads : string -> result pyval.
Variable literal_eval : string -> result pyval.
Variable verdicts : verdict_order.
Variable confidence_levels : confidence_order.

Lemma attempt_hit (m : method) (raw : string) (required : list string)
    (d : pyval) (ks : list pyval) :
  m raw = Ok d -> Py.truthy d = true -> Py.keys d = Ok ks ->
  Py.issubset required ks = true ->
  Evaluation.attempt m raw required = Ok (Some d).
Proof.
  intros E Ht Hk Hs. unfold Evaluation.attempt.
  rewrite E. cbn [bind]. rewrite Ht, Hk. cbn [bind]. rewrite Hs.
  reflexivity.
Qed.

Lemma attempt_hit_module (parsed : result pyval) (required : list string)
    (d : pyval) (ks : list pyval) :
  parsed = Ok d -> Py.keys d = Ok ks -> Py.issubset required ks = true ->
  LlmOutputParser.attempt parsed required = Ok (Some d).
Proof.
  intros E Hk Hs. unfold LlmOutputParser.attempt.
  rewrite E. cbn [bind]. rewrite Hk. cbn [bind]. rewrite Hs. reflexivity.
Qed.

(** When the direct JSON parse yields an object with the three required
    keys, both pipelines return that object as it is: no value is looked
    at and no key is dropped. *)
Lemma direct_parse_returns_candidate (registry : list method)
    (raw : string) (candidate : list (pyval * pyval)) :
  json_loads raw = Ok (PyDict candidate) ->
  Py.issubset default_required_keys (map fst candidate) = true ->
  Evaluation.parse_raw_evaluation json_loads literal_eval verdicts
    confidence_levels registry raw None = Ok (PyDict candidate)
  /\ LlmOutputParser.parse_raw_evaluation json_loads literal_eval verdicts
       confidence_levels raw None = Ok (PyDict candidate).
Proof.
  intros E Hs.
  assert (Ht : Py.truthy (PyDict candidate) = true).
  { destruct candidate; [| reflexivity].
    exfalso. now apply (issubset_nonempty _ Hs). }
  split.
  - unfold Evaluation.parse_raw_evaluation, Evaluation.parsing_methods.
    cbn [app Evaluation.try_each].
    rewrite (attempt_hit (Evaluation._parse_json json_loads) raw
               default_required_keys (PyDict candidate) (map fst candidate));
      try reflexivity; try assumption.
    unfold Evaluation._parse_json. rewrite E. reflexivity.
  - unfold LlmOutputParser.parse_raw_evaluation.
    rewrite (attempt_hit_module (json_loads raw) default_required_keys
               (PyDict candidate) (map fst candidate));
      try reflexivity; assumption.
Qed.

End AnyLibrary.

(** A record is not constructed when the reasoning is blank. *)
Lemma new_rejects_blank_reasoning (data : list (pyval * pyval))
    (names : list string) (s : string) :
  Evaluation.keyword_names data = Ok names ->
  Py.lookup data "reasoning" = Some (PyStr s) ->
  strip s = EmptyString ->
  exists errors,
    Evaluation.new data = Raise (ValidationError errors)
    /\ In ("reasoning", "value_error") errors.
Proof.
  intros Hn Hl Hs. unfold Evaluation.new. rewrite Hn. simpl.
  unfold Evaluation.reasoning_field, Evaluation.validate_reasoning.
  rewrite Hl, Hs. rewrite orb_true_r.
  destruct (Evaluation.verdict_field data),
           (Evaluation.confidence_field data),
           (Evaluation.extra_errors names);
    eexists; (split; [reflexivity | simpl; auto]).
Qed.

(** A record is not constructed from a dictionary with a key that is not
    a field. *)
Lemma new_rejects_extra_key (data : list (pyval * pyval))
    (names : list string) (k : string) :
  Evaluation.keyword_names data = Ok names ->
  In k names ->
  Evaluation.is_field k = false ->
  exists errors,
    Evaluation.new data = Raise (ValidationError errors)
    /\ In (k, "extra_forbidden") errors.
Proof.
  intros Hn Hk Hf. unfold Evaluation.new. rewrite Hn. simpl.
  assert (Hin : In (k, "extra_forbidden") (Evaluation.extra_errors names)).
  { unfold Evaluation.extra_errors.
    apply in_map with (f := fun k => (k, "extra_forbidden")).
    apply filter_In. split; [exact Hk | now rewrite Hf]. }
  destruct (Evaluation.extra_errors names) as [| e extras] eqn:Ex;
    [contradiction |].
  destruct (Evaluation.reasoning_field data),
           (Evaluation.verdict_field data),
           (Evaluation.confidence_field data);
    eexists; (split; [reflexivity |]); simpl in *; tauto.
Qed.

(** The scorer reads the verdict and the confidence and nothing else. *)
Lemma get_score_reads_two_keys (self : ScoringRVC.ScoreSchemaRVC)
    (d d' : list (pyval * pyval)) :
  Py.lookup d' "verdict" = Py.lookup d "verdict" ->
  Py.lookup d' "confidence" = Py.lookup d "confidence" ->
  ScoringRVC.get_score self (PyDict d') = ScoringRVC.get_score self (PyDict d).
Proof.
  intros Hv Hc. unfold ScoringRVC.get_score, Py.getitem.
  now rewrite Hv, Hc.
Qed.

(** C4 as stated fails: extraction of the example with an empty reasoning
    returns the candidate, in both pipelines; it raises nothing. *)
Lemma C4_counterexample :
  Evaluation.parse_raw_evaluation JsonLib.loads AstLib.literal_eval
    PassFail LMH [] blank_reasoning_example None
  = Ok (PyDict blank_reasoning_candidate)
  /\ LlmOutputParser.parse_raw_evaluation JsonLib.loads AstLib.literal_eval
       PassFail LMH blank_reasoning_example None
     = Ok (PyDict blank_reasoning_candidate)
  /\ ~ raises
         (Evaluation.parse_raw_evaluation JsonLib.loads AstLib.literal_eval
            PassFail LMH [] blank_reasoning_example None).
Proof.
  repeat split; try reflexivity.
  intros [e E]. vm_compute in E. discriminate.
Qed.

(** C4, amended.  Extraction does not validate: a candidate from the
    direct JSON parse that has the three required keys is returned as it
    is, also when its reasoning is empty or whitespace-only.  The
    invariant is enforced where a record is constructed: construction from
    such a candidate fails with a validation error on the reasoning. *)
Theorem C4_blank_reasoning_rejected_at_construction_only
    (json_loads literal_eval : string -> result pyval)
    (verdicts : verdict_order) (confidence_levels : confidence_order)
    (registry : list method) (raw : string)
    (candidate : list (pyval * pyval)) (names : list string) (s : string) :
  json_loads raw = Ok (PyDict candidate) ->
  Py.issubset default_required_keys (map fst candidate) = true ->
  Evaluation.keyword_names candidate = Ok names ->
  Py.lookup candidate "reasoning" = Some (PyStr s) ->
  strip s = EmptyString ->
  Evaluation.parse_raw_evaluation json_loads literal_eval verdicts
    confidence_levels registry raw None = Ok (PyDict candidate)
  /\ LlmOutputParser.parse_raw_evaluation json_loads literal_eval verdicts
       confidence_levels raw None = Ok (PyDict candidate)
  /\ exists errors,
       Evaluation.new candidate = Raise (ValidationError errors)
       /\ In ("reasoning", "value_error") errors.
Proof.
  intros E Hs Hn Hl Hb.
  destruct (direct_parse_returns_candidate json_loads literal_eval verdicts
              confidence_levels registry raw candidate E Hs) as [H1 H2].
  repeat split; try assumption.
  eapply new_rejects_blank_reasoning; eassumption.
Qed.

Lemma C4_witness :
  Evaluation.parse_raw_evaluation JsonLib.loads AstLib.literal_eval
    PassFail LMH [] blank_reasoning_example None
  = Ok (PyDict blank_reasoning_candidate)
  /\ LlmOutputParser.parse_raw_evaluation JsonLib.loads AstLib.literal_eval
       PassFail LMH blank_reasoning_example None
     = Ok (PyDict blank_reasoning_candidate)
  /\ exists errors,
       Evaluation.new blank_reasoning_candidate
       = Raise (ValidationError errors)
       /\ In ("reasoning", "value_error") errors.
Proof.
  apply (C4_blank_reasoning_rejected_at_construction_only
           JsonLib.loads AstLib.literal_eval PassFail LMH []
           blank_reasoning_example blank_reasoning_candidate
           ["reasoning"; "verdict"; "confidence"] EmptyString);
    reflexivity.
Defined.

(** C8 as stated fails: a record is constructed from the three fields,
    and is not once the key [note] is added; the construction is affected
    by the extra key. *)
Lemma C8_counterexample :
  Evaluation.new (firstn 3 extra_key_candidate)
  = Ok {| Evaluation.reasoning := "ok";
          Evaluation.verdict := Evaluation.Pass;
          Evaluation.confidence := Evaluation.High |}
  /\ Evaluation.new extra_key_candidate
     = Raise (ValidationError [("note", "extra_forbidden")]).
Proof. split; reflexivity. Qed.

(** C8, amended.  A candidate from the direct JSON parse that has the
    three required keys is accepted with its extra keys, and the scorer
    reads only its verdict and its confidence; the data model, configured
    with [extra = 'forbid'], rejects every key that is not a field when a
    record is constructed. *)
Theorem C8_extra_keys_accepted_scored_but_forbidden_in_records
    (json_loads literal_eval : string -> result pyval)
    (verdicts : verdict_order) (confidence_levels : confidence_order)
    (registry : list method) (raw : string)
    (candidate : list (pyval * pyval)) (names : list string) (k : string) :
  json_loads raw = Ok (PyDict candidate) ->
  Py.issubset default_required_keys (map fst candidate) = true ->
  Evaluation.keyword_names candidate = Ok names ->
  In k names ->
  Evaluation.is_field k = false ->
  Evaluation.parse_raw_evaluation json_loads literal_eval verdicts
    confidence_levels registry raw None = Ok (PyDict candidate)
  /\ (forall (self : ScoringRVC.ScoreSchemaRVC) (other : list (pyval * pyval)),
        Py.lookup other "verdict" = Py.lookup candidate "verdict" ->
        Py.lookup other "confidence" = Py.lookup candidate "confidence" ->
        ScoringRVC.get_score self (PyDict other)
        = ScoringRVC.get_score self (PyDict candidate))
  /\ exists errors,
       Evaluation.new candidate = Raise (ValidationError errors)
       /\ In (k, "extra_forbidden") errors.
Proof.
  intros E Hs Hn Hk Hf.
  destruct (direct_parse_returns_candidate json_loads literal_eval verdicts
              confidence_levels registry raw candidate E Hs) as [H1 _].
  split; [exact H1 | split].
  - intros self other. apply get_score_reads_two_keys.
  - eapply new_rejects_extra_key; eassumption.
Qed.

Lemma C8_witness :
  Evaluation.parse_raw_evaluation JsonLib.loads AstLib.literal_eval
    PassFail LMH [] extra_key_example None = Ok (PyDict extra_key_candidate)
  /\ (forall (self : ScoringRVC.ScoreSchemaRVC) (other : list (pyval * pyval)),
        Py.lookup other "verdict" = Py.lookup extra_key_candidate "verdict" ->
        Py.lookup other "confidence"
        = Py.lookup extra_key_candidate "confidence" ->
        ScoringRVC.get_score self (PyDict other)
        = ScoringRVC.get_score self (PyDict extra_key_candidate))
  /\ exists errors,
       Evaluation.new extra_key_candidate = Raise (ValidationError errors)
       /\ In ("note", "extra_forbidden") errors.
Proof.
  apply (C8_extra_keys_accepted_scored_but_forbidden_in_records
           JsonLib.loads AstLib.literal_eval PassFail LMH []
           extra_key_example extra_key_candidate
           ["reasoning"; "verdict"; "confidence"; "note"] "note");
    try reflexivity.
  simpl; auto.
Defined.

End ValidationFacts.

(* ================================================================== *)
(** ** The token search of the embedded-object strategy *)

Module TokenFacts.
Import Props Examples.

Lemma startswith_iff (p s : string) :
  startswith p s = true <-> exists t, s = p ++ t.
Proof.
  revert s. induction p as [| a p IH]; intros s; simpl.
  - split; [intros _; exists s; reflexivity | intros _; reflexivity].
  - destruct s as [| b s].
    + split; [discriminate | intros [t E]; discriminate].
    + rewrite andb_true_iff, Ascii.eqb_eq, IH.
      split.
      * intros [-> [t ->]]. now exists t.
      * intros [t E]. inversion E. eauto.
Qed.

(** [needle in hay] holds exactly when [needle] occurs somewhere in
    [hay]. *)
Lemma str_in_iff (needle hay : string) :
  str_in needle hay = true <-> occurs_in needle hay.
Proof.
  unfold occurs_in. split.
  - induction hay as [| c hay IH]; simpl; intros H.
    + rewrite orb_false_r in H. apply startswith_iff in H as [t E].
      exists EmptyString, t. exact E.
    + apply orb_true_iff in H as [H | H].
      * apply startswith_iff in H as [t E]. exists EmptyString, t. exact E.
      * destruct (IH H) as (b & a & E).
        exists (String c b), a. simpl. now rewrite E.
  - intros (b & a & E). subst hay.
    induction b as [| c b IH]; simpl.
    + assert (H : startswith needle (needle ++ a) = true)
        by (apply startswith_iff; eauto).
      destruct (needle ++ a); simpl; now rewrite H.
    + simpl in IH. rewrite IH. apply orb_true_r.
Qed.

Lemma not_str_in_iff (needle hay : string) :
  str_in needle hay = false <-> ~ occurs_in needle hay.
Proof.
  rewrite <- str_in_iff. destruct (str_in needle hay); split;
    congruence.
Qed.

Lemma found_verdict_resolution (text : string) :
  verdict_resolution text (found_verdict text).
Proof.
  unfold verdict_resolution, found_verdict.
  destruct (str_in "pass" text) eqn:Hp;
    [apply str_in_iff in Hp | apply not_str_in_iff in Hp];
  (destruct (str_in "fail" text) eqn:Hf;
    [apply str_in_iff in Hf | apply not_str_in_iff in Hf]);
  repeat split; intros; try reflexivity; contradiction.
Qed.

Lemma found_confidence_resolution (text : string) :
  confidence_resolution text (found_confidence text).
Proof.
  unfold confidence_resolution, found_confidence.
  destruct (str_in "low" text) eqn:Hl;
    [apply str_in_iff in Hl | apply not_str_in_iff in Hl];
  (destruct (str_in "medium" text) eqn:Hm;
    [apply str_in_iff in Hm | apply not_str_in_iff in Hm]);
  (destruct (str_in "high" text) eqn:Hh;
    [apply str_in_iff in Hh | apply not_str_in_iff in Hh]);
  repeat split; intros; try reflexivity; contradiction.
Qed.

(** The two loops of the classmethod's strategy. *)
Lemma assign_first_verdict (text : string) (r c : pyval) :
  Evaluation.assign_first ["Pass"; "Fail"] text "verdict"
    [(PyStr "reasoning", r); (PyStr "verdict", PyNone);
     (PyStr "confidence", c)]
  = [(PyStr "reasoning", r); (PyStr "verdict", found_verdict text);
     (PyStr "confidence", c)].
Proof.
  unfold found_verdict. cbn [Evaluation.assign_first].
  change (lower "Pass") with "pass". change (lower "Fail") with "fail".
  destruct (str_in "pass" text); [reflexivity |].
  destruct (str_in "fail" text); reflexivity.
Qed.

Lemma assign_first_confidence (text : string) (r v : pyval) :
  Evaluation.assign_first ["Low"; "Medium"; "High"] text "confidence"
    [(PyStr "reasoning", r); (PyStr "verdict", v);
     (PyStr "confidence", PyNone)]
  = [(PyStr "reasoning", r); (PyStr "verdict", v);
     (PyStr "confidence", found_confidence text)].
Proof.
  unfold found_confidence. cbn [Evaluation.assign_first].
  change (lower "Low") with "low". change (lower "Medium") with "medium".
  change (lower "High") with "high".
  destruct (str_in "low" text); [reflexivity |].
  destruct (str_in "medium" text); [reflexivity |].
  destruct (str_in "high" text); reflexivity.
Qed.

(** The two loops of the module-level strategy, on values that are
    texts. *)
Lemma resolve_verdict (sv : string) (r c : pyval) :
  LlmOutputParser.resolve ["Pass"; "Fail"] "verdict"
    [(PyStr "reasoning", r); (PyStr "verdict", PyStr sv);
     (PyStr "confidence", c)]
  = Ok [(PyStr "reasoning", r); (PyStr "verdict", found_verdict (lower sv));
        (PyStr "confidence", c)].
Proof.
  unfold found_verdict, LlmOutputParser.resolve.
  cbn [LlmOutputParser.search_tokens].
  change (Py.getitem _ "verdict") with (Ok (A := pyval) (PyStr sv)).
  cbn [bind Py.method_lower].
  change (lower "Pass") with "pass". change (lower "Fail") with "fail".
  destruct (str_in "pass" (lower sv)); [reflexivity |].
  destruct (str_in "fail" (lower sv)); reflexivity.
Qed.

Lemma resolve_confidence (sc : string) (r v : pyval) :
  LlmOutputParser.resolve ["Low"; "Medium"; "High"] "confidence"
    [(PyStr "reasoning", r); (PyStr "verdict", v);
     (PyStr "confidence", PyStr sc)]
  = Ok [(PyStr "reasoning", r); (PyStr "verdict", v);
        (PyStr "confidence", found_confidence (lower sc))].
Proof.
  unfold found_confidence, LlmOutputParser.resolve.
  cbn [LlmOutputParser.search_tokens].
  change (Py.getitem _ "confidence") with (Ok (A := pyval) (PyStr sc)).
  cbn [bind Py.method_lower].
  change (lower "Low") with "low". change (lower "Medium") with "medium".
  change (lower "High") with "high".
  destruct (str_in "low" (lower sc)); [reflexivity |].
  destruct (str_in "medium" (lower sc)); [reflexivity |].
  destruct (str_in "high" (lower sc)); reflexivity.
Qed.

Lemma normalize_keys_same (items acc : list (pyval * pyval)) :
  LlmOutputParser.normalize_keys items acc
  = Evaluation.normalize_keys items acc.
Proof. reflexivity. Qed.

Lemma searched_text (normalized : list (pyval * pyval)) (key s : string) :
  Py.get normalized key = PyStr s -> searched normalized key = lower s.
Proof.
  unfold searched, Py.get, Py.get_default.
  destruct (Py.lookup normalized key); [| discriminate].
  now intros ->.
Qed.

Section AnyLibrary.

Variable literal_eval : string -> result pyval.

(** The classmethod's strategy on a parsed dictionary with text keys. *)
Lemma extract_from_json_blob_parsed (input dict_str : string)
    (items normalized : list (pyval * pyval)) :
  Re.search_blob input = Some dict_str ->
  literal_eval dict_str = Ok (PyDict items) ->
  Evaluation.normalize_keys items [] = Ok normalized ->
  Evaluation._extract_from_json_blob literal_eval input
  = Ok (PyDict
          [(PyStr "reasoning", Py.get normalized "reasoning");
           (PyStr "verdict", found_verdict (searched normalized "verdict"));
           (PyStr "confidence",
            found_confidence (searched normalized "confidence"))]).
Proof.
  intros Hs He Hn. unfold Evaluation._extract_from_json_blob.
  rewrite Hs, He. cbn [bind Py.items]. rewrite Hn. cbn [bind].
  rewrite assign_first_verdict, assign_first_confidence. reflexivity.
Qed.

(** The module-level strategy on a parsed dictionary with text keys whose
    verdict and confidence are texts. *)
Lemma extract_evaluation_from_json_blob_parsed (input dict_str : string)
    (items normalized : list (pyval * pyval)) (sv sc : string) :
  Re.search_blob input = Some dict_str ->
  literal_eval dict_str = Ok (PyDict items) ->
  Evaluation.normalize_keys items [] = Ok normalized ->
  Py.get normalized "verdict" = PyStr sv ->
  Py.get normalized "confidence" = PyStr sc ->
  LlmOutputParser.extract_evaluation_from_json_blob literal_eval input
  = Ok (PyDict
          [(PyStr "reasoning", Py.get normalized "reasoning");
           (PyStr "verdict", found_verdict (searched normalized "verdict"));
           (PyStr "confidence",
            found_confidence (searched normalized "confidence"))]).
Proof.
  intros Hs He Hn Hv Hc.
  unfold LlmOutputParser.extract_evaluation_from_json_blob.
  rewrite Hs, He. cbn [bind Py.items].
  rewrite normalize_keys_same, Hn. cbn [bind].
  rewrite Hv, Hc, resolve_verdict. cbn [bind].
  rewrite resolve_confidence. cbn [bind try_except].
  now rewrite (searched_text _ _ _ Hv), (searched_text _ _ _ Hc).
Qed.

End AnyLibrary.

(** C5.  In the embedded-object strategy, for every brace-delimited part
    that parses as a dictionary with text keys, the verdict is the first
    of Pass, Fail that occurs, letter case ignored, in the verdict value,
    and the confidence the first of Low, Medium, High that occurs in the
    confidence value, [None] when none occurs; a confidence value in which
    both high and low occur resolves to Low wherever they stand.  The
    module-level strategy gives the same dictionary when both values are
    texts. *)
Theorem C5_embedded_object_token_search_order
    (literal_eval : string -> result pyval) (input dict_str : string)
    (items normalized : list (pyval * pyval)) :
  Re.search_blob input = Some dict_str ->
  literal_eval dict_str = Ok (PyDict items) ->
  Evaluation.normalize_keys items [] = Ok normalized ->
  exists v c : pyval,
    let extracted :=
      PyDict [(PyStr "reasoning", Py.get normalized "reasoning");
              (PyStr "verdict", v);
              (PyStr "confidence", c)] in
    Evaluation._extract_from_json_blob literal_eval input = Ok extracted
    /\ verdict_resolution (searched normalized "verdict") v
    /\ confidence_resolution (searched normalized "confidence") c
    /\ (occurs_in "high" (searched normalized "confidence") ->
        occurs_in "low" (searched normalized "confidence") ->
        c = PyStr "Low")
    /\ (forall sv sc : string,
          Py.get normalized "verdict" = PyStr sv ->
          Py.get normalized "confidence" = PyStr sc ->
          LlmOutputParser.extract_evaluation_from_json_blob literal_eval
            input = Ok extracted).
Proof.
  intros Hs He Hn.
  exists (found_verdict (searched normalized "verdict")),
         (found_confidence (searched normalized "confidence")).
  cbv zeta. split; [| split; [| split; [| split]]].
  - eapply extract_from_json_blob_parsed; eassumption.
  - apply found_verdict_resolution.
  - apply found_confidence_resolution.
  - intros _ Hl. now apply (found_confidence_resolution _).
  - intros sv sc Hv Hc.
    eapply extract_evaluation_from_json_blob_parsed; eassumption.
Qed.

Lemma C5_witness :
  exists v c : pyval,
    let normalized :=
      [(PyStr "verdict", PyStr "not a fail: PASS");
       (PyStr "confidence", PyStr "High, not low")] in
    let extracted :=
      PyDict [(PyStr "reasoning", Py.get normalized "reasoning");
              (PyStr "verdict", v);
              (PyStr "confidence", c)] in
    Evaluation._extract_from_json_blob AstLib.literal_eval
      both_tokens_example = Ok extracted
    /\ verdict_resolution (searched normalized "verdict") v
    /\ confidence_resolution (searched normalized "confidence") c
    /\ (occurs_in "high" (searched normalized "confidence") ->
        occurs_in "low" (searched normalized "confidence") ->
        c = PyStr "Low")
    /\ (forall sv sc : string,
          Py.get normalized "verdict" = PyStr sv ->
          Py.get normalized "confidence" = PyStr sc ->
          LlmOutputParser.extract_evaluation_from_json_blob
            AstLib.literal_eval both_tokens_example = Ok extracted).
Proof.
  apply (C5_embedded_object_token_search_order AstLib.literal_eval
           both_tokens_example
           "{'Verdict': 'not a fail: PASS', 'confidence': 'High, not low'}"
           [(PyStr "Verdict", PyStr "not a fail: PASS");
            (PyStr "confidence", PyStr "High, not low")]
           [(PyStr "verdict", PyStr "not a fail: PASS");
            (PyStr "confidence", PyStr "High, not low")]);
    reflexivity.
Defined.

(** On the example, the results are Pass and Low although fail and high
    come first in the text. *)
Lemma both_tokens_example_result :
  Evaluation._extract_from_json_blob AstLib.literal_eval both_tokens_example
  = Ok (PyDict [(PyStr "reasoning", PyNone);
                (PyStr "verdict", PyStr "Pass");
                (PyStr "confidence", PyStr "Low")]).
Proof. reflexivity. Qed.

End TokenFacts.

(* ================================================================== *)
(** ** Round trip through the canonical JSON form *)

Module RoundTripFacts.
Import Props Examples.

Lemma append_assoc (a b c : string) : (a ++ b) ++ c = a ++ (b ++ c).
Proof. induction a as [| x a IH]; simpl; [reflexivity | now rewrite IH]. Qed.

Lemma rev_onto_app (s acc : string) :
  rev_onto s acc = rev_onto s EmptyString ++ acc.
Proof.
  revert acc. induction s as [| c s IH]; intros acc; simpl.
  - reflexivity.
  - rewrite IH, (IH (String c EmptyString)), append_assoc. reflexivity.
Qed.

Lemma rev_rev_onto (s acc : string) :
  rev (rev_onto s acc) = rev acc ++ s.
Proof.
  revert acc. induction s as [| c s IH]; intros acc; simpl.
  - unfold rev. induction (rev_onto acc EmptyString); simpl; congruence.
  - rewrite IH. unfold rev. simpl.
    rewrite (rev_onto_app acc), append_assoc. reflexivity.
Qed.

Lemma rev_involutive (s : string) : rev (rev s) = s.
Proof. unfold rev at 2. rewrite rev_rev_onto. reflexivity. Qed.

(** The lexer reads the escaped form of a character back as that
    character. *)
Lemma lex_dump_char (c : ascii) (t acc : string)
    (out : list JsonLib.token) :
  JsonLib.lex (JsonLib.dump_char c ++ t) (JsonLib.InString acc) out
  = JsonLib.lex t (JsonLib.InString (String c acc)) out.
Proof.
  destruct c as [b0 b1 b2 b3 b4 b5 b6 b7].
  destruct b0, b1, b2, b3, b4, b5, b6, b7; reflexivity.
Qed.

Lemma lex_dump_body (s t acc : string) (out : list JsonLib.token) :
  JsonLib.lex (JsonLib.dump_body s ++ t) (JsonLib.InString acc) out
  = JsonLib.lex t (JsonLib.InString (rev_onto s acc)) out.
Proof.
  revert acc. induction s as [| c s IH]; intros acc; simpl.
  - reflexivity.
  - rewrite append_assoc, lex_dump_char. apply IH.
Qed.

(** The tokens of the canonical JSON form of a record. *)
Lemma lex_json_of (self : Evaluation.EvaluationResponse) :
  JsonLib.lex (PydanticLib.json_of self) JsonLib.Idle []
  = Ok [JsonLib.TLBrace;
        JsonLib.TString "reasoning"; JsonLib.TColon;
        JsonLib.TString (Evaluation.reasoning self); JsonLib.TComma;
        JsonLib.TString "verdict"; JsonLib.TColon;
        JsonLib.TString (Evaluation.verdict_text (Evaluation.verdict self));
        JsonLib.TComma;
        JsonLib.TString "confidence"; JsonLib.TColon;
        JsonLib.TString
          (Evaluation.confidence_text (Evaluation.confidence self));
        JsonLib.TRBrace].
Proof.
  destruct self as [s v c]. unfold PydanticLib.json_of.
  cbn [Evaluation.reasoning Evaluation.verdict Evaluation.confidence].
  unfold JsonLib.dump_str.
  change (JsonLib.lex
            ("{" ++ q "reasoning" ++ ":"
             ++ (String dquote (JsonLib.dump_body s)
                 ++ String dquote EmptyString)
             ++ "," ++ q "verdict" ++ ":" ++ q (Evaluation.verdict_text v)
             ++ "," ++ q "confidence" ++ ":"
             ++ q (Evaluation.confidence_text c) ++ "}")
            JsonLib.Idle [])
    with (JsonLib.lex
            ((JsonLib.dump_body s ++ String dquote EmptyString)
             ++ "," ++ q "verdict" ++ ":" ++ q (Evaluation.verdict_text v)
             ++ "," ++ q "confidence" ++ ":"
             ++ q (Evaluation.confidence_text c) ++ "}")
            (JsonLib.InString EmptyString)
            [JsonLib.TColon; JsonLib.TString "reasoning"; JsonLib.TLBrace]).
  rewrite append_assoc, lex_dump_body.
  change (rev_onto s EmptyString) with (rev s).
  rewrite <- (rev_involutive s) at 2. generalize (rev s) as acc.
  intros acc. destruct v, c; vm_compute; reflexivity.
Qed.

Lemma loads_json_of (self : Evaluation.EvaluationResponse) :
  JsonLib.loads (PydanticLib.json_of self)
  = Ok (PyDict (Evaluation.model_dump self)).
Proof.
  unfold JsonLib.loads. rewrite lex_json_of. reflexivity.
Qed.

(** *** Texts over the alphabet, by code points *)

Lemma to_string_of_string (s : string) :
  Unicode.to_string (Unicode.of_string s) = Some s.
Proof.
  unfold Unicode.of_string.
  induction s as [| c t IH]; cbn [list_ascii_of_string map
    Unicode.to_string]; [reflexivity |].
  pose proof (N_ascii_bounded c) as Hb. apply N.ltb_lt in Hb.
  rewrite Hb, IH, ascii_N_embedding. reflexivity.
Qed.

Lemma no_surrogate_of_string (s : string) :
  existsb Unicode.is_surrogate (Unicode.of_string s) = false.
Proof.
  unfold Unicode.of_string.
  induction s as [| c t IH]; cbn [list_ascii_of_string map existsb];
    [reflexivity |].
  rewrite IH, orb_false_r. unfold Unicode.is_surrogate.
  pose proof (N_ascii_bounded c) as Hb.
  apply andb_false_iff. left. apply N.leb_gt. lia.
Qed.

Lemma isspace_of_ascii (c : ascii) :
  Unicode.isspace (N_of_ascii c) = isspace c.
Proof.
  unfold Unicode.isspace.
  pose proof (N_ascii_bounded c) as Hb. apply N.ltb_lt in Hb.
  now rewrite Hb, ascii_N_embedding.
Qed.

Lemma strip_of_string (s : string) :
  Unicode.strip (Unicode.of_string s) = Unicode.of_string (strip s).
Proof.
  unfold Unicode.strip, strip.
  assert (L : forall t, Unicode.lstrip (Unicode.of_string t)
                        = Unicode.of_string (lstrip t)).
  { unfold Unicode.of_string.
    induction t as [| c t IH]; [reflexivity |].
    cbn [list_ascii_of_string map Unicode.lstrip lstrip].
    rewrite isspace_of_ascii. destruct (isspace c); [exact IH |].
    reflexivity. }
  assert (R : forall t, Unicode.rstrip (Unicode.of_string t)
                        = Unicode.of_string (rstrip t)).
  { unfold Unicode.of_string.
    induction t as [| c t IH]; [reflexivity |].
    cbn [list_ascii_of_string map Unicode.rstrip rstrip].
    rewrite IH, isspace_of_ascii.
    destruct (rstrip t); [destruct (isspace c) |]; reflexivity. }
  now rewrite L, R.
Qed.

(** The validator on code points is the validator on the alphabet. *)
Lemma validate_reasoning_text_of_string (s : string) :
  Evaluation.validate_reasoning_text (Unicode.of_string s)
  = match Evaluation.validate_reasoning s with
    | Ok v => Ok (Unicode.of_string v)
    | Raise e => Raise e
    end.
Proof.
  unfold Evaluation.validate_reasoning_text, Evaluation.validate_reasoning.
  rewrite strip_of_string.
  assert (E : forall t, Unicode.is_empty (Unicode.of_string t) = is_empty t)
    by (intros [| c t]; reflexivity).
  rewrite !E.
  destruct (is_empty s || is_empty (strip s)); reflexivity.
Qed.

(** On a record over the alphabet the serializer does not raise. *)
Lemma model_dump_json_instance_of (self : Evaluation.EvaluationResponse) :
  PydanticLib.model_dump_json (Evaluation.instance_of self)
  = Ok (PydanticLib.json_of self).
Proof.
  destruct self as [s v c].
  unfold PydanticLib.model_dump_json, Evaluation.instance_of.
  cbn [Evaluation.instance_reasoning Evaluation.instance_verdict
       Evaluation.instance_confidence Evaluation.reasoning
       Evaluation.verdict Evaluation.confidence].
  now rewrite no_surrogate_of_string, to_string_of_string.
Qed.

(** A constructed record has a reasoning that passes the validator. *)
Lemma new_reasoning_valid (data : list (pyval * pyval))
    (self : Evaluation.EvaluationResponse) :
  Evaluation.new data = Ok self ->
  Evaluation.validate_reasoning (Evaluation.reasoning self)
  = Ok (Evaluation.reasoning self).
Proof.
  unfold Evaluation.new.
  destruct (Evaluation.keyword_names data) as [names | e];
    [cbn [bind] | discriminate].
  unfold Evaluation.reasoning_field.
  destruct (Py.lookup data "reasoning") as [[| | | | s | | | |] |];
    try (destruct (Evaluation.verdict_field data),
                  (Evaluation.confidence_field data),
                  (Evaluation.extra_errors names); discriminate).
  unfold Evaluation.validate_reasoning.
  destruct (is_empty s || is_empty (strip s)) eqn:Hb;
    destruct (Evaluation.verdict_field data),
             (Evaluation.confidence_field data),
             (Evaluation.extra_errors names); try discriminate.
  intros E; inversion E; subst; cbn [Evaluation.reasoning].
  rewrite Hb. reflexivity.
Qed.

Lemma new_model_dump (self : Evaluation.EvaluationResponse) :
  Evaluation.validate_reasoning (Evaluation.reasoning self)
  = Ok (Evaluation.reasoning self) ->
  Evaluation.new (Evaluation.model_dump self) = Ok self.
Proof.
  destruct self as [s v c]. cbn [Evaluation.reasoning]. intros Hv.
  unfold Evaluation.new, Evaluation.model_dump.
  cbn [Evaluation.keyword_names bind Evaluation.reasoning
       Evaluation.verdict Evaluation.confidence].
  unfold Evaluation.reasoning_field.
  change (Py.lookup _ "reasoning") with (Some (PyStr s)).
  cbv iota beta. rewrite Hv.
  destruct v, c; reflexivity.
Qed.

(** C7 as stated fails: the validator of the class accepts a reasoning
    that holds a lone surrogate, and the instance has no canonical JSON
    form: the serializer raises, and [to_json], which catches the
    [JSONDecodeError] of the parser only, lets the exception through. *)
Lemma C7_counterexample :
  Evaluation.validate_reasoning_text
    (Evaluation.instance_reasoning surrogate_record)
  = Ok (Evaluation.instance_reasoning surrogate_record)
  /\ PydanticLib.model_dump_json surrogate_record
     = Raise PydanticSerializationError
  /\ Evaluation.to_json JsonLib.loads PydanticLib.model_dump_json
       surrogate_record
     = Raise PydanticSerializationError.
Proof. repeat split; reflexivity. Qed.

(** C7, amended.  For every record that was constructed from values over
    the alphabet the serializer gives a canonical JSON form, which the
    parser reads back as the fields of the record.  And whatever the
    serializer and the parser are: when the serializer gives a text for
    the record and the parser reads that text back as its fields, the
    direct JSON parse (the first strategy) returns exactly these fields
    from the text, and so do both pipelines; [to_json] returns the same
    dictionary, and constructing a record from it gives the record
    back. *)
Theorem C7_round_trip_when_serialization_succeeds
    (data : list (pyval * pyval)) (self : Evaluation.EvaluationResponse) :
  Evaluation.new data = Ok self ->
  let fields := PyDict (Evaluation.model_dump self) in
  (exists text,
      PydanticLib.model_dump_json (Evaluation.instance_of self) = Ok text
      /\ JsonLib.loads text = Ok fields)
  /\ forall (json_loads literal_eval : string -> result pyval)
       (model_dump_json : Evaluation.instance -> result string)
       (verdicts : verdict_order) (confidence_levels : confidence_order)
       (registry : list method) (text : string),
       model_dump_json (Evaluation.instance_of self) = Ok text ->
       json_loads text = Ok fields ->
       Evaluation._parse_json json_loads text = Ok fields
       /\ Evaluation.parse_raw_evaluation json_loads literal_eval verdicts
            confidence_levels registry text None = Ok fields
       /\ LlmOutputParser.parse_raw_evaluation json_loads literal_eval
            verdicts confidence_levels text None = Ok fields
       /\ Evaluation.to_json json_loads model_dump_json
            (Evaluation.instance_of self) = Ok fields
       /\ Evaluation.new (Evaluation.model_dump self) = Ok self.
Proof.
  intros Hnew fields. subst fields. split.
  - exists (PydanticLib.json_of self).
    split; [apply model_dump_json_instance_of | apply loads_json_of].
  - intros json_loads literal_eval model_dump_json verdicts
      confidence_levels registry text Hd Hl.
    destruct (ValidationFacts.direct_parse_returns_candidate json_loads
                literal_eval verdicts confidence_levels registry _ _ Hl
                eq_refl) as [H1 H2].
    split; [| split; [| split; [| split]]].
    + unfold Evaluation._parse_json. rewrite Hl. reflexivity.
    + exact H1.
    + exact H2.
    + unfold Evaluation.to_json. rewrite Hd. cbn [bind].
      rewrite Hl. reflexivity.
    + apply new_model_dump. eapply new_reasoning_valid; eassumption.
Qed.

Lemma C7_witness :
  let fields := PyDict (Evaluation.model_dump round_trip_record) in
  (exists text,
      PydanticLib.model_dump_json (Evaluation.instance_of round_trip_record)
      = Ok text
      /\ JsonLib.loads text = Ok fields)
  /\ forall (json_loads literal_eval : string -> result pyval)
       (model_dump_json : Evaluation.instance -> result string)
       (verdicts : verdict_order) (confidence_levels : confidence_order)
       (registry : list method) (text : string),
       model_dump_json (Evaluation.instance_of round_trip_record)
       = Ok text ->
       json_loads text = Ok fields ->
       Evaluation._parse_json json_loads text = Ok fields
       /\ Evaluation.parse_raw_evaluation json_loads literal_eval verdicts
            confidence_levels registry text None = Ok fields
       /\ LlmOutputParser.parse_raw_evaluation json_loads literal_eval
            verdicts confidence_levels text None = Ok fields
       /\ Evaluation.to_json json_loads model_dump_json
            (Evaluation.instance_of round_trip_record) = Ok fields
       /\ Evaluation.new (Evaluation.model_dump round_trip_record)
          = Ok round_trip_record.
Proof.
  apply (C7_round_trip_when_serialization_succeeds round_trip_data
           round_trip_record).
  reflexivity.
Defined.

End RoundTripFacts.

(* ================================================================== *)
(** ** The two pipelines compared *)

Module EquivalenceFacts.
Import Props Examples.

(** *** Texts made of characters of a class *)

Lemma str_forall_drop P (n : nat) (s : string) :
  str_forall P s = true -> str_forall P (drop n s) = true.
Proof.
  revert s. induction n as [| n IH]; intros [| c t]; simpl; auto.
  intros H. apply andb_true_iff in H as [_ H]. auto.
Qed.

Lemma str_forall_isplit_at P (needle hay before after : string) :
  str_forall P hay = true ->
  Re.isplit_at needle hay = Some (before, after) ->
  str_forall P before = true /\ str_forall P after = true.
Proof.
  revert before after. induction hay as [| c t IH]; intros before after H;
    simpl.
  - destruct (Re.iprefix needle EmptyString); [| discriminate].
    intros E; inversion E; subst. split; [reflexivity |].
    now apply str_forall_drop.
  - destruct (Re.iprefix needle (String c t)).
    + intros E; inversion E; subst. split; [reflexivity |].
      now apply str_forall_drop.
    + destruct (Re.isplit_at needle t) as [[b a] |]; [| discriminate].
      intros E; inversion E; subst.
      simpl in H. apply andb_true_iff in H as [Hc Ht].
      destruct (IH b after Ht eq_refl) as [Hb Ha].
      simpl. now rewrite Hc, Hb.
Qed.

Lemma str_forall_lstrip P (s : string) :
  str_forall P s = true -> str_forall P (lstrip s) = true.
Proof.
  induction s as [| c t IH]; simpl; [reflexivity |].
  intros H. destruct (isspace c); [| exact H].
  apply andb_true_iff in H as [_ H]. auto.
Qed.

Lemma str_forall_rstrip P (s : string) :
  str_forall P s = true -> str_forall P (rstrip s) = true.
Proof.
  induction s as [| c t IH]; simpl; [reflexivity |].
  intros H. apply andb_true_iff in H as [Hc Ht].
  specialize (IH Ht). destruct (rstrip t) as [| c' t'].
  - destruct (isspace c); simpl; [reflexivity | now rewrite Hc].
  - simpl. simpl in IH. now rewrite Hc, IH.
Qed.

Lemma str_forall_strip P (s : string) :
  str_forall P s = true -> str_forall P (strip s) = true.
Proof.
  intros H. unfold strip. now apply str_forall_rstrip, str_forall_lstrip.
Qed.

Lemma str_forall_extract_section P (pattern : Re.section_pattern)
    (text section : string) :
  str_forall P text = true ->
  Evaluation.extract_section pattern text = Some section ->
  str_forall P section = true.
Proof.
  intros H. unfold Evaluation.extract_section, Re.search_group1.
  destruct pattern as [label next | label].
  - destruct (Re.isplit_at label text) as [[b rest] |] eqn:E1;
      [| discriminate].
    destruct (str_forall_isplit_at P _ _ _ _ H E1) as [_ Hrest].
    destruct (Re.isplit_at next rest) as [[inside a] |] eqn:E2;
      [| discriminate].
    destruct (str_forall_isplit_at P _ _ _ _ Hrest E2) as [Hin _].
    simpl. intros E; inversion E; subst. now apply str_forall_strip.
  - destruct (Re.isplit_at label text) as [[b rest] |] eqn:E1;
      [| discriminate].
    destruct (str_forall_isplit_at P _ _ _ _ H E1) as [_ Hrest].
    simpl. intros E; inversion E; subst. now apply str_forall_strip.
Qed.

(** The substitution depends on the marker class only through the
    characters of the text. *)
Lemma sub_markers_ext (m1 m2 : ascii -> bool) (s : string) :
  str_forall (fun c => Bool.eqb (m1 c) (m2 c)) s = true ->
  forall st, Re.sub_markers m1 st s = Re.sub_markers m2 st s.
Proof.
  induction s as [| c t IH]; simpl; [reflexivity |].
  intros H st. apply andb_true_iff in H as [Hc Ht].
  apply eqb_prop in Hc. specialize (IH Ht).
  destruct st; rewrite ?Hc; repeat rewrite IH; reflexivity.
Qed.

Lemma clean_text_same (text : string) :
  str_forall common_marker text = true ->
  LlmOutputParser.clean_text text = Evaluation.clean_text text.
Proof.
  intros H. unfold LlmOutputParser.clean_text, Evaluation.clean_text.
  rewrite (sub_markers_ext Evaluation.ismarker LlmOutputParser.ismarker);
    [reflexivity | exact H].
Qed.

(** *** The three steps, one by one *)

Lemma assign_first_capitalized_cases (valid : list string)
    (text key : string) (result : list (pyval * pyval)) :
  Evaluation.assign_first_capitalized valid text key result = result
  \/ exists v,
       Evaluation.assign_first_capitalized valid text key result
       = Py.set result key (PyStr v).
Proof.
  induction valid as [| v rest IH]; simpl; [now left |].
  destruct (str_in v text); [right; eauto | exact IH].
Qed.

Section AnyLibrary.

Variable json_loads : string -> result pyval.
Variable literal_eval : string -> result pyval.
Variable verdicts : verdict_order.
Variable confidence_levels : confidence_order.

Lemma direct_step_same (raw : string) :
  plain_direct_parse (json_loads raw) = true ->
  try_except
    (LlmOutputParser.attempt (json_loads raw) default_required_keys)
    [CJSONDecodeError; CTypeError] (Ok None)
  = Evaluation.attempt (Evaluation._parse_json json_loads) raw
      default_required_keys.
Proof.
  unfold plain_direct_parse, LlmOutputParser.attempt, Evaluation.attempt,
    Evaluation._parse_json.
  destruct (json_loads raw) as [v | e].
  - destruct v; try discriminate. intros _.
    destruct items as [| kv rest]; [reflexivity |].
    cbn [bind try_except Py.keys Py.truthy].
    destruct (Py.issubset default_required_keys (map fst (kv :: rest)));
      reflexivity.
  - intros H. cbn [bind try_except]. rewrite H. reflexivity.
Qed.

Lemma blob_step_same (raw : string) :
  textual_embedded_object literal_eval raw = true ->
  try_except
    (LlmOutputParser.attempt
       (LlmOutputParser.extract_evaluation_from_json_blob literal_eval raw)
       default_required_keys)
    [CException] (Ok None)
  = Evaluation.attempt (Evaluation._extract_from_json_blob literal_eval)
      raw default_required_keys.
Proof.
  unfold textual_embedded_object.
  destruct (Re.search_blob raw) as [dict_str |] eqn:Hs.
  - destruct (literal_eval dict_str) as [v | e] eqn:He.
    + destruct v as [| | | | | | | items |];
        try (intros _;
             unfold LlmOutputParser.extract_evaluation_from_json_blob,
               Evaluation._extract_from_json_blob,
               LlmOutputParser.attempt, Evaluation.attempt;
             rewrite Hs, He; reflexivity).
      destruct (Evaluation.normalize_keys items []) as [normalized | e]
        eqn:Hn.
      * intros H. apply andb_true_iff in H as [_ H].
        apply andb_true_iff in H as [Hv Hc].
        destruct (Py.get normalized "verdict") as [| | | | sv | | | |] eqn:Ev;
          try discriminate.
        destruct (Py.get normalized "confidence") as [| | | | sc | | | |]
          eqn:Ec; try discriminate.
        unfold LlmOutputParser.attempt, Evaluation.attempt.
        rewrite (TokenFacts.extract_from_json_blob_parsed literal_eval
                   raw dict_str items normalized Hs He Hn).
        rewrite (TokenFacts.extract_evaluation_from_json_blob_parsed
                   literal_eval raw dict_str items normalized sv sc
                   Hs He Hn Ev Ec).
        reflexivity.
      * intros H. apply andb_true_iff in H as [_ H]. discriminate H.
    + intros _.
      unfold LlmOutputParser.extract_evaluation_from_json_blob,
        Evaluation._extract_from_json_blob,
        LlmOutputParser.attempt, Evaluation.attempt.
      rewrite Hs, He. cbn [bind try_except].
      destruct (existsb (isinstance e) [CSyntaxError; CValueError]);
        reflexivity.
  - intros _.
    unfold LlmOutputParser.extract_evaluation_from_json_blob,
      Evaluation._extract_from_json_blob,
      LlmOutputParser.attempt, Evaluation.attempt.
    rewrite Hs. reflexivity.
Qed.

Lemma text_step_same (raw : string) :
  common_markers_only raw = true ->
  try_except
    (LlmOutputParser.attempt
       (LlmOutputParser.extract_evaluation_from_unstructured_text
          verdicts confidence_levels raw)
       default_required_keys)
    [CException] (Ok None)
  = Evaluation.attempt
      (Evaluation._extract_from_unstructured_text verdicts confidence_levels)
      raw default_required_keys.
Proof.
  unfold common_markers_only. intros Hm.
  destruct raw as [| c0 t0]; [reflexivity |].
  unfold LlmOutputParser.extract_evaluation_from_unstructured_text,
    Evaluation._extract_from_unstructured_text,
    LlmOutputParser.attempt, Evaluation.attempt.
  cbn [is_empty].
  change LlmOutputParser.extract_section with Evaluation.extract_section.
  change LlmOutputParser.assign_first_capitalized
    with Evaluation.assign_first_capitalized.
  set (low := lower (String c0 t0)) in *.
  destruct (Evaluation.extract_section
              (Re.Between "reasoning:" "verdict:") low)
    as [[| c1 t1] |] eqn:E1;
  destruct (Evaluation.extract_section
              (Re.Between "verdict:" "confidence:") low)
    as [[| c2 t2] |] eqn:E2;
  destruct (Evaluation.extract_section (Re.After "confidence:") low)
    as [[| c3 t3] |] eqn:E3;
  repeat match goal with
    | E : Evaluation.extract_section _ low = Some (String ?c ?t) |- _ =>
        rewrite (clean_text_same (String c t)
                   (str_forall_extract_section _ _ _ _ Hm E));
        clear E
    end;
  cbn [Py.set];
  repeat match goal with
    | |- context [Evaluation.assign_first_capitalized ?v ?t ?k ?r] =>
        destruct (assign_first_capitalized_cases v t k r) as [-> | [? ->]]
    end;
  reflexivity.
Qed.

End AnyLibrary.

(** C9 as stated fails: on a text with an embedded dictionary that has
    none of the fields, the classmethod returns the dictionary of three
    [None] and the module-level function returns [None]. *)
Lemma C9_counterexample :
  Evaluation.parse_raw_evaluation JsonLib.loads AstLib.literal_eval
    PassFail LMH [] "{'a': 1}" None = Ok none_valued
  /\ LlmOutputParser.parse_raw_evaluation JsonLib.loads AstLib.literal_eval
       PassFail LMH "{'a': 1}" None = Ok PyNone
  /\ LlmOutputParser.parse_raw_evaluation JsonLib.loads AstLib.literal_eval
       PassFail LMH "{'a': 1}" None
     <> Evaluation.parse_raw_evaluation JsonLib.loads AstLib.literal_eval
          PassFail LMH [] "{'a': 1}" None.
Proof.
  repeat split; try reflexivity.
  intros E. vm_compute in E. discriminate.
Qed.

(** C9, amended.  The module-level function and the classmethod without
    registered strategies return the same result on every text for which
    the direct parse yields an object or fails to decode, the embedded
    object, if it parses as a dictionary, has only texts as keys and
    texts for verdict and confidence, and the lower-cased text has no
    character on which the marker classes of the two [clean_text] differ.
    The keys are asked to be texts because the key normalization goes
    through on any key that has a [lower] method, as a byte string has,
    and the pipelines then part on the missing fields as they do in the
    counterexample. *)
Theorem C9_pipelines_agree_on_plain_texts
    (json_loads literal_eval : string -> result pyval)
    (verdicts : verdict_order) (confidence_levels : confidence_order)
    (raw : string) :
  plain_direct_parse (json_loads raw) = true ->
  textual_embedded_object literal_eval raw = true ->
  common_markers_only raw = true ->
  LlmOutputParser.parse_raw_evaluation json_loads literal_eval verdicts
    confidence_levels raw None
  = Evaluation.parse_raw_evaluation json_loads literal_eval verdicts
      confidence_levels [] raw None.
Proof.
  intros Hd Hb Hm.
  unfold LlmOutputParser.parse_raw_evaluation,
    Evaluation.parse_raw_evaluation, Evaluation.parsing_methods.
  cbn [app Evaluation.try_each].
  rewrite (direct_step_same json_loads raw Hd).
  rewrite (blob_step_same literal_eval raw Hb).
  rewrite (text_step_same verdicts confidence_levels raw Hm).
  reflexivity.
Qed.

Lemma C9_witness :
  LlmOutputParser.parse_raw_evaluation JsonLib.loads AstLib.literal_eval
    PassFail LMH both_tokens_example None
  = Evaluation.parse_raw_evaluation JsonLib.loads AstLib.literal_eval
      PassFail LMH [] both_tokens_example None.
Proof.
  apply (C9_pipelines_agree_on_plain_texts JsonLib.loads
           AstLib.literal_eval PassFail LMH both_tokens_example);
    reflexivity.
Defined.

(** Each of the three conditions is needed.  Without the first, see the
    JSON text 5 in [RobustnessFacts]; without the second, the
    counterexample above; without the third, a reasoning that starts with
    the character 162 keeps it in one pipeline and loses it in the
    other. *)
Lemma pipelines_differ_on_marker_classes :
  plain_direct_parse (JsonLib.loads cent_marker_example) = true
  /\ textual_embedded_object AstLib.literal_eval cent_marker_example = true
  /\ common_markers_only cent_marker_example = false
  /\ Evaluation.parse_raw_evaluation JsonLib.loads AstLib.literal_eval
       PassFail LMH [] cent_marker_example None
     = Ok (PyDict [(PyStr "reasoning", PyStr "fine.");
                   (PyStr "verdict", PyStr "Pass");
                   (PyStr "confidence", PyStr "High")])
  /\ LlmOutputParser.parse_raw_evaluation JsonLib.loads AstLib.literal_eval
       PassFail LMH cent_marker_example None
     = Ok (PyDict [(PyStr "reasoning", PyStr (String "162"%char " fine."));
                   (PyStr "verdict", PyStr "Pass");
                   (PyStr "confidence", PyStr "High")]).
Proof. repeat split; vm_compute; reflexivity. Qed.

End EquivalenceFacts.

(* ================================================================== *)
(** ** Further properties of the scorer *)

Module ScoringMore.
Import Props MoreProps ScoringRVC.

Lemma Verdict_of_value_inv (s : string) (v : Verdict) :
  Verdict_of_value s = Ok v <-> s = Verdict_value v.
Proof.
  unfold Verdict_of_value.
  destruct (String.eqb s "pass") eqn:E1;
    [apply String.eqb_eq in E1; subst; destruct v; simpl;
       split; congruence |].
  destruct (String.eqb s "fail") eqn:E2;
    [apply String.eqb_eq in E2; subst; destruct v; simpl;
       split; congruence |].
  apply String.eqb_neq in E1, E2.
  destruct v; simpl; split; congruence.
Qed.

Lemma ConfidenceLevel_of_value_inv (s : string) (c : ConfidenceLevel) :
  ConfidenceLevel_of_value s = Ok c <-> s = ConfidenceLevel_value c.
Proof.
  unfold ConfidenceLevel_of_value.
  destruct (String.eqb s "high") eqn:E1;
    [apply String.eqb_eq in E1; subst; destruct c; simpl;
       split; congruence |].
  destruct (String.eqb s "medium") eqn:E2;
    [apply String.eqb_eq in E2; subst; destruct c; simpl;
       split; congruence |].
  destruct (String.eqb s "low") eqn:E3;
    [apply String.eqb_eq in E3; subst; destruct c; simpl;
       split; congruence |].
  apply String.eqb_neq in E1, E2, E3.
  destruct c; simpl; split; congruence.
Qed.

Lemma getattr_field (self : ScoreSchemaRVC) (v : Verdict)
    (c : ConfidenceLevel) :
  getattr self (Verdict_value v ++ "_" ++ ConfidenceLevel_value c)
  = Ok (field_of self v c).
Proof. destruct v, c; reflexivity. Qed.

Lemma of_value_raises_value_error_only :
  (forall s e, Verdict_of_value s = Raise e -> e = ValueError)
  /\ (forall s e, ConfidenceLevel_of_value s = Raise e -> e = ValueError).
Proof.
  split; intros s e; unfold Verdict_of_value, ConfidenceLevel_of_value;
    repeat match goal with
      | |- context [if ?b then _ else _] => destruct b
      end; congruence.
Qed.

Lemma get_score_of_judgment (self : ScoreSchemaRVC) (out : pyval)
    (v : Verdict) (c : ConfidenceLevel) :
  judgment_of out v c -> get_score self out = Ok (field_of self v c).
Proof.
  intros (items & sv & sc & -> & Lv & Lc & Ev & Ec).
  unfold get_score, Py.getitem. rewrite Lv, Lc. cbn [bind].
  unfold Verdict_from_string, ConfidenceLevel_from_string,
    Py.method_lower. cbn [bind].
  apply Verdict_of_value_inv in Ev.
  apply ConfidenceLevel_of_value_inv in Ec.
  rewrite Ev. cbn [bind]. rewrite Ec. cbn [bind]. cbv zeta.
  apply getattr_field.
Qed.

(** X1.  [get_score] succeeds exactly on the dictionaries whose verdict
    and confidence are texts that lower-case to an enum value, and then
    returns the field of the schema for the two; otherwise it raises
    [TypeError] (not a dictionary), [KeyError] (key absent),
    [AttributeError] (value not a text) or [ValueError] (unknown token),
    and nothing else. *)
Theorem get_score_outcomes (self : ScoreSchemaRVC) (out : pyval) :
  (forall x,
      get_score self out = Ok x
      <-> exists v c, judgment_of out v c /\ x = field_of self v c)
  /\ (forall e,
        get_score self out = Raise e ->
        e = TypeError \/ e = KeyError \/ e = AttributeError
        \/ e = ValueError)
  /\ ((forall items, out <> PyDict items) ->
      get_score self out = Raise TypeError)
  /\ (forall items,
        out = PyDict items -> Py.lookup items "verdict" = None ->
        get_score self out = Raise KeyError).
Proof.
  destruct of_value_raises_value_error_only as [HV HC].
  assert (Hnd : (forall items, out <> PyDict items) ->
                get_score self out = Raise TypeError).
  { intros H. destruct out; try reflexivity. exfalso. eapply H; eauto. }
  split; [| split; [| split; [exact Hnd |]]].
  - intros x. split.
    + unfold get_score, Py.getitem.
      destruct out as [| | | | | | | items |]; try discriminate.
      destruct (Py.lookup items "verdict") as [v |] eqn:Lv;
        [| discriminate].
      cbn [bind]. unfold Verdict_from_string, Py.method_lower.
      destruct v as [| | | | sv | | | |]; try discriminate.
      cbn [bind].
      destruct (Verdict_of_value (lower sv)) as [vm | e] eqn:Ev;
        [| discriminate].
      cbn [bind].
      destruct (Py.lookup items "confidence") as [c |] eqn:Lc;
        [| discriminate].
      cbn [bind]. unfold ConfidenceLevel_from_string, Py.method_lower.
      destruct c as [| | | | sc | | | |]; try discriminate.
      cbn [bind].
      destruct (ConfidenceLevel_of_value (lower sc)) as [cm | e] eqn:Ec;
        [| discriminate].
      cbn [bind]. cbv zeta.
      pose proof (getattr_field self vm cm) as G.
      cbn [append] in G |- *. rewrite G.
      intros E; inversion E; subst.
      exists vm, cm. split; [| reflexivity].
      exists items, sv, sc. repeat split; try assumption.
      * now apply Verdict_of_value_inv.
      * now apply ConfidenceLevel_of_value_inv.
    + intros (v & c & J & ->). now apply get_score_of_judgment.
  - intros e. unfold get_score, Py.getitem.
    destruct out as [| | | | | | | items |];
      try (intros E; inversion E; auto).
    clear E. revert H0.
    destruct (Py.lookup items "verdict") as [v |];
      [| intros E; inversion E; auto].
    cbn [bind]. unfold Verdict_from_string, Py.method_lower.
    destruct v as [| | | | sv | | | |];
      try (intros E; inversion E; auto).
    clear E. revert H0. cbn [bind].
    destruct (Verdict_of_value (lower sv)) as [vm | e'] eqn:Ev;
      [| intros E; inversion E; subst; apply HV in Ev; auto].
    cbn [bind].
    destruct (Py.lookup items "confidence") as [c |];
      [| intros E; inversion E; auto].
    cbn [bind]. unfold ConfidenceLevel_from_string, Py.method_lower.
    destruct c as [| | | | sc | | | |];
      try (intros E; inversion E; auto).
    clear E. revert H0. cbn [bind].
    destruct (ConfidenceLevel_of_value (lower sc)) as [cm | e'] eqn:Ec;
      [| intros E; inversion E; subst; apply HC in Ec; auto].
    cbn [bind]. cbv zeta.
    pose proof (getattr_field self vm cm) as G.
    cbn [append] in G |- *. rewrite G. discriminate.
  - intros items -> L. unfold get_score, Py.getitem. now rewrite L.
Qed.

(** X2.  With the default schema every Pass judgment scores strictly
    above every Fail judgment; the scores of a Pass and of a Fail of the
    same confidence add up to 1.0 in floating point; and a higher
    confidence moves a Pass up and a Fail down. *)
Theorem default_scores_are_ordered (out out' : pyval)
    (c c' : ConfidenceLevel) :
  judgment_of out PASS c ->
  judgment_of out' FAIL c' ->
  exists x y,
    get_score default out = Ok x
    /\ get_score default out' = Ok y
    /\ PrimFloat.ltb y x = true
    /\ (c = c' -> PrimFloat.eqb (PrimFloat.add x y) 1.0 = true)
    /\ (forall other d z,
          judgment_of other PASS d ->
          (confidence_rank c <= confidence_rank d)%nat ->
          get_score default other = Ok z -> PrimFloat.leb x z = true)
    /\ (forall other d z,
          judgment_of other FAIL d ->
          (confidence_rank c' <= confidence_rank d)%nat ->
          get_score default other = Ok z -> PrimFloat.leb z y = true).
Proof.
  intros J J'.
  exists (field_of default PASS c), (field_of default FAIL c').
  rewrite (get_score_of_judgment default out PASS c J).
  rewrite (get_score_of_judgment default out' FAIL c' J').
  repeat split.
  - destruct c, c'; reflexivity.
  - intros <-. destruct c; reflexivity.
  - intros other d z Jo Hr Hz.
    rewrite (get_score_of_judgment default other PASS d Jo) in Hz.
    inversion Hz; subst z.
    destruct c, d; simpl in Hr; try lia; reflexivity.
  - intros other d z Jo Hr Hz.
    rewrite (get_score_of_judgment default other FAIL d Jo) in Hz.
    inversion Hz; subst z.
    destruct c', d; simpl in Hr; try lia; reflexivity.
Qed.

Lemma default_scores_are_ordered_witness :
  exists x y,
    get_score default
      (PyDict [(PyStr "verdict", PyStr "PASS");
               (PyStr "confidence", PyStr "low")]) = Ok x
    /\ get_score default
         (PyDict [(PyStr "confidence", PyStr "Low");
                  (PyStr "verdict", PyStr "fail")]) = Ok y
    /\ PrimFloat.ltb y x = true
    /\ (LOW = LOW -> PrimFloat.eqb (PrimFloat.add x y) 1.0 = true)
    /\ (forall other d z,
          judgment_of other PASS d ->
          (confidence_rank LOW <= confidence_rank d)%nat ->
          get_score default other = Ok z -> PrimFloat.leb x z = true)
    /\ (forall other d z,
          judgment_of other FAIL d ->
          (confidence_rank LOW <= confidence_rank d)%nat ->
          get_score default other = Ok z -> PrimFloat.leb z y = true).
Proof.
  apply (default_scores_are_ordered _ _ LOW LOW).
  - exists [(PyStr "verdict", PyStr "PASS");
            (PyStr "confidence", PyStr "low")], "PASS", "low".
    repeat split; reflexivity.
  - exists [(PyStr "confidence", PyStr "Low");
            (PyStr "verdict", PyStr "fail")], "fail", "Low".
    repeat split; reflexivity.
Defined.

End ScoringMore.

(* ================================================================== *)
(** ** Further properties of the embedded-object strategy *)

Module BlobMore.
Import Props MoreProps.

Lemma lookup_set (d : list (pyval * pyval)) (k k' : string) (v : pyval) :
  Py.lookup (Py.set d k v) k'
  = if String.eqb k k' then Some v else Py.lookup d k'.
Proof.
  induction d as [| [key w] d IH]; simpl.
  - reflexivity.
  - destruct (Py.key_is k key) eqn:Hk; simpl.
    + destruct key; simpl in *; try discriminate.
      apply String.eqb_eq in Hk. subst s.
      destruct (String.eqb k k'); reflexivity.
    + destruct (Py.key_is k' key) eqn:Hk'; [| exact IH].
      destruct key; simpl in *; try discriminate.
      apply String.eqb_eq in Hk'. subst s. now rewrite String.eqb_sym, Hk.
Qed.

Lemma normalize_keys_lookup (items acc nd : list (pyval * pyval))
    (k : string) :
  Evaluation.normalize_keys items acc = Ok nd ->
  Py.lookup nd k
  = match last_with_key items k with
    | Some w => Some w
    | None => Py.lookup acc k
    end.
Proof.
  revert acc. induction items as [| [key v] items IH]; intros acc; simpl.
  - intros E; inversion E; reflexivity.
  - destruct key; simpl; try discriminate.
    intros E. rewrite (IH _ E), lookup_set.
    destruct (last_with_key items k); [reflexivity |].
    destruct (String.eqb (lower s) k); reflexivity.
Qed.

Lemma normalize_keys_total (items acc : list (pyval * pyval)) :
  (forall key v, In (key, v) items -> is_text key = true) ->
  exists nd, Evaluation.normalize_keys items acc = Ok nd.
Proof.
  revert acc. induction items as [| [key v] items IH]; intros acc H; simpl.
  - eauto.
  - pose proof (H key v (or_introl eq_refl)) as Hk.
    destruct key; try discriminate. simpl.
    apply IH. intros key' v' Hin. eapply H. right; eassumption.
Qed.

Lemma normalize_keys_raises (items acc : list (pyval * pyval)) (e : exn) :
  Evaluation.normalize_keys items acc = Raise e ->
  e = AttributeError
  /\ exists key v, In (key, v) items /\ is_text key = false.
Proof.
  revert acc. induction items as [| [key v] items IH]; intros acc; simpl.
  - discriminate.
  - destruct key; simpl;
      try (intros E; inversion E; split; [reflexivity |];
           eexists; eexists; split; [left; reflexivity | reflexivity]).
    intros E. destruct (IH _ E) as (-> & key & v' & Hin & Ht).
    split; [reflexivity |]. exists key, v'. auto.
Qed.

(** X4.  The keys of the parsed dictionary are matched without regard to
    letter case, and of several keys that differ only in case the last
    one wins: after the normalization, looking a lower-case key up gives
    the value of the last item whose key lower-cases to it.  The
    normalization goes through when all keys are texts; when it raises,
    the exception is an [AttributeError] and some key is not a text. *)
Theorem normalize_keys_is_case_insensitive_last_wins
    (items : list (pyval * pyval)) :
  (forall nd k,
      Evaluation.normalize_keys items [] = Ok nd ->
      Py.lookup nd k = last_with_key items k)
  /\ ((forall key v, In (key, v) items -> is_text key = true) ->
      exists nd, Evaluation.normalize_keys items [] = Ok nd)
  /\ (forall e,
        Evaluation.normalize_keys items [] = Raise e ->
        e = AttributeError
        /\ exists key v, In (key, v) items /\ is_text key = false)
  /\ (forall acc,
        LlmOutputParser.normalize_keys items acc
        = Evaluation.normalize_keys items acc).
Proof.
  split; [| split; [| split]].
  - intros nd k E. rewrite (normalize_keys_lookup items [] nd k E).
    destruct (last_with_key items k); reflexivity.
  - apply normalize_keys_total.
  - apply normalize_keys_raises.
  - reflexivity.
Qed.

Lemma found_verdict_cases (text : string) :
  resolved_or_none ["Pass"; "Fail"] (found_verdict text).
Proof.
  unfold resolved_or_none, found_verdict.
  destruct (str_in "pass" text); [right; exists "Pass"; simpl; auto |].
  destruct (str_in "fail" text); [right; exists "Fail"; simpl; auto |].
  now left.
Qed.

Lemma found_confidence_cases (text : string) :
  resolved_or_none ["Low"; "Medium"; "High"] (found_confidence text).
Proof.
  unfold resolved_or_none, found_confidence.
  destruct (str_in "low" text); [right; exists "Low"; simpl; auto |].
  destruct (str_in "medium" text); [right; exists "Medium"; simpl; auto |].
  destruct (str_in "high" text); [right; exists "High"; simpl; auto |].
  now left.
Qed.

Lemma try_except_ok {A} (body : result A) classes handler (a : A) :
  try_except body classes handler = Ok a ->
  body = Ok a
  \/ (exists e, body = Raise e /\ existsb (isinstance e) classes = true
                /\ handler = Ok a).
Proof.
  unfold try_except. destruct body as [b | e]; [now left |].
  destruct (existsb (isinstance e) classes) eqn:H; [| discriminate].
  right. eauto.
Qed.

Lemma try_except_raise {A} (body : result A) classes (a : A) (e : exn) :
  try_except body classes (Ok a) = Raise e ->
  body = Raise e /\ existsb (isinstance e) classes = false.
Proof.
  unfold try_except. destruct body as [b | e']; [discriminate |].
  destruct (existsb (isinstance e') classes) eqn:H; [discriminate |].
  intros E; inversion E; subst. auto.
Qed.

Section AnyLibrary.

Variable literal_eval : string -> result pyval.

(** X5.  The embedded-object strategy of the class returns [None] or a
    dictionary with exactly the keys reasoning, verdict, confidence, in
    that order, whose verdict is Pass, Fail or [None] and whose confidence
    is Low, Medium, High or [None]; the module-level one returns the empty
    dictionary instead of [None].  Neither lets a [SyntaxError] or a
    [ValueError] through, and without a brace-delimited part the parser is
    not consulted. *)
Theorem embedded_object_result_shape (input : string) :
  (forall v,
      Evaluation._extract_from_json_blob literal_eval input = Ok v ->
      v = PyNone
      \/ exists r ve c,
           v = three_fields r ve c
           /\ resolved_or_none ["Pass"; "Fail"] ve
           /\ resolved_or_none ["Low"; "Medium"; "High"] c)
  /\ (forall v,
        LlmOutputParser.extract_evaluation_from_json_blob literal_eval input
        = Ok v ->
        v = PyDict []
        \/ exists r ve c,
             v = three_fields r ve c
             /\ resolved_or_none ["Pass"; "Fail"] ve
             /\ resolved_or_none ["Low"; "Medium"; "High"] c)
  /\ (forall e,
        Evaluation._extract_from_json_blob literal_eval input = Raise e
        \/ LlmOutputParser.extract_evaluation_from_json_blob literal_eval
             input = Raise e ->
        isinstance e CSyntaxError = false
        /\ isinstance e CValueError = false)
  /\ (Re.search_blob input = None ->
      Evaluation._extract_from_json_blob literal_eval input = Ok PyNone
      /\ LlmOutputParser.extract_evaluation_from_json_blob literal_eval
           input = Ok (PyDict [])).
Proof.
  unfold Evaluation._extract_from_json_blob,
    LlmOutputParser.extract_evaluation_from_json_blob.
  destruct (Re.search_blob input) as [dict_str |].
  2: { repeat split; try discriminate.
       - intros v E; inversion E; now left.
       - intros v E; inversion E; now left.
       - destruct H; discriminate.
       - destruct H; discriminate. }
  split; [| split; [| split; [| discriminate]]].
  - intros v E. apply try_except_ok in E as [E | (e & _ & _ & E)];
      [| inversion E; now left].
    destruct (literal_eval dict_str) as [rd |]; [| discriminate].
    cbn [bind] in E.
    destruct (Py.items rd) as [items |]; [| discriminate].
    cbn [bind] in E.
    destruct (Evaluation.normalize_keys items []) as [nd |];
      [| discriminate].
    cbn [bind] in E.
    rewrite TokenFacts.assign_first_verdict,
      TokenFacts.assign_first_confidence in E.
    inversion E. right. do 3 eexists.
    split; [reflexivity |].
    split; [apply found_verdict_cases | apply found_confidence_cases].
  - intros v E. apply try_except_ok in E as [E | (e & _ & _ & E)];
      [| inversion E; now left].
    destruct (literal_eval dict_str) as [rd |]; [| discriminate].
    cbn [bind] in E.
    destruct (Py.items rd) as [items |]; [| discriminate].
    cbn [bind] in E.
    destruct (LlmOutputParser.normalize_keys items []) as [nd |];
      [| discriminate].
    cbn [bind] in E.
    destruct (Py.get nd "verdict") as [| | | | sv | | | |];
      try discriminate.
    rewrite TokenFacts.resolve_verdict in E. cbn [bind] in E.
    destruct (Py.get nd "confidence") as [| | | | sc | | | |];
      try discriminate.
    rewrite TokenFacts.resolve_confidence in E. cbn [bind] in E.
    inversion E. right. do 3 eexists.
    split; [reflexivity |].
    split; [apply found_verdict_cases | apply found_confidence_cases].
  - intros e [E | E]; apply try_except_raise in E as [_ E];
      cbn [existsb] in E; rewrite orb_false_r in E;
      apply orb_false_iff in E; exact E.
Qed.

End AnyLibrary.

(** *** The brace-delimited part *)

Lemma rev_cons (c : ascii) (acc : string) :
  rev (String c acc) = rev acc ++ String c EmptyString.
Proof. unfold rev. simpl. apply RoundTripFacts.rev_onto_app. Qed.

Lemma scan_without_rbrace (s : string) (pending : option string) :
  no_rbrace s = true -> Re.search_blob_from s pending = None.
Proof.
  revert pending. induction s as [| c t IH]; intros pending; simpl;
    [reflexivity |].
  intros H. apply andb_true_iff in H as [Hc Ht].
  destruct (Ascii.eqb c Re.lbrace); [now apply IH |].
  destruct (Ascii.eqb c Re.rbrace); [discriminate |]. now apply IH.
Qed.

Lemma scan_skips_without_lbrace (a s : string) :
  no_lbrace a = true ->
  Re.search_blob_from (a ++ s) None = Re.search_blob_from s None.
Proof.
  induction a as [| c t IH]; simpl; [reflexivity |].
  intros H. apply andb_true_iff in H as [Hc Ht].
  destruct (Ascii.eqb c Re.lbrace); [discriminate |].
  destruct (Ascii.eqb c Re.rbrace); now apply IH.
Qed.

(** The scan with an opening brace pending. *)
Lemma scan_pending (s acc b : string) :
  Re.search_blob_from s (Some acc) = Some b ->
  (exists inner after,
      s = inner ++ String Re.rbrace after
      /\ no_brace inner = true
      /\ b = rev acc ++ inner ++ String Re.rbrace EmptyString)
  \/ (exists a2 inner after,
        s = a2 ++ String Re.lbrace (inner ++ String Re.rbrace after)
        /\ no_rbrace a2 = true
        /\ no_brace inner = true
        /\ b = String Re.lbrace (inner ++ String Re.rbrace EmptyString)).
Proof.
  revert acc. induction s as [| c t IH]; intros acc; simpl;
    [discriminate |].
  destruct (Ascii.eqb c Re.lbrace) eqn:Hl.
  - apply Ascii.eqb_eq in Hl. subst c. intros E. right.
    destruct (IH _ E) as [(inner & after & -> & Hi & ->)
                         | (a2 & inner & after & -> & Ha & Hi & ->)].
    + exists EmptyString, inner, after. repeat split; auto.
    + exists (String Re.lbrace a2), inner, after. repeat split; auto.
  - destruct (Ascii.eqb c Re.rbrace) eqn:Hr.
    + apply Ascii.eqb_eq in Hr. subst c. intros E; inversion E. left.
      exists EmptyString, t. repeat split. apply rev_cons.
    + simpl. intros E.
      destruct (IH _ E) as [(inner & after & -> & Hi & ->)
                           | (a2 & inner & after & -> & Ha & Hi & ->)].
      * left. exists (String c inner), after. repeat split.
        -- unfold no_brace, Re.lbrace, Re.rbrace in *. simpl.
           now rewrite Hl, Hr, Hi.
        -- rewrite rev_cons, RoundTripFacts.append_assoc. reflexivity.
      * right. exists (String c a2), inner, after. repeat split; auto.
        unfold no_rbrace, Re.rbrace in *. simpl. now rewrite Hr, Ha.
Qed.

Lemma scan_pending_none (s acc : string) :
  Re.search_blob_from s (Some acc) = None -> no_rbrace s = true.
Proof.
  unfold no_rbrace.
  revert acc. induction s as [| c t IH]; intros acc; simpl;
    [reflexivity |].
  destruct (Ascii.eqb c Re.lbrace) eqn:Hl.
  - apply Ascii.eqb_eq in Hl. subst c. intros E. simpl. eapply IH, E.
  - destruct (Ascii.eqb c Re.rbrace); [discriminate |].
    simpl. apply IH.
Qed.

(** X6.  The part of the text handed to the lenient parser is the first
    opening brace that is followed by a closing brace with no brace in
    between, up to that closing brace: before it, every closing brace
    comes before every opening one.  There is no such part exactly when
    every closing brace of the text comes before every opening one.  An
    object that holds a brace, in a nested object or inside a text, is
    therefore never handed over whole. *)
Theorem search_blob_is_first_innermost_brace_pair (s : string) :
  (forall b,
      Re.search_blob s = Some b ->
      exists a1 a2 inner after,
        s = a1 ++ a2 ++ b ++ after
        /\ b = String Re.lbrace (inner ++ String Re.rbrace EmptyString)
        /\ no_lbrace a1 = true
        /\ no_rbrace a2 = true
        /\ no_brace inner = true)
  /\ (Re.search_blob s = None
      <-> exists a1 a2,
            s = a1 ++ a2 /\ no_lbrace a1 = true /\ no_rbrace a2 = true).
Proof.
  unfold Re.search_blob. split.
  - induction s as [| c t IH]; simpl; [discriminate |].
    intros b. destruct (Ascii.eqb c Re.lbrace) eqn:Hl.
    + apply Ascii.eqb_eq in Hl. subst c. intros E.
      destruct (scan_pending _ _ _ E)
        as [(inner & after & -> & Hi & ->)
           | (a2 & inner & after & -> & Ha & Hi & ->)].
      * exists EmptyString, EmptyString, inner, after.
        repeat split; auto. simpl.
        now rewrite RoundTripFacts.append_assoc.
      * exists EmptyString, (String Re.lbrace a2), inner, after.
        repeat split; auto. simpl.
        now rewrite RoundTripFacts.append_assoc.
    + assert (Hskip : Re.search_blob_from t None = Some b ->
                      exists a1 a2 inner after,
                        String c t = a1 ++ a2 ++ b ++ after
                        /\ b = String Re.lbrace
                                 (inner ++ String Re.rbrace EmptyString)
                        /\ no_lbrace a1 = true
                        /\ no_rbrace a2 = true
                        /\ no_brace inner = true).
      { intros E.
        destruct (IH _ E) as (a1 & a2 & inner & after & -> & -> & H1 & H2
                              & H3).
        exists (String c a1), a2, inner, after. repeat split; auto.
        unfold no_lbrace, Re.lbrace in *. simpl. now rewrite Hl, H1. }
      destruct (Ascii.eqb c Re.rbrace); exact Hskip.
  - split.
    + induction s as [| c t IH]; simpl.
      * intros _. exists EmptyString, EmptyString. auto.
      * destruct (Ascii.eqb c Re.lbrace) eqn:Hl.
        -- apply Ascii.eqb_eq in Hl. subst c. intros E.
           exists EmptyString, (String Re.lbrace t).
           repeat split.
           pose proof (scan_pending_none _ _ E) as Hn.
           unfold no_rbrace, Re.rbrace, Re.lbrace in *. simpl.
           exact Hn.
        -- assert (Hskip : Re.search_blob_from t None = None ->
                           exists a1 a2,
                             String c t = a1 ++ a2
                             /\ no_lbrace a1 = true
                             /\ no_rbrace a2 = true).
           { intros E. destruct (IH E) as (a1 & a2 & -> & H1 & H2).
             exists (String c a1), a2. repeat split; auto.
             unfold no_lbrace, Re.lbrace in *. simpl. now rewrite Hl, H1. }
           destruct (Ascii.eqb c Re.rbrace); exact Hskip.
    + intros (a1 & a2 & -> & H1 & H2).
      rewrite (scan_skips_without_lbrace _ _ H1).
      now apply scan_without_rbrace.
Qed.

End BlobMore.

(* ================================================================== *)
(** ** Further properties of the labeled-section strategy *)

Module LabeledMore.
Import Props MoreProps.

Lemma module_assign_first_capitalized_pick (valid : list string)
    (text key : string) (result : list (pyval * pyval)) :
  LlmOutputParser.assign_first_capitalized valid text key result
  = match pick valid text with
    | Some v => Py.set result key (PyStr (capitalize v))
    | None => result
    end.
Proof.
  unfold pick. induction valid as [| v rest IH]; simpl; [reflexivity |].
  destruct (str_in v text); [reflexivity | exact IH].
Qed.

Lemma assign_first_capitalized_pick (valid : list string)
    (text key : string) (result : list (pyval * pyval)) :
  Evaluation.assign_first_capitalized valid text key result
  = match pick valid text with
    | Some v => Py.set result key (PyStr (capitalize v))
    | None => result
    end.
Proof.
  unfold pick. induction valid as [| v rest IH]; simpl; [reflexivity |].
  destruct (str_in v text); [reflexivity | exact IH].
Qed.

(** The strategy of the class, as the three fields it finds. *)
Lemma unstructured_text_fields (verdicts : verdict_order)
    (confidence_levels : confidence_order) (input : string) :
  Evaluation._extract_from_unstructured_text verdicts confidence_levels
    input
  = match labeled_reasoning Evaluation.clean_text input,
          labeled_verdict Evaluation.clean_text verdicts input,
          labeled_confidence Evaluation.clean_text confidence_levels input
    with
    | Some r, Some v, Some c =>
        Ok (three_fields (PyStr r) (PyStr (capitalize v))
              (PyStr (capitalize c)))
    | _, _, _ => Ok PyNone
    end.
Proof.
  destruct input as [| c0 t0]; [reflexivity |].
  unfold Evaluation._extract_from_unstructured_text, labeled_reasoning,
    labeled_verdict, labeled_confidence, verdict_section,
    confidence_section, nonempty_section, reasoning_from.
  cbn [is_empty]. set (low := lower (String c0 t0)).
  destruct (Evaluation.extract_section
              (Re.Between "reasoning:" "verdict:") low) as [[| c1 t1] |];
  destruct (Evaluation.extract_section
              (Re.Between "verdict:" "confidence:") low) as [[| c2 t2] |];
  destruct (Evaluation.extract_section (Re.After "confidence:") low)
    as [[| c3 t3] |];
  cbn [option_map]; rewrite ?assign_first_capitalized_pick;
  repeat match goal with
    | |- context [pick ?v ?t] => destruct (pick v t)
    end;
  reflexivity.
Qed.

(** The strategy of the module, as the fields it finds. *)
Lemma module_unstructured_text_fields (verdicts : verdict_order)
    (confidence_levels : confidence_order) (input : string) :
  LlmOutputParser.extract_evaluation_from_unstructured_text verdicts
    confidence_levels input
  = if is_empty input then Raise ValueError
    else
      Ok (PyDict
            (found_fields
               (labeled_reasoning LlmOutputParser.clean_text input)
               (labeled_verdict LlmOutputParser.clean_text verdicts input)
               (labeled_confidence LlmOutputParser.clean_text
                  confidence_levels input))).
Proof.
  destruct input as [| c0 t0]; [reflexivity |].
  unfold LlmOutputParser.extract_evaluation_from_unstructured_text,
    labeled_reasoning, labeled_verdict, labeled_confidence,
    verdict_section, confidence_section, nonempty_section, reasoning_from,
    LlmOutputParser.extract_section, Evaluation.extract_section.
  cbn [is_empty]. set (low := lower (String c0 t0)).
  destruct (option_map strip
              (Re.search_group1 (Re.Between "reasoning:" "verdict:") low))
    as [[| c1 t1] |];
  destruct (option_map strip
              (Re.search_group1 (Re.Between "verdict:" "confidence:") low))
    as [[| c2 t2] |];
  destruct (option_map strip (Re.search_group1 (Re.After "confidence:") low))
    as [[| c3 t3] |];
  cbn [option_map]; rewrite ?module_assign_first_capitalized_pick;
  repeat match goal with
    | |- context [pick ?v ?t] => destruct (pick v t)
    end;
  reflexivity.
Qed.

(** *** What the fields are made of *)

Lemma pick_some (valid : list string) (text v : string) :
  pick valid text = Some v -> In v valid /\ str_in v text = true.
Proof. unfold pick. intros H. now apply find_some in H. Qed.

Lemma nonempty_section_some (pattern : Re.section_pattern)
    (low x : string) :
  nonempty_section pattern low = Some x ->
  Evaluation.extract_section pattern low = Some x /\ x <> EmptyString.
Proof.
  unfold nonempty_section.
  destruct (Evaluation.extract_section pattern low) as [[| c t] |];
    try discriminate.
  intros E; inversion E. split; [reflexivity | discriminate].
Qed.

Lemma labeled_verdict_token (clean : string -> string)
    (o : verdict_order) (input v : string) :
  labeled_verdict clean o input = Some v -> v = "pass" \/ v = "fail".
Proof.
  unfold labeled_verdict. destruct (verdict_section clean input);
    [| discriminate].
  intros H. apply pick_some in H as [H _].
  destruct o; simpl in H; intuition.
Qed.

Lemma labeled_confidence_token (clean : string -> string)
    (o : confidence_order) (input c : string) :
  labeled_confidence clean o input = Some c ->
  c = "low" \/ c = "medium" \/ c = "high".
Proof.
  unfold labeled_confidence. destruct (confidence_section clean input);
    [| discriminate].
  intros H. apply pick_some in H as [H _].
  destruct o; simpl in H; intuition.
Qed.

(** *** Lower case *)

Lemma lower_char_idempotent (c : ascii) :
  lower_char (lower_char c) = lower_char c.
Proof. destruct c as [[] [] [] [] [] [] [] []]; reflexivity. Qed.

Lemma lowered_lower (s : string) : lowered (lower s) = true.
Proof.
  unfold lowered. induction s as [| c t IH]; simpl; [reflexivity |].
  rewrite lower_char_idempotent, Ascii.eqb_refl. exact IH.
Qed.

Lemma plain_text (s : string) :
  str_forall plain_char s = true -> lower s = s /\ no_dquote s = true.
Proof.
  unfold plain_char, no_dquote.
  induction s as [| c t IH]; simpl; [now split |].
  intros H. apply andb_true_iff in H as [Hc Ht].
  apply andb_true_iff in Hc as [Hl Hq].
  destruct (IH Ht) as [El Eq]. apply Ascii.eqb_eq in Hl.
  now rewrite Hl, El, Hq, Eq.
Qed.

(** *** The characters of the reasoning *)

Lemma str_forall_sub_markers P (m : ascii -> bool) (s : string) :
  str_forall P s = true ->
  forall st, str_forall P (Re.sub_markers m st s) = true.
Proof.
  induction s as [| c t IH]; simpl; [reflexivity |].
  intros H st. apply andb_true_iff in H as [Hc Ht]. specialize (IH Ht).
  destruct st as [| | nl |]; simpl;
    repeat match goal with
      | |- context [if ?b then _ else _] => destruct b
      end;
    simpl; rewrite ?Hc; simpl; auto.
Qed.

Lemma str_forall_remove_dquote P (s : string) :
  str_forall P s = true ->
  str_forall (fun c => P c && negb (Ascii.eqb c dquote))
    (remove_char dquote s) = true.
Proof.
  induction s as [| c t IH]; simpl; [reflexivity |].
  intros H. apply andb_true_iff in H as [Hc Ht]. specialize (IH Ht).
  destruct (Ascii.eqb c dquote) eqn:E; [exact IH |].
  simpl. now rewrite Hc, E, IH.
Qed.

Lemma plain_after_cleaning (m : ascii -> bool) (s : string) :
  lowered s = true ->
  str_forall plain_char
    (remove_char dquote (strip (Re.sub_markers m Re.AtLineStart s)))
  = true.
Proof.
  intros H. unfold plain_char, lowered in *.
  apply (str_forall_remove_dquote (fun c => Ascii.eqb (lower_char c) c)).
  apply EquivalenceFacts.str_forall_strip.
  now apply str_forall_sub_markers.
Qed.

Lemma labeled_reasoning_plain (m : ascii -> bool) (input r : string) :
  labeled_reasoning
    (fun text =>
       remove_char dquote (strip (Re.sub_markers m Re.AtLineStart text)))
    input = Some r ->
  lower r = r /\ no_dquote r = true.
Proof.
  unfold labeled_reasoning.
  destruct (nonempty_section _ (lower input)) as [x |] eqn:E;
    [| discriminate].
  apply nonempty_section_some in E as [E _].
  cbn [option_map]. intros R; inversion R; subst r. clear R.
  pose proof (EquivalenceFacts.str_forall_extract_section _ _ _ _
                (lowered_lower input) E) as Hx.
  pose proof (plain_after_cleaning m x Hx) as Hp.
  apply plain_text. unfold reasoning_from. cbv zeta.
  destruct (startswith ":" _); [| exact Hp].
  apply EquivalenceFacts.str_forall_strip.
  now apply EquivalenceFacts.str_forall_drop.
Qed.

(** X7.  The labeled-section strategy of the class returns [None] or a
    dictionary with exactly the keys reasoning, verdict, confidence, in
    that order, where the verdict is Pass or Fail, the confidence is Low,
    Medium or High, and the reasoning is a text in lower case ([lower]
    leaves it as it is) without double quote. *)
Theorem labeled_strategy_invariants (verdicts : verdict_order)
    (confidence_levels : confidence_order) (input : string) :
  Evaluation._extract_from_unstructured_text verdicts confidence_levels
    input = Ok PyNone
  \/ exists r v c,
       Evaluation._extract_from_unstructured_text verdicts
         confidence_levels input
       = Ok (three_fields (PyStr r) (PyStr v) (PyStr c))
       /\ (v = "Pass" \/ v = "Fail")
       /\ (c = "Low" \/ c = "Medium" \/ c = "High")
       /\ lower r = r
       /\ no_dquote r = true.
Proof.
  rewrite unstructured_text_fields.
  destruct (labeled_reasoning _ input) as [r |] eqn:Er; [| now left].
  destruct (labeled_verdict _ verdicts input) as [v |] eqn:Ev;
    [| now left].
  destruct (labeled_confidence _ confidence_levels input) as [c |] eqn:Ec;
    [| now left].
  right. exists r, (capitalize v), (capitalize c).
  split; [reflexivity |].
  split; [apply labeled_verdict_token in Ev as [-> | ->]; auto |].
  split; [apply labeled_confidence_token in Ec as [-> | [-> | ->]]; auto |].
  exact (labeled_reasoning_plain Evaluation.ismarker _ _ Er).
Qed.

(** *** Scoring what the strategy returns *)

Lemma tokens_make_a_judgment (r : pyval) (v c : string) :
  v = "pass" \/ v = "fail" ->
  c = "low" \/ c = "medium" \/ c = "high" ->
  exists vm cm,
    judgment_of
      (three_fields r (PyStr (capitalize v)) (PyStr (capitalize c)))
      vm cm.
Proof.
  intros Hv Hc.
  assert (exists vm, lower (capitalize v) = ScoringRVC.Verdict_value vm)
    as [vm Evm].
  { destruct Hv as [-> | ->];
      [exists ScoringRVC.PASS | exists ScoringRVC.FAIL]; reflexivity. }
  assert (exists cm,
             lower (capitalize c) = ScoringRVC.ConfidenceLevel_value cm)
    as [cm Ecm].
  { destruct Hc as [-> | [-> | ->]];
      [exists ScoringRVC.LOW | exists ScoringRVC.MEDIUM
       | exists ScoringRVC.HIGH]; reflexivity. }
  exists vm, cm. unfold judgment_of, three_fields.
  do 3 eexists. split; [reflexivity |].
  split; [reflexivity |]. split; [reflexivity |].
  split; assumption.
Qed.

Lemma found_fields_complete (r v c : option string) (ks : list pyval) :
  Py.keys (PyDict (found_fields r v c)) = Ok ks ->
  Py.issubset default_required_keys ks = true ->
  exists r' v' c', r = Some r' /\ v = Some v' /\ c = Some c'.
Proof.
  destruct r as [r' |], v as [v' |], c as [c' |]; intros K; inversion K;
    subst ks; intros S; try (vm_compute in S; discriminate S).
  now exists r', v', c'.
Qed.

(** X8.  Whatever the labeled-section strategy hands to the caller can be
    scored: the result of the class's strategy when it is not [None], and
    the result of the module's strategy when it has the three required
    keys, is a judgment on which [get_score] of any schema returns the
    field for its verdict and confidence. *)
Theorem labeled_results_are_scorable (verdicts : verdict_order)
    (confidence_levels : confidence_order) (input : string) (out : pyval) :
  (Evaluation._extract_from_unstructured_text verdicts confidence_levels
     input = Ok out
   /\ out <> PyNone)
  \/ (LlmOutputParser.extract_evaluation_from_unstructured_text verdicts
        confidence_levels input = Ok out
      /\ exists ks,
           Py.keys out = Ok ks
           /\ Py.issubset default_required_keys ks = true) ->
  exists v c,
    judgment_of out v c
    /\ forall self : ScoringRVC.ScoreSchemaRVC,
         ScoringRVC.get_score self out = Ok (field_of self v c).
Proof.
  intros H.
  assert (exists v c, judgment_of out v c) as (v & c & J).
  { destruct H as [[E Hn] | [E (ks & K & S)]].
    - rewrite unstructured_text_fields in E.
      destruct (labeled_reasoning _ input) as [r |];
        [| inversion E; congruence].
      destruct (labeled_verdict _ verdicts input) as [v |] eqn:Ev;
        [| inversion E; congruence].
      destruct (labeled_confidence _ confidence_levels input) as [c |]
        eqn:Ec; [| inversion E; congruence].
      inversion E. apply tokens_make_a_judgment.
      + exact (labeled_verdict_token _ _ _ _ Ev).
      + exact (labeled_confidence_token _ _ _ _ Ec).
    - rewrite module_unstructured_text_fields in E.
      destruct (is_empty input); [discriminate |].
      inversion E; subst out.
      destruct (found_fields_complete _ _ _ _ K S)
        as (r & v & c & Er & Ev & Ec).
      rewrite Er, Ev, Ec. apply tokens_make_a_judgment.
      + exact (labeled_verdict_token _ _ _ _ Ev).
      + exact (labeled_confidence_token _ _ _ _ Ec). }
  exists v, c. split; [exact J |].
  intros self. now apply ScoringMore.get_score_of_judgment.
Qed.

Lemma labeled_results_are_scorable_witness :
  exists v c,
    judgment_of
      (three_fields (PyStr "every specification is there.") (PyStr "Pass")
         (PyStr "High")) v c
    /\ forall self : ScoringRVC.ScoreSchemaRVC,
         ScoringRVC.get_score self
           (three_fields (PyStr "every specification is there.")
              (PyStr "Pass") (PyStr "High"))
         = Ok (field_of self v c).
Proof.
  apply (labeled_results_are_scorable PassFail LMH labeled_example).
  left. split; [vm_compute; reflexivity | discriminate].
Defined.

(** *** The iteration order of the set literals *)

Lemma pick_verdict_any_order (o o' : verdict_order)
    (section : option string) :
  single_token ["pass"; "fail"] section = true ->
  match section with
  | Some text => pick (valid_verdicts o) text
  | None => None
  end
  = match section with
    | Some text => pick (valid_verdicts o') text
    | None => None
    end.
Proof.
  destruct section as [text |]; [| reflexivity].
  unfold single_token, pick. cbn [filter].
  destruct o, o'; cbn [valid_verdicts find];
    destruct (str_in "pass" text), (str_in "fail" text);
    try reflexivity; intros H; discriminate H.
Qed.

Lemma pick_confidence_any_order (o o' : confidence_order)
    (section : option string) :
  single_token ["low"; "medium"; "high"] section = true ->
  match section with
  | Some text => pick (valid_confidence_levels o) text
  | None => None
  end
  = match section with
    | Some text => pick (valid_confidence_levels o') text
    | None => None
    end.
Proof.
  destruct section as [text |]; [| reflexivity].
  unfold single_token, pick. cbn [filter].
  destruct o, o'; cbn [valid_confidence_levels find];
    destruct (str_in "low" text), (str_in "medium" text),
      (str_in "high" text);
    try reflexivity; intros H; discriminate H.
Qed.

Section AnyLibrary.

Variable json_loads : string -> result pyval.
Variable literal_eval : string -> result pyval.

(** X9.  The iteration order of the two set literals has no influence on
    the labeled-section strategy, nor on [parse_raw_evaluation] of the
    class, for a text whose verdict section names at most one of pass and
    fail and whose confidence section names at most one of low, medium
    and high. *)
Theorem iteration_order_is_irrelevant_for_single_tokens
    (registry : list method) (input : string)
    (required_keys : option (list string)) :
  single_token ["pass"; "fail"]
    (verdict_section Evaluation.clean_text input) = true ->
  single_token ["low"; "medium"; "high"]
    (confidence_section Evaluation.clean_text input) = true ->
  forall (o o' : verdict_order) (k k' : confidence_order),
    Evaluation._extract_from_unstructured_text o k input
    = Evaluation._extract_from_unstructured_text o' k' input
    /\ Evaluation.parse_raw_evaluation json_loads literal_eval o k
         registry input required_keys
       = Evaluation.parse_raw_evaluation json_loads literal_eval o' k'
           registry input required_keys.
Proof.
  intros Hv Hc o o' k k'.
  assert (E : Evaluation._extract_from_unstructured_text o k input
              = Evaluation._extract_from_unstructured_text o' k' input).
  { rewrite !unstructured_text_fields. unfold labeled_verdict,
      labeled_confidence.
    rewrite (pick_verdict_any_order o o' _ Hv).
    rewrite (pick_confidence_any_order k k' _ Hc). reflexivity. }
  split; [exact E |].
  unfold Evaluation.parse_raw_evaluation, Evaluation.parsing_methods.
  cbn [app Evaluation.try_each]. unfold Evaluation.attempt at 3 6.
  rewrite E. reflexivity.
Qed.

End AnyLibrary.

Lemma iteration_order_is_irrelevant_for_single_tokens_witness :
  Evaluation._extract_from_unstructured_text PassFail LMH labeled_example
  = Evaluation._extract_from_unstructured_text FailPass HML labeled_example
  /\ Evaluation.parse_raw_evaluation JsonLib.loads AstLib.literal_eval
       PassFail LMH [] labeled_example None
     = Evaluation.parse_raw_evaluation JsonLib.loads AstLib.literal_eval
         FailPass HML [] labeled_example None.
Proof.
  apply (iteration_order_is_irrelevant_for_single_tokens JsonLib.loads
           AstLib.literal_eval [] labeled_example None);
    vm_compute; reflexivity.
Defined.

(** X10.  When the verdict section names both pass and fail, the verdict
    of the labeled-section strategy is decided by the iteration order of
    the set literal alone: Pass when pass comes first, Fail when fail
    comes first, with the same reasoning and confidence. *)
Theorem iteration_order_decides_between_two_verdicts
    (confidence_levels : confidence_order) (input text : string)
    (out : pyval) :
  verdict_section Evaluation.clean_text input = Some text ->
  str_in "pass" text = true ->
  str_in "fail" text = true ->
  Evaluation._extract_from_unstructured_text PassFail confidence_levels
    input = Ok out ->
  out <> PyNone ->
  exists r c,
    out = three_fields (PyStr r) (PyStr "Pass") (PyStr c)
    /\ Evaluation._extract_from_unstructured_text FailPass
         confidence_levels input
       = Ok (three_fields (PyStr r) (PyStr "Fail") (PyStr c)).
Proof.
  intros Hs Hp Hf E Hn. rewrite unstructured_text_fields in E |- *.
  unfold labeled_verdict in *. rewrite Hs in *.
  unfold pick in *. cbn [valid_verdicts find] in *.
  rewrite Hp in E. rewrite Hf.
  destruct (labeled_reasoning _ input) as [r |];
    [| inversion E; congruence].
  destruct (labeled_confidence _ confidence_levels input) as [c |];
    [| inversion E; congruence].
  inversion E. exists r, (capitalize c). split; reflexivity.
Qed.

Lemma iteration_order_decides_between_two_verdicts_witness :
  exists r c,
    three_fields (PyStr "close.") (PyStr "Pass") (PyStr "Low")
    = three_fields (PyStr r) (PyStr "Pass") (PyStr c)
    /\ Evaluation._extract_from_unstructured_text FailPass LMH
         two_verdicts_example
       = Ok (three_fields (PyStr r) (PyStr "Fail") (PyStr c)).
Proof.
  apply (iteration_order_decides_between_two_verdicts LMH
           two_verdicts_example "pass rather than fail").
  - vm_compute; reflexivity.
  - vm_compute; reflexivity.
  - vm_compute; reflexivity.
  - vm_compute; reflexivity.
  - discriminate.
Defined.

(** X11.  The labeled-section strategy of the module raises [ValueError]
    on the empty text and on no other; on every other text it returns a
    dictionary, never [None], that holds the fields it found, in the
    order reasoning, verdict, confidence: a reasoning in lower case
    without double quote, a verdict Pass or Fail, a confidence Low,
    Medium or High. *)
Theorem module_level_labeled_strategy_outcomes (verdicts : verdict_order)
    (confidence_levels : confidence_order) (input : string) :
  (input = EmptyString /\
   LlmOutputParser.extract_evaluation_from_unstructured_text verdicts
     confidence_levels input = Raise ValueError)
  \/ (input <> EmptyString /\
      exists r v c,
        LlmOutputParser.extract_evaluation_from_unstructured_text verdicts
          confidence_levels input = Ok (PyDict (found_fields r v c))
        /\ (forall x, r = Some x -> lower x = x /\ no_dquote x = true)
        /\ (forall x, v = Some x -> x = "pass" \/ x = "fail")
        /\ (forall x, c = Some x ->
              x = "low" \/ x = "medium" \/ x = "high")).
Proof.
  rewrite module_unstructured_text_fields.
  destruct input as [| c0 t0]; [left; split; reflexivity |].
  right. split; [discriminate |]. cbn [is_empty].
  set (input := String c0 t0).
  exists (labeled_reasoning LlmOutputParser.clean_text input),
    (labeled_verdict LlmOutputParser.clean_text verdicts input),
    (labeled_confidence LlmOutputParser.clean_text confidence_levels input).
  split; [reflexivity |]. split; [| split].
  - intros x Er.
    exact (labeled_reasoning_plain LlmOutputParser.ismarker _ _ Er).
  - intros x Ev. exact (labeled_verdict_token _ _ _ _ Ev).
  - intros x Ec. exact (labeled_confidence_token _ _ _ _ Ec).
Qed.

End LabeledMore.

(* ================================================================== *)
(** ** Further properties of the registry of strategies *)

Module RegistryMore.
Import Props MoreProps.

Section AnyLibrary.

Variable json_loads : string -> result pyval.
Variable literal_eval : string -> result pyval.
Variable verdicts : verdict_order.
Variable confidence_levels : confidence_order.

(** The loop over two lists of methods, one after the other. *)
Lemma try_each_app (methods more : list method) (raw : string)
    (required : list string) :
  Evaluation.try_each (methods ++ more) raw required
  = match Evaluation.try_each methods raw required with
    | Ok PyNone => Evaluation.try_each more raw required
    | r => r
    end.
Proof.
  induction methods as [| m rest IH]; cbn [app Evaluation.try_each].
  - reflexivity.
  - destruct (OrderFacts.attempt_cases m raw required)
      as [(d & (Ht & _) & E) | [_ E]]; rewrite E; cbn [bind].
    + destruct d; try reflexivity. discriminate Ht.
    + exact IH.
Qed.

Lemma try_each_one (m : method) (raw : string) (required : list string) :
  (forall d, succeeds required raw m d ->
             Evaluation.try_each [m] raw required = Ok d)
  /\ ((forall d, ~ succeeds required raw m d) ->
      Evaluation.try_each [m] raw required = Ok PyNone).
Proof.
  cbn [Evaluation.try_each].
  destruct (OrderFacts.attempt_cases m raw required)
    as [(d & Hd & E) | [Hm E]]; rewrite E; cbn [bind]; split.
  - intros d' Hd'. destruct Hd as (_ & Ed & _), Hd' as (_ & Ed' & _).
    congruence.
  - intros H. exfalso. exact (H d Hd).
  - intros d' Hd'. exfalso. exact (Hm d' Hd').
  - reflexivity.
Qed.

(** X12.  Registering a strategy never changes what [parse_raw_evaluation]
    returns on a text that was parsed before; on a text that was not, the
    new strategy is the last resort: its output is returned when it is
    non-empty and has the required keys, and [None] otherwise. *)
Theorem registered_method_is_a_last_resort (registry : list method)
    (m : method) (raw : string) (required_keys : option (list string)) :
  let required :=
    match required_keys with
    | None => default_required_keys
    | Some l => l
    end in
  let before :=
    Evaluation.parse_raw_evaluation json_loads literal_eval verdicts
      confidence_levels registry raw required_keys in
  let after :=
    Evaluation.parse_raw_evaluation json_loads literal_eval verdicts
      confidence_levels (Evaluation.register_parsing_method registry m)
      raw required_keys in
  (forall d, before = Ok d -> d <> PyNone -> after = Ok d)
  /\ (before = Ok PyNone ->
      (forall d, succeeds required raw m d -> after = Ok d)
      /\ ((forall d, ~ succeeds required raw m d) -> after = Ok PyNone)).
Proof.
  intros required before after.
  set (methods := Evaluation.parsing_methods json_loads literal_eval
                    verdicts confidence_levels registry).
  assert (Eb : before = Evaluation.try_each methods raw required)
    by reflexivity.
  assert (Ea : after
               = Evaluation.try_each (methods ++ [m]) raw required).
  { unfold after, methods, Evaluation.parse_raw_evaluation,
      Evaluation.parsing_methods, Evaluation.register_parsing_method.
    cbv zeta. now rewrite app_assoc. }
  clearbody before after. subst before after.
  rewrite (try_each_app methods [m]).
  destruct (Evaluation.try_each methods raw required) as [d | e].
  - split.
    + intros d' E Hd. injection E as <-. destruct d; congruence.
    + intros E. injection E as ->. apply try_each_one.
  - split; [intros d E | intros E]; discriminate E.
Qed.

End AnyLibrary.

End RegistryMore.

(* ================================================================== *)
(** ** Properties of the validators of the configuration *)

Module ConfigMore.
Import Props MoreProps.

Lemma str_forall_app P (a b : string) :
  str_forall P (a ++ b) = str_forall P a && str_forall P b.
Proof.
  induction a as [| c a IH]; simpl; [reflexivity |].
  now rewrite IH, andb_assoc.
Qed.

(** *** [strip] *)

Lemma lstrip_split (s : string) :
  exists a, s = a ++ lstrip s /\ all_space a = true.
Proof.
  induction s as [| c t (a & E & Ha)]; simpl.
  - now exists EmptyString.
  - destruct (isspace c) eqn:Hc.
    + exists (String c a). simpl. unfold all_space in *. simpl.
      rewrite Hc, Ha. split; [now rewrite <- E | reflexivity].
    + now exists EmptyString.
Qed.

Lemma rstrip_split (s : string) :
  exists b, s = rstrip s ++ b /\ all_space b = true.
Proof.
  unfold all_space.
  induction s as [| c t (b & E & Hb)]; simpl.
  - now exists EmptyString.
  - destruct (rstrip t) as [| c' r'].
    + simpl in E. subst t. destruct (isspace c) eqn:Hc.
      * exists (String c b). simpl. now rewrite Hc, Hb.
      * now exists b.
    + exists b. simpl. now rewrite E at 1.
Qed.

Lemma lstrip_first (s : string) :
  lstrip s = EmptyString
  \/ exists c, first_char (lstrip s) = Some c /\ isspace c = false.
Proof.
  induction s as [| c t IH]; simpl; [now left |].
  destruct (isspace c) eqn:Hc; [exact IH |].
  right. now exists c.
Qed.

Lemma rstrip_first (s : string) (c : ascii) :
  first_char s = Some c -> isspace c = false ->
  first_char (rstrip s) = Some c.
Proof.
  destruct s as [| a t]; simpl; [discriminate |].
  intros E Hc. injection E as ->.
  destruct (rstrip t); [now rewrite Hc | reflexivity].
Qed.

Lemma rstrip_last (s : string) :
  rstrip s = EmptyString
  \/ exists c, last_char (rstrip s) = Some c /\ isspace c = false.
Proof.
  induction s as [| a t IH]; simpl; [now left |].
  destruct (rstrip t) as [| c' r'].
  - destruct (isspace a) eqn:Ha; [now left |].
    right. now exists a.
  - right. destruct IH as [IH | IH]; [discriminate |]. exact IH.
Qed.

Lemma lstrip_fixed (r : string) (c : ascii) :
  first_char r = Some c -> isspace c = false -> lstrip r = r.
Proof.
  destruct r as [| a t]; simpl; [discriminate |].
  intros E Hc. injection E as ->. now rewrite Hc.
Qed.

Lemma rstrip_fixed (r : string) (c : ascii) :
  last_char r = Some c -> isspace c = false -> rstrip r = r.
Proof.
  induction r as [| a t IH]; [discriminate |].
  intros E Hc. destruct t as [| b t'].
  - simpl in E. injection E as ->. simpl. now rewrite Hc.
  - change (last_char (String b t') = Some c) in E.
    specialize (IH E Hc). cbn [rstrip] in IH |- *.
    now rewrite IH.
Qed.

Lemma all_space_lstrip (s : string) :
  all_space s = true -> lstrip s = EmptyString.
Proof.
  unfold all_space. induction s as [| c t IH]; simpl; [reflexivity |].
  intros H. apply andb_true_iff in H as [Hc Ht]. now rewrite Hc, IH.
Qed.

(** X13.  [validate_name] rejects exactly the texts made of whitespace
    only, with [ValueError]; from any other text it removes the
    whitespace around it and nothing else: the text is whitespace, the
    result, whitespace, and the result starts and ends with a character
    that is no whitespace.  Validating the result again gives it back. *)
Theorem validate_name_outcomes (v : string) :
  (all_space v = true /\ Config.validate_name v = Raise ValueError)
  \/ exists a r b,
       v = a ++ r ++ b
       /\ all_space a = true /\ all_space b = true
       /\ (exists c, first_char r = Some c /\ isspace c = false)
       /\ (exists c, last_char r = Some c /\ isspace c = false)
       /\ Config.validate_name v = Ok r
       /\ Config.validate_name r = Ok r.
Proof.
  destruct (lstrip_split v) as (a & Ea & Ha).
  destruct (rstrip_split (lstrip v)) as (b & Eb & Hb).
  fold (strip v) in Eb.
  unfold Config.validate_name.
  destruct (lstrip_first v) as [L | (c & Fc & Hc)].
  - left. unfold strip. rewrite L. split; [| reflexivity].
    rewrite Ea, L. unfold all_space in *.
    now rewrite str_forall_app, Ha.
  - right. exists a, (strip v), b.
    pose proof (rstrip_first _ _ Fc Hc) as F. fold (strip v) in F.
    destruct (rstrip_last (lstrip v)) as [R | (c' & Lc & Hc')];
      fold (strip v) in *.
    { rewrite R in F. discriminate. }
    assert (S : strip (strip v) = strip v).
    { unfold strip at 1. rewrite (lstrip_fixed _ _ F Hc).
      exact (rstrip_fixed _ _ Lc Hc'). }
    rewrite S.
    assert (N : is_empty (strip v) = false)
      by (destruct (strip v); [discriminate | reflexivity]).
    rewrite N.
    repeat split; eauto.
    rewrite <- Eb. exact Ea.
Qed.

(** *** [rstrip('/')] *)

Lemma rstrip_char_split (c : ascii) (s : string) :
  exists b, s = Config.rstrip_char c s ++ b
            /\ str_forall (fun x => Ascii.eqb x c) b = true.
Proof.
  induction s as [| a t (b & E & Hb)]; simpl.
  - now exists EmptyString.
  - destruct (Config.rstrip_char c t) as [| c' r'].
    + simpl in E. subst t. destruct (Ascii.eqb a c) eqn:Ha.
      * exists (String a b). simpl. now rewrite Ha, Hb.
      * now exists b.
    + exists b. simpl. now rewrite E at 1.
Qed.

Lemma rstrip_char_last (c : ascii) (s : string) :
  last_char (Config.rstrip_char c s) <> Some c.
Proof.
  induction s as [| a t IH]; simpl; [discriminate |].
  destruct (Config.rstrip_char c t) as [| c' r'].
  - destruct (Ascii.eqb a c) eqn:Ha; [discriminate |].
    simpl. apply Ascii.eqb_neq in Ha. congruence.
  - exact IH.
Qed.

Lemma rstrip_char_fixed (c : ascii) (r : string) :
  last_char r <> Some c -> Config.rstrip_char c r = r.
Proof.
  induction r as [| a t IH]; [reflexivity |].
  intros H. destruct t as [| b t'].
  - simpl in *. destruct (Ascii.eqb a c) eqn:Ha; [| reflexivity].
    apply Ascii.eqb_eq in Ha. congruence.
  - change (last_char (String b t') <> Some c) in H.
    specialize (IH H). cbn [Config.rstrip_char] in IH |- *.
    now rewrite IH.
Qed.

(** X14.  [validate_base_url] rejects exactly the texts that start with
    neither scheme, with [ValueError]; from any other text it removes
    the slashes at the end and nothing else.  The result validates to
    itself, except that a text made of a scheme and slashes only loses
    the slashes of the scheme, and the result is then no valid base
    URL. *)
Theorem validate_base_url_outcomes (v : string) :
  (startswith "http://" v = false /\ startswith "https://" v = false
   /\ Config.validate_base_url v = Raise ValueError)
  \/ ((startswith "http://" v = true \/ startswith "https://" v = true)
      /\ exists r b,
           v = r ++ b
           /\ all_slash b = true
           /\ last_char r <> Some "/"%char
           /\ Config.validate_base_url v = Ok r
           /\ (Config.validate_base_url r = Ok r
               \/ (r = "http:"
                   /\ Config.validate_base_url r = Raise ValueError)
               \/ (r = "https:"
                   /\ Config.validate_base_url r = Raise ValueError))).
Proof.
  unfold Config.validate_base_url at 1 2.
  destruct (startswith "http://" v) eqn:H1;
    [| destruct (startswith "https://" v) eqn:H2; [| now left]].
  - right. split; [now left |].
    destruct (rstrip_char_split "/" v) as (b & E & Hb).
    exists (Config.rstrip_char "/" v), b.
    split; [exact E |]. split; [exact Hb |].
    split; [apply rstrip_char_last |]. split; [reflexivity |].
    apply TokenFacts.startswith_iff in H1 as [w ->].
    unfold Config.validate_base_url.
    rewrite (rstrip_char_fixed "/" _ (rstrip_char_last "/" _)).
    simpl. destruct (Config.rstrip_char "/" w); simpl; auto.
  - right. split; [now right |].
    destruct (rstrip_char_split "/" v) as (b & E & Hb).
    exists (Config.rstrip_char "/" v), b.
    split; [exact E |]. split; [exact Hb |].
    split; [apply rstrip_char_last |]. split; [reflexivity |].
    apply TokenFacts.startswith_iff in H2 as [w ->].
    unfold Config.validate_base_url.
    rewrite (rstrip_char_fixed "/" _ (rstrip_char_last "/" _)).
    simpl. destruct (Config.rstrip_char "/" w); simpl; auto.
Qed.

End ConfigMore.

(* ================================================================== *)
(** ** The validator of the reasoning *)

Module ReasoningMore.
Import Props MoreProps.

(** X3.  [validate_reasoning] rejects exactly the texts made of
    whitespace only, the empty text among them, with [ValueError]; it
    returns every other text as it is, the whitespace around it
    included. *)
Theorem validate_reasoning_outcomes (value : string) :
  (all_space value = true
   /\ Evaluation.validate_reasoning value = Raise ValueError)
  \/ (all_space value = false
      /\ Evaluation.validate_reasoning value = Ok value).
Proof.
  destruct (ConfigMore.lstrip_split value) as (a & Ea & Ha).
  unfold Evaluation.validate_reasoning, strip, all_space in *.
  destruct (ConfigMore.lstrip_first value) as [L | (c & Fc & Hc)].
  - left. rewrite L. cbn [rstrip is_empty]. rewrite orb_true_r.
    split; [| reflexivity].
    rewrite Ea, L, ConfigMore.str_forall_app, Ha. reflexivity.
  - right. pose proof (ConfigMore.rstrip_first _ _ Fc Hc) as F.
    assert (Hn : str_forall isspace (lstrip value) = false).
    { destruct (lstrip value) as [| c' t]; [discriminate |].
      simpl in Fc. injection Fc as ->. simpl. now rewrite Hc. }
    split.
    + rewrite Ea, ConfigMore.str_forall_app, Hn. apply andb_false_r.
    + destruct value as [| c0 t0]; [discriminate |].
      destruct (rstrip (lstrip (String c0 t0))); [discriminate |].
      reflexivity.
Qed.

End ReasoningMore.

(* ================================================================== *)
(** ** Properties of the model factory *)

Module AgentMore.
Import Props MoreProps.

Lemma endswith_iff (suffix s : string) :
  Agent.endswith suffix s = true <-> exists u, s = u ++ suffix.
Proof.
  split.
  - induction s as [| c t IH]; simpl; intros H.
    + rewrite orb_false_r in H. apply String.eqb_eq in H.
      exists EmptyString. now subst.
    + apply orb_true_iff in H as [H | H].
      * apply String.eqb_eq in H. exists EmptyString. now subst.
      * destruct (IH H) as [u ->]. now exists (String c u).
  - intros [u ->]. induction u as [| c u IH]; simpl.
    + destruct suffix; cbn [append Agent.endswith];
        now rewrite String.eqb_refl.
    + rewrite IH. apply orb_true_r.
Qed.

Lemma drop_last_app (u : string) (c : ascii) :
  Agent.drop_last (u ++ String c EmptyString) = u.
Proof.
  induction u as [| a u IH]; [reflexivity |].
  cbn [append Agent.drop_last]. rewrite IH.
  destruct u; reflexivity.
Qed.

(** The keys that are placeholders are the texts that name a variable
    between a dollar sign with an opening brace and a closing brace. *)
Lemma placeholder_iff (api_key : string) :
  negb (is_empty api_key) && startswith "${" api_key
  && Agent.endswith "}" api_key = true
  <-> exists var, api_key = "${" ++ var ++ "}".
Proof.
  split.
  - intros H. apply andb_true_iff in H as [H He].
    apply andb_true_iff in H as [_ Hs].
    apply TokenFacts.startswith_iff in Hs as [t ->].
    apply endswith_iff in He as [u E].
    destruct u as [| a [| b u]]; simpl in E; try discriminate.
    injection E as _ _ E. exists u. now rewrite E.
  - intros [var ->]. simpl. apply endswith_iff. now exists var.
Qed.

Lemma slice_of_placeholder (var : string) :
  Agent.slice_2_minus_1 ("${" ++ var ++ "}") = var.
Proof.
  unfold Agent.slice_2_minus_1.
  change ("${" ++ var ++ "}") with (("${" ++ var) ++ "}").
  now rewrite drop_last_app.
Qed.

Section AnyEnvironment.

Variable getenv : string -> option string.
Variable model : Type.
Variable OllamaModel : string -> string -> result model.
Variable OpenAIModel : string -> string -> string -> result model.

(** X15.  [create_model] constructs the model of the platform of the
    configuration, and the branch for an unsupported platform is never
    taken.  A key of the form of a placeholder is replaced by the value
    of the environment variable it names, and when that variable is unset
    or empty the function raises [ValueError] before any constructor is
    called, also for the platform that makes no use of the key; any other
    key is passed on as it is. *)
Theorem create_model_outcomes (config : Config.LLMConfig) :
  let construct key :=
    match Config.platform config with
    | Config.Ollama =>
        OllamaModel (Config.name config) (Config.base_url config)
    | Config.Openai =>
        OpenAIModel (Config.name config) (Config.base_url config) key
    end in
  (forall var,
      Config.api_key config = "${" ++ var ++ "}" ->
      Agent.create_model getenv model OllamaModel OpenAIModel config
      = match getenv var with
        | Some (String c t) => construct (String c t)
        | _ => Raise ValueError
        end)
  /\ ((forall var, Config.api_key config <> "${" ++ var ++ "}") ->
      Agent.create_model getenv model OllamaModel OpenAIModel config
      = construct (Config.api_key config)).
Proof.
  intros construct.
  assert (P : forall key,
             (if String.eqb
                   (lower (Config.platform_text (Config.platform config)))
                   "ollama"
              then OllamaModel (Config.name config) (Config.base_url config)
              else if String.eqb
                        (lower (Config.platform_text
                                  (Config.platform config)))
                        "openai"
              then OpenAIModel (Config.name config) (Config.base_url config)
                     key
              else Raise ValueError) = construct key).
  { intros key. unfold construct.
    destruct (Config.platform config); reflexivity. }
  unfold Agent.create_model, Agent.resolve_api_key. split.
  - intros var E. rewrite E.
    rewrite (proj2 (placeholder_iff _) (ex_intro _ var eq_refl)).
    rewrite slice_of_placeholder. cbv zeta.
    destruct (getenv var) as [[| c t] |]; cbn [is_empty bind];
      [reflexivity | apply P | reflexivity].
  - intros H.
    destruct (negb (is_empty (Config.api_key config))
              && startswith "${" (Config.api_key config)
              && Agent.endswith "}" (Config.api_key config)) eqn:E.
    + apply placeholder_iff in E as [var E]. exfalso. exact (H var E).
    + cbn [bind]. apply P.
Qed.

End AnyEnvironment.

End AgentMore.

(* ================================================================== *)
(** ** Further properties of the two pipelines *)

Module PipelineMore.
Import Props MoreProps.

Lemma lookup_of_key (items : list (pyval * pyval)) (k : string) :
  existsb (Py.key_is k) (map fst items) = true ->
  exists v, Py.lookup items k = Some v.
Proof.
  induction items as [| [key v] r IH]; simpl; [discriminate |].
  destruct (Py.key_is k key); [intros _; now exists v | exact IH].
Qed.

(** With both keys present the scorer can only fail on the values. *)
Lemma get_score_with_keys (self : ScoringRVC.ScoreSchemaRVC)
    (items : list (pyval * pyval)) (v c : pyval) (e : exn) :
  Py.lookup items "verdict" = Some v ->
  Py.lookup items "confidence" = Some c ->
  ScoringRVC.get_score self (PyDict items) = Raise e ->
  e = AttributeError \/ e = ValueError.
Proof.
  destruct ScoringMore.of_value_raises_value_error_only as [HV HC].
  intros Lv Lc. unfold ScoringRVC.get_score, Py.getitem.
  rewrite Lv, Lc. cbn [bind].
  unfold ScoringRVC.Verdict_from_string, Py.method_lower.
  destruct v as [| | | | sv | | | |];
    try (intros E; inversion E; auto).
  clear E. revert H0. cbn [bind].
  destruct (ScoringRVC.Verdict_of_value (lower sv)) as [vm | e'] eqn:Ev;
    [| intros E; inversion E; subst; apply HV in Ev; auto].
  cbn [bind].
  unfold ScoringRVC.ConfidenceLevel_from_string, Py.method_lower.
  destruct c as [| | | | sc | | | |];
    try (intros E; inversion E; auto).
  clear E. revert H0. cbn [bind].
  destruct (ScoringRVC.ConfidenceLevel_of_value (lower sc))
    as [cm | e'] eqn:Ec;
    [| intros E; inversion E; subst; apply HC in Ec; auto].
  cbn [bind]. cbv zeta.
  pose proof (ScoringMore.getattr_field self vm cm) as G.
  cbn [append] in G |- *. rewrite G. discriminate.
Qed.

Section AnyLibrary.

Variable json_loads : string -> result pyval.
Variable literal_eval : string -> result pyval.
Variable verdicts : verdict_order.
Variable confidence_levels : confidence_order.

(** X16.  Parsing and then scoring, as the example program does: with the
    default required keys [parse_raw_evaluation] of the class returns
    [None], on which [get_score] raises [TypeError], or a dictionary that
    has the keys verdict and confidence, on which [get_score] cannot raise
    [KeyError] or [TypeError]: it returns a score or raises
    [AttributeError] or [ValueError] for a value that is no token. *)
Theorem parsed_results_carry_the_scored_keys (registry : list method)
    (raw : string) (self : ScoringRVC.ScoreSchemaRVC) :
  exists out,
    Evaluation.parse_raw_evaluation json_loads literal_eval verdicts
      confidence_levels registry raw None = Ok out
    /\ ((out = PyNone /\ ScoringRVC.get_score self out = Raise TypeError)
        \/ exists items v c,
             out = PyDict items
             /\ Py.lookup items "verdict" = Some v
             /\ Py.lookup items "confidence" = Some c
             /\ forall e,
                  ScoringRVC.get_score self out = Raise e ->
                  e = AttributeError \/ e = ValueError).
Proof.
  unfold Evaluation.parse_raw_evaluation.
  match goal with
  | |- context [Evaluation.try_each ?ms ?r ?k] =>
      destruct (OrderFacts.try_each_first_match ms r k) as (out & E & Hv)
  end.
  exists out. split; [exact E |].
  destruct Hv as [(b & m & a & d & _ & _ & (_ & _ & ks & Hk & Hs) & ->)
                 | [_ ->]]; [right | left; split; reflexivity].
  destruct d as [| | | | | | | items |]; try discriminate Hk.
  injection Hk as <-.
  unfold Py.issubset, default_required_keys in Hs. cbn [forallb] in Hs.
  apply andb_true_iff in Hs as [_ Hs].
  apply andb_true_iff in Hs as [Hv Hs].
  apply andb_true_iff in Hs as [Hc _].
  apply lookup_of_key in Hv as [v Lv].
  apply lookup_of_key in Hc as [c Lc].
  exists items, v, c. repeat split; try assumption.
  intros e. exact (get_score_with_keys self items v c e Lv Lc).
Qed.

(** X17.  The module-level [parse_raw_evaluation] raises in its first
    step only, and exactly in two cases: [json.loads] returned a value
    that is not a dictionary, and the exception is the [AttributeError] of
    [.keys()]; or [json.loads] raised an exception that is neither a
    [JSONDecodeError] nor a [TypeError], and that exception comes out. *)
Theorem module_level_raises_exactly_in_the_direct_parse (raw : string)
    (required_keys : option (list string)) (e : exn) :
  LlmOutputParser.parse_raw_evaluation json_loads literal_eval verdicts
    confidence_levels raw required_keys = Raise e
  <-> (exists v,
          json_loads raw = Ok v
          /\ (forall items, v <> PyDict items)
          /\ e = AttributeError)
      \/ (json_loads raw = Raise e
          /\ isinstance e CJSONDecodeError = false
          /\ isinstance e CTypeError = false).
Proof.
  unfold LlmOutputParser.parse_raw_evaluation.
  set (required := match required_keys with
                   | Some l => l
                   | None => default_required_keys
                   end).
  set (b2 := LlmOutputParser.attempt
               (LlmOutputParser.extract_evaluation_from_json_blob
                  literal_eval raw) required).
  set (b3 := LlmOutputParser.attempt
               (LlmOutputParser.extract_evaluation_from_unstructured_text
                  verdicts confidence_levels raw) required).
  assert (T : exists v,
             (r <- try_except b2 [CException] (Ok None) ;;
              match r with
              | Some parsed_result => Ok parsed_result
              | None =>
                  r <- try_except b3 [CException] (Ok None) ;;
                  match r with
                  | Some parsed_result => Ok parsed_result
                  | None => Ok PyNone
                  end
              end) = Ok v).
  { destruct b2 as [[p |] | e2], b3 as [[p3 |] | e3]; simpl; eauto. }
  destruct T as [t T].
  unfold LlmOutputParser.attempt at 1.
  destruct (json_loads raw) as [v | e0] eqn:J; cbn [bind].
  - destruct v as [| | | | | | | items |];
      try (cbn [Py.keys bind try_except existsb isinstance orb];
           split;
           [ intros E; injection E as <-; left; eexists;
             split; [reflexivity | split; [discriminate | reflexivity]]
           | intros [(v & Ev & _ & ->) | (Ev & _)];
             [reflexivity | discriminate Ev] ]).
    cbn [Py.keys bind].
    destruct (Py.issubset required (map fst items));
      cbn [try_except bind]; rewrite ?T;
      (split;
       [ discriminate
       | intros [(v & Ev & Hv & _) | (Ev & _)];
         [injection Ev as <-; exfalso; exact (Hv items eq_refl)
         | discriminate Ev] ]).
  - cbn [try_except existsb]. rewrite orb_false_r.
    destruct (isinstance e0 CJSONDecodeError) eqn:I1; cbn [orb].
    + cbn [bind]. rewrite T. split; [discriminate |].
      intros [(v & Ev & _) | (Ev & I & _)]; [discriminate Ev |].
      injection Ev as <-. congruence.
    + destruct (isinstance e0 CTypeError) eqn:I2.
      * cbn [bind]. rewrite T. split; [discriminate |].
        intros [(v & Ev & _) | (Ev & _ & I)]; [discriminate Ev |].
        injection Ev as <-. congruence.
      * cbn [bind]. split.
        -- intros E. injection E as <-. right. now repeat split.
        -- intros [(v & Ev & _) | (Ev & _)]; [discriminate Ev |].
           now injection Ev as <-.
Qed.

End AnyLibrary.

End PipelineMore.
